(** * simple-ecommerce-chatbot: the intent-resolution pipeline

    A shallow embedding of [src/main.py], [src/db_tool.py], [src/db_model.py]
    and [src/db_seed.py], and the properties of the specification that were
    checked against it.

    Conventions of the embedding.
    - A Python [str] is a [string] holding its UTF-8 encoding.  The
      character classes ([\d], [\w], white space, letter case) are those
      Python has on ASCII text, and there the embedding is exact.  On other
      text Python goes by the Unicode tables, which are not embedded: a
      property that depends on what a pattern, [strip], [split] or [lower]
      does with a text is stated for texts that are ASCII
      ([PyStr.isascii]), and a property stated for all texts does not
      depend on it.  Texts that are only stored, compared for equality or
      put into a reply (the model's text, the catalog's descriptions, the
      dash of the reply templates) are not restricted.
    - The relational store is a record of tables, each a list of rows in
      insertion order.  A query without [ORDER BY] returns rows in table
      order, and [ORDER BY] is a stable sort of the table.
    - Reading the system clock ([datetime.utcnow], [time.time]) takes the
      next value of a sequence of readings, in microseconds, supplied by
      the environment.
    - Library and remote behaviour that the repository does not define
      ([json.loads], [json.dumps], the language-model gateway) enters the
      pipeline as a variable of the section that embeds [src/main.py]. *)

From Stdlib Require Import Strings.String Strings.Ascii Lists.List.
From Stdlib Require Import ZArith Bool Arith Lia.
From Stdlib Require Import Sorting.Permutation Sorting.Sorted.
From Stdlib Require Import Numbers.DecimalString.
Import ListNotations.

Local Open Scope list_scope.
Local Open Scope string_scope.
Set Warnings "-register-all".

(** ** Python text primitives *)

Module PyStr.

Definition code (c : ascii) : nat := nat_of_ascii c.

Definition between (lo hi : nat) (c : ascii) : bool :=
  (lo <=? code c)%nat && (code c <=? hi)%nat.

(** [str.isascii]: every character is below 128.  On such a text a byte
    is a character, and the classes below are Python's. *)
Fixpoint isascii (s : string) : bool :=
  match s with
  | EmptyString => true
  | String c s' => (code c <? 128)%nat && isascii s'
  end.

(** [\d] on ASCII text. *)
Definition is_digit (c : ascii) : bool := between 48 57 c.

(** [\w] on ASCII text: a letter, a digit or the underscore. *)
Definition is_word (c : ascii) : bool :=
  is_digit c || between 65 90 c || between 97 122 c || (code c =? 95)%nat.

(** [str.isspace] on ASCII text, the characters [strip] and [split]
    remove. *)
Definition is_space (c : ascii) : bool :=
  between 9 13 c || between 28 32 c.

(** [str.lower] on ASCII text. *)
Definition lower_char (c : ascii) : ascii :=
  if between 65 90 c then ascii_of_nat (code c + 32) else c.

Fixpoint lower (s : string) : string :=
  match s with
  | EmptyString => EmptyString
  | String c s' => String (lower_char c) (lower s')
  end.

Fixpoint lstrip (s : string) : string :=
  match s with
  | EmptyString => EmptyString
  | String c s' => if is_space c then lstrip s' else s
  end.

Fixpoint rstrip (s : string) : string :=
  match s with
  | EmptyString => EmptyString
  | String c s' =>
      match rstrip s' with
      | EmptyString => if is_space c then EmptyString else String c EmptyString
      | t => String c t
      end
  end.

Definition strip (s : string) : string := rstrip (lstrip s).

(** [s.split()]: the maximal runs of non-space characters. *)
Fixpoint split_go (word : string) (s : string) : list string :=
  match s with
  | EmptyString => match word with EmptyString => [] | _ => [word] end
  | String c s' =>
      if is_space c
      then match word with
           | EmptyString => split_go EmptyString s'
           | _ => word :: split_go EmptyString s'
           end
      else split_go (word ++ String c EmptyString) s'
  end.

Definition split (s : string) : list string := split_go EmptyString s.

Definition startswith (p s : string) : bool := String.prefix p s.

(** [s.find(c)] and [s.rfind(c)] for a one-character needle; [None] is
    Python's [-1]. *)
Fixpoint find (c : ascii) (s : string) : option nat :=
  match s with
  | EmptyString => None
  | String d s' =>
      if Ascii.eqb c d then Some 0%nat
      else match find c s' with Some i => Some (S i) | None => None end
  end.

Fixpoint rfind (c : ascii) (s : string) : option nat :=
  match s with
  | EmptyString => None
  | String d s' =>
      match rfind c s' with
      | Some i => Some (S i)
      | None => if Ascii.eqb c d then Some 0%nat else None
      end
  end.

(** [s[i:j]] for [0 <= i <= j]. *)
Definition slice (i j : nat) (s : string) : string := substring i (j - i) s.

(** Truthiness of a string. *)
Definition nonempty (s : string) : bool :=
  match s with EmptyString => false | _ => true end.

(** [str(n)] for an integer. *)
Definition of_Z (z : Z) : string := NilZero.string_of_int (Z.to_int z).

End PyStr.

(** ** The regular expressions of the program

    Python's [re] is a backtracking matcher; the fragment below has the
    constructs the program's patterns use.  [Digits1] is the greedy [\d+].
    Every pattern of the program has its one group around everything but
    the zero-width [\b], so [group(0)] and [group(1)] are the same text. *)

Module Re.
Import PyStr.

Inductive regex : Type :=
| Lit (s : string)
| Digits1
| WordB
| Cat (r1 r2 : regex)
| Alt (r1 r2 : regex).

(** Equality of two patterns, as the dictionary of [main.py] compares
    its keys. *)
Fixpoint regex_eqb (r1 r2 : regex) : bool :=
  match r1, r2 with
  | Lit a, Lit b => String.eqb a b
  | Digits1, Digits1 => true
  | WordB, WordB => true
  | Cat a b, Cat c d => regex_eqb a c && regex_eqb b d
  | Alt a b, Alt c d => regex_eqb a c && regex_eqb b d
  | _, _ => false
  end.

(** A position in the subject: the character before it, and what is left. *)
Definition cursor : Type := option ascii * string.

(** One character of the pattern against one of the subject; with
    [re.I], on ASCII text, without the case of the letters. *)
Definition char_eq (ic : bool) (p c : ascii) : bool :=
  if ic then Ascii.eqb (lower_char p) (lower_char c) else Ascii.eqb p c.

Fixpoint eat_lit (ic : bool) (p : string) (cur : cursor) : option cursor :=
  match p with
  | EmptyString => Some cur
  | String a p' =>
      match snd cur with
      | String c s' =>
          if char_eq ic a c then eat_lit ic p' (Some c, s') else None
      | EmptyString => None
      end
  end.

(** Greedy [\d+]: the longest run first, then shorter ones. *)
Fixpoint eat_digits (s : string) (k : cursor -> option cursor)
  : option cursor :=
  match s with
  | String c s' =>
      if is_digit c
      then match eat_digits s' k with
           | Some r => Some r
           | None => k (Some c, s')
           end
      else None
  | EmptyString => None
  end.

Definition word_at (c : option ascii) : bool :=
  match c with Some a => is_word a | None => false end.

Definition next_char (s : string) : option ascii :=
  match s with String c _ => Some c | EmptyString => None end.

Definition at_boundary (cur : cursor) : bool :=
  xorb (word_at (fst cur)) (word_at (next_char (snd cur))).

Fixpoint rmatch (ic : bool) (r : regex) (cur : cursor)
         (k : cursor -> option cursor) : option cursor :=
  match r with
  | Lit p => match eat_lit ic p cur with Some c' => k c' | None => None end
  | Digits1 => eat_digits (snd cur) k
  | WordB => if at_boundary cur then k cur else None
  | Cat a b => rmatch ic a cur (fun c' => rmatch ic b c' k)
  | Alt a b =>
      match rmatch ic a cur k with
      | Some x => Some x
      | None => rmatch ic b cur k
      end
  end.

(** A match object: where the match starts and the text it covers.  The
    start counts bytes, which on ASCII text are the characters that
    [m.start()] counts. *)
Record re_match : Type := { m_start : nat; m_text : string }.

Definition group (m : re_match) : string := m_text m.

Fixpoint search_at (ic : bool) (r : regex) (prev : option ascii)
         (s : string) (pos : nat) : option re_match :=
  match rmatch ic r (prev, s) Some with
  | Some (_, rest) =>
      Some {| m_start := pos;
              m_text := substring 0 (String.length s - String.length rest) s |}
  | None =>
      match s with
      | EmptyString => None
      | String c s' => search_at ic r (Some c) s' (S pos)
      end
  end.

(** [re.search(r, s)] and [re.search(r, s, re.I)]. *)
Definition search (r : regex) (s : string) : option re_match :=
  search_at false r None s 0.
Definition search_i (r : regex) (s : string) : option re_match :=
  search_at true r None s 0.

Definition matches (o : option re_match) : bool :=
  match o with Some _ => true | None => false end.

(** [\b(w1|w2|...)\b] *)
Fixpoint alts (w : string) (ws : list string) : regex :=
  match ws with
  | [] => Lit w
  | w' :: ws' => Alt (Lit w) (alts w' ws')
  end.

Definition words (w : string) (ws : list string) : regex :=
  Cat WordB (Cat (alts w ws) WordB).

End Re.

(** ** Python values and exceptions *)

(** What [json.loads] can return, and the dictionaries the tools build.
    A float keeps its literal and whether it is non-zero (its truthiness). *)
Inductive json : Type :=
| JNull
| JBool (b : bool)
| JInt (z : Z)
| JFloat (nonzero : bool) (literal : string)
| JStr (s : string)
| JArr (l : list json)
| JObj (kv : list (string * json)).

Inductive exn : Type :=
| MultipleResultsFound
| IntegrityError
| AttributeError
| ValidationError
| GatewayError (detail : string)
| HTTPException (status : Z) (detail : string).

Inductive result (A : Type) : Type :=
| Ok (a : A)
| Raise (e : exn).
Arguments Ok {A} a.
Arguments Raise {A} e.

Definition bind {A B : Type} (r : result A) (f : A -> result B) : result B :=
  match r with Ok a => f a | Raise e => Raise e end.

Notation "x <- r ;; k" := (bind r (fun x => k))
  (at level 61, r at next level, right associativity).

Module Py.

(** [bool(v)] *)
Definition truthy (v : json) : bool :=
  match v with
  | JNull => false
  | JBool b => b
  | JInt z => negb (Z.eqb z 0)
  | JFloat nz _ => nz
  | JStr s => PyStr.nonempty s
  | JArr l => match l with [] => false | _ => true end
  | JObj kv => match kv with [] => false | _ => true end
  end.

Definition truthy_opt (o : option json) : bool :=
  match o with Some v => truthy v | None => false end.

Fixpoint lookup (k : string) (kv : list (string * json)) : option json :=
  match kv with
  | [] => None
  | (k', v) :: kv' => if String.eqb k k' then Some v else lookup k kv'
  end.

(** [d.get(k)]; [None] and a missing key are both [JNull].  On a value
    that is not a dictionary the attribute does not exist. *)
Definition get (d : json) (k : string) : result json :=
  match d with
  | JObj kv => Ok match lookup k kv with Some v => v | None => JNull end
  | _ => Raise AttributeError
  end.

(** [d.get(k, default)] *)
Definition get_default (d : json) (k : string) (default : json) : result json :=
  match d with
  | JObj kv => Ok match lookup k kv with Some v => v | None => default end
  | _ => Raise AttributeError
  end.

(** [v == "text"] *)
Definition eq_str (v : json) (s : string) : bool :=
  match v with JStr t => String.eqb t s | _ => false end.

Definition of_opt (o : option string) : json :=
  match o with Some s => JStr s | None => JNull end.

End Py.

(** ** The relational store ([src/db_model.py])

    A column is optional where the program writes or expects [None]:
    [tracking], [pros], [cons] and [warranty_id].  The integer keys are
    assigned by the store; the model takes the successor of the largest key
    in the table. *)

Record Message : Type := {
  msg_id : Z;
  msg_user_id : string;
  msg_role : string;
  msg_content : string;
  msg_created_at : Z
}.

Record Warranty : Type := {
  w_id : Z;
  w_duration_months : Z;
  w_terms : string
}.

Record Product : Type := {
  p_id : string;
  p_name : string;
  p_description : string;
  p_pros : option string;
  p_cons : option string;
  p_warranty_id : option Z
}.

Record Order : Type := {
  o_id : Z;
  o_order_id : string;
  o_user_id : string;
  o_status : string;
  o_tracking : option string;
  o_created_at : Z;
  o_product_id : string
}.

Record Store : Type := {
  messages : list Message;
  warranties : list Warranty;
  products : list Product;
  orders : list Order
}.

Definition empty_store : Store :=
  {| messages := []; warranties := []; products := []; orders := [] |}.

Module Sql.

Definition next_key {A : Type} (key : A -> Z) (rows : list A) : Z :=
  1 + fold_right (fun r m => Z.max (key r) m) 0%Z rows.

(** [ORDER BY]: a stable insertion sort; [le a b] says that [a] may come
    before [b]. *)
Fixpoint insert {A : Type} (le : A -> A -> bool) (x : A) (l : list A) : list A :=
  match l with
  | [] => [x]
  | y :: t => if le x y then x :: y :: t else y :: insert le x t
  end.

Fixpoint order_by {A : Type} (le : A -> A -> bool) (l : list A) : list A :=
  match l with
  | [] => []
  | x :: t => insert le x (order_by le t)
  end.

(** [.first()] *)
Definition first {A : Type} (rows : list A) : option A := hd_error rows.

(** [.scalar_one_or_none()] *)
Definition scalar_one_or_none {A : Type} (rows : list A) : result (option A) :=
  match rows with
  | [] => Ok None
  | [x] => Ok (Some x)
  | _ => Raise MultipleResultsFound
  end.

(** [LIKE], compared without case as [ILIKE] does on ASCII text: [%] is
    any run of characters, [_] any one character, and a backslash makes
    the next character of the pattern literal, as in PostgreSQL (the
    program is not tied to one store; no property below depends on how a
    backslash is read). *)
Fixpoint like (p : string) (s : string) : bool :=
  match p with
  | EmptyString => match s with EmptyString => true | _ => false end
  | String "%" p' =>
      (fix any (s : string) : bool :=
         like p' s
         || match s with
            | EmptyString => false
            | String _ s' => any s'
            end) s
  | String "_" p' =>
      match s with EmptyString => false | String _ s' => like p' s' end
  | String "\" (String c p') =>
      match s with
      | EmptyString => false
      | String d s' => Re.char_eq true c d && like p' s'
      end
  | String c p' =>
      match s with
      | EmptyString => false
      | String d s' => Re.char_eq true c d && like p' s'
      end
  end.

(** [column.ilike(f"%{x}%")] *)
Definition ilike_contains (x : string) (column : string) : bool :=
  like ("%" ++ x ++ "%") column.

End Sql.

(** ** Store access ([src/db_tool.py]) *)

(** A history item as [get_last_n_messages] returns it. *)
Record Turn : Type := { role : string; content : string }.

(** A history item as [get_all_messages_for_user] returns it; [created_at]
    is the clock reading that [isoformat] prints. *)
Record HistoryItem : Type := {
  h_role : string;
  h_content : string;
  h_created_at : Z
}.

(** The process: the store, the two globals of [main.py] that hold the
    pattern cache, and the number of clock readings taken so far. *)
Record World : Type := {
  store : Store;
  product_patterns_cache : option (list Re.regex * list (Re.regex * string));
  cache_timestamp : option Z;
  clock : nat
}.

Definition with_store (w : World) (s : Store) : World :=
  {| store := s;
     product_patterns_cache := product_patterns_cache w;
     cache_timestamp := cache_timestamp w;
     clock := clock w |}.

Definition tick (w : World) : World :=
  {| store := store w;
     product_patterns_cache := product_patterns_cache w;
     cache_timestamp := cache_timestamp w;
     clock := S (clock w) |}.

Definition add_message (s : Store) (m : Message) : Store :=
  {| messages := (messages s ++ [m])%list;
     warranties := warranties s;
     products := products s;
     orders := orders s |}.

Definition of_user (u : string) (m : Message) : bool :=
  String.eqb (msg_user_id m) u.

Definition created_asc (a b : Message) : bool :=
  (msg_created_at a <=? msg_created_at b)%Z.
Definition created_desc (a b : Message) : bool :=
  (msg_created_at b <=? msg_created_at a)%Z.
Definition order_created_desc (a b : Order) : bool :=
  (o_created_at b <=? o_created_at a)%Z.

Definition get_last_n_messages (s : Store) (user_id : string) (n : nat)
  : list Turn :=
  map (fun r => {| role := msg_role r; content := msg_content r |})
      (firstn n (Sql.order_by created_desc (filter (of_user user_id) (messages s)))).

Definition get_all_messages_for_user (s : Store) (user_id : string)
  : list HistoryItem :=
  map (fun item => {| h_role := msg_role item;
                      h_content := msg_content item;
                      h_created_at := msg_created_at item |})
      (Sql.order_by created_asc (filter (of_user user_id) (messages s))).

(** [order.product], the row the foreign key points to. *)
Definition order_product (s : Store) (o : Order) : option Product :=
  find (fun p => String.eqb (p_id p) (o_product_id o)) (products s).

(** [product.warranty] *)
Definition product_warranty (s : Store) (p : Product) : option Warranty :=
  match p_warranty_id p with
  | Some k => find (fun w => Z.eqb (w_id w) k) (warranties s)
  | None => None
  end.

Definition order_found (s : Store) (o : Order) : json :=
  JObj [ ("found", JBool true);
         ("order_id", JStr (o_order_id o));
         ("status", JStr (o_status o));
         ("tracking", Py.of_opt (o_tracking o));
         ("user_id", JStr (o_user_id o));
         ("product_id", Py.of_opt (option_map p_id (order_product s o)));
         ("product_name", Py.of_opt (option_map p_name (order_product s o))) ].

Definition order_not_found (order_id : string) : json :=
  JObj [ ("found", JBool false); ("order_id", JStr order_id) ].

Definition get_order_status (s : Store) (order_id : string) : json :=
  match Sql.first (filter (fun o => String.eqb (o_order_id o) order_id)
                          (orders s)) with
  | None => order_not_found order_id
  | Some o => order_found s o
  end.

Definition get_user_order_status (s : Store) (user_id order_id : string) : json :=
  match Sql.first (filter (fun o => String.eqb (o_order_id o) order_id
                                    && String.eqb (o_user_id o) user_id)
                          (orders s)) with
  | None => order_not_found order_id
  | Some o => order_found s o
  end.

Definition get_latest_order_for_user (s : Store) (user_id : string)
  : option Order :=
  Sql.first (firstn 1 (Sql.order_by order_created_desc
                         (filter (fun o => String.eqb (o_user_id o) user_id)
                                 (orders s)))).

Definition product_dict (p : Product) : json :=
  JObj [ ("id", JStr (p_id p));
         ("name", JStr (p_name p));
         ("description", JStr (p_description p));
         ("pros", Py.of_opt (p_pros p));
         ("cons", Py.of_opt (p_cons p)) ].

Definition is_none {A : Type} (o : option A) : bool :=
  match o with None => true | Some _ => false end.

Definition get_product_info (s : Store) (product_identifier : string)
  : result (option json) :=
  (* First try to find by exact product ID *)
  product <- Sql.scalar_one_or_none
               (filter (fun p => String.eqb (p_id p) product_identifier)
                       (products s)) ;;
  (* If not found and identifier doesn't look like a product ID, try name *)
  let product :=
    if is_none product && negb (PyStr.startswith "P" product_identifier)
    then Sql.first (filter (fun p => Sql.ilike_contains product_identifier
                                                       (p_name p))
                           (products s))
    else product in
  Ok match product with
     | Some p => Some (product_dict p)
     | None => None
     end.

Definition warranty_dict (p : Product) (w : Warranty) : json :=
  JObj [ ("product", JStr (p_name p));
         ("product_id", JStr (p_id p));
         ("duration_months", JInt (w_duration_months w));
         ("terms", JStr (w_terms w)) ].

Definition get_warranty_info (s : Store) (product_identifier : string)
  : result (option json) :=
  product <- Sql.scalar_one_or_none
               (filter (fun p => String.eqb (p_id p) product_identifier)
                       (products s)) ;;
  let product :=
    if is_none product && negb (PyStr.startswith "P" product_identifier)
    then Sql.first (filter (fun p => Sql.ilike_contains product_identifier
                                                       (p_name p))
                           (products s))
    else product in
  Ok match product with
     | Some p =>
         match product_warranty s p with
         | Some w => Some (warranty_dict p w)
         | None => None
         end
     | None => None
     end.

(** ** The pipeline ([src/main.py]) *)

Module Patterns.
Import Re.

(** [(ORD\d+)] *)
Definition ORDER_ID : regex := Cat (Lit "ORD") Digits1.
(** [(P\d+)] *)
Definition PRODUCT_ID : regex := Cat (Lit "P") Digits1.
(** [\bP\d+\b] *)
Definition PRODUCT_ID_WORD : regex := Cat WordB (Cat (Lit "P") (Cat Digits1 WordB)).
(** [\b(garansi|warranty)\b] *)
Definition WARRANTY : regex := words "garansi" ["warranty"].
(** [\b(pesanan saya|status pesanan|dimana pesanan|my order|order status)\b] *)
Definition FALLBACK_ORDER : regex :=
  words "pesanan saya" ["status pesanan"; "dimana pesanan"; "my order"; "order status"].
(** [\b(garansi|warranty|guarantee|jaminan)\b] *)
Definition FALLBACK_WARRANTY : regex :=
  words "garansi" ["warranty"; "guarantee"; "jaminan"].
(** [\b(kelebihan|kekurangan|deskripsi|detail|pros|cons|description|about|info)\b] *)
Definition FALLBACK_PRODUCT : regex :=
  words "kelebihan" ["kekurangan"; "deskripsi"; "detail"; "pros"; "cons";
                     "description"; "about"; "info"].
(** [\b(kelebihan|keunggulan|pros|advantage)\b] *)
Definition REPLY_PROS : regex := words "kelebihan" ["keunggulan"; "pros"; "advantage"].
(** [\b(kekurangan|kelemahan|cons|disadvantage)\b] *)
Definition REPLY_CONS : regex := words "kekurangan" ["kelemahan"; "cons"; "disadvantage"].
(** [\b(deskripsi|description|detail|tentang|about)\b] *)
Definition REPLY_DESCRIPTION : regex :=
  words "deskripsi" ["description"; "detail"; "tentang"; "about"].

(** [rf"\b({re.escape(text)})\b"]: [re.escape] makes every character of
    [text] literal, so two such patterns are the same string exactly when
    their texts are, which is when the two [regex] values are equal. *)
Definition name_pattern (text : string) : regex := Cat WordB (Cat (Lit text) WordB).

End Patterns.

(** A Python [dict] from patterns to product names: assigning to a key
    that is present replaces its value and keeps its place. *)
Fixpoint dict_set (k : Re.regex) (v : string) (d : list (Re.regex * string))
  : list (Re.regex * string) :=
  match d with
  | [] => [(k, v)]
  | (k', v') :: d' =>
      if Re.regex_eqb k k' then (k', v) :: d' else (k', v') :: dict_set k v d'
  end.

Fixpoint dict_get (k : Re.regex) (d : list (Re.regex * string)) : option string :=
  match d with
  | [] => None
  | (k', v') :: d' => if Re.regex_eqb k k' then Some v' else dict_get k d'
  end.

Definition PatternTable : Type := (list Re.regex * list (Re.regex * string))%type.

(** [significant_words]: the words of the lowered name longer than 3
    (bytes, which for an ASCII name are its characters). *)
Definition significant_words (name : string) : list string :=
  filter (fun word => (3 <? String.length word)%nat)
         (PyStr.split (PyStr.lower name)).

(** One round of the loop over [products] in [get_product_patterns]. *)
Definition add_product_patterns (acc : PatternTable) (product : Product)
  : PatternTable :=
  let exact_pattern := Patterns.name_pattern (PyStr.lower (p_name product)) in
  fold_left
    (fun acc word =>
       let word_pattern := Patterns.name_pattern word in
       ((fst acc ++ [word_pattern])%list, dict_set word_pattern (p_name product) (snd acc)))
    (significant_words (p_name product))
    ((fst acc ++ [exact_pattern])%list, dict_set exact_pattern (p_name product) (snd acc)).

Definition build_patterns (products : list Product) : PatternTable :=
  fold_left add_product_patterns products ([], []).

(** Cache for 5 minutes. *)
Definition CACHE_TTL : Z := 300 * 1000000.

Record ExtractedPatterns : Type := {
  pat_order_id : option Re.re_match;
  pat_product_id : option Re.re_match;
  pat_product_name : option Re.re_match;
  pat_matched_product : option string
}.

(** The loop of [extract_patterns]: the first pattern of the list that
    matches, and what the mapping holds for it. *)
Fixpoint first_pattern_match (pattern_list : list Re.regex)
         (product_mapping : list (Re.regex * string)) (message : string)
  : option Re.re_match * option string :=
  match pattern_list with
  | [] => (None, None)
  | pattern :: rest =>
      match Re.search_i pattern message with
      | Some m => (Some m, dict_get pattern product_mapping)
      | None => first_pattern_match rest product_mapping message
      end
  end.

Definition action (name input : string) : json :=
  JObj [ ("action", JStr name); ("action_input", JStr input) ].

Definition determine_fallback_action (message : string) (patterns : ExtractedPatterns)
  : option json :=
  (* Order queries *)
  match pat_order_id patterns with
  | Some m => Some (action "get_order_status" (Re.group m))
  | None =>
  if Re.matches (Re.search_i Patterns.FALLBACK_ORDER message)
  then Some (action "get_order_status" "")
  else
  (* Warranty queries *)
  let warranty :=
    if Re.matches (Re.search_i Patterns.FALLBACK_WARRANTY message)
    then match pat_product_id patterns, pat_product_name patterns with
         | Some m, _ => Some (action "get_warranty_info" (Re.group m))
         | None, Some m => Some (action "get_warranty_info" (Re.group m))
         | None, None => None
         end
    else None in
  match warranty with
  | Some a => Some a
  | None =>
  (* Product info queries *)
  if Re.matches (Re.search_i Patterns.FALLBACK_PRODUCT message)
  then match pat_product_id patterns, pat_product_name patterns with
       | Some m, _ => Some (action "get_product_info" (Re.group m))
       | None, Some m => Some (action "get_product_info" (Re.group m))
       | None, None => None
       end
  else None
  end
  end.

(** What [handle_warranty_safeguard] returns: [None], the string
    ["ask_product"], or an action. *)
Inductive Safeguard : Type :=
| NotWarranty
| AskProduct
| Resolved (action_json : json).

(** The scan of [last_messages] for a product id. *)
Fixpoint history_product (last_messages : list Turn) : option string :=
  match last_messages with
  | [] => None
  | m :: rest =>
      match Re.search Patterns.PRODUCT_ID_WORD (content m) with
      | Some pm => Some (Re.group pm)
      | None => history_product rest
      end
  end.

Definition truthy_str (o : option string) : bool :=
  match o with Some s => PyStr.nonempty s | None => false end.

Definition handle_warranty_safeguard (s : Store) (user_id message : string)
           (last_messages : list Turn) : Safeguard :=
  let product_match := Re.search Patterns.PRODUCT_ID_WORD message in
  if negb (Re.matches (Re.search_i Patterns.WARRANTY message)) then NotWarranty
  else
  match product_match with
  | Some m => Resolved (action "get_warranty_info" (Re.group m))
  | None =>
      (* Check latest order: the query written out here in [main.py] is
         the one of [get_latest_order_for_user] *)
      let chosen_product :=
        option_map o_product_id (get_latest_order_for_user s user_id) in
      (* Check chat history for product ID *)
      let chosen_product :=
        if negb (truthy_str chosen_product)
        then match history_product last_messages with
             | Some p => Some p
             | None => chosen_product
             end
        else chosen_product in
      match chosen_product with
      | Some p => if PyStr.nonempty p
                  then Resolved (action "get_warranty_info" p)
                  else AskProduct
      | None => AskProduct
      end
  end.

(** Stateful code: a computation runs in a [World], leaves a [World], and
    returns or raises. *)
Definition M (A : Type) : Type := World -> World * result A.

Definition ret {A : Type} (a : A) : M A := fun w => (w, Ok a).
Definition raise {A : Type} (e : exn) : M A := fun w => (w, Raise e).
Definition bindM {A B : Type} (m : M A) (f : A -> M B) : M B :=
  fun w => match m w with
           | (w', Ok a) => f a w'
           | (w', Raise e) => (w', Raise e)
           end.
Definition lift {A : Type} (r : result A) : M A := fun w => (w, r).
Definition reads {A : Type} (f : Store -> A) : M A := fun w => (w, Ok (f (store w))).

Notation "x <~ m ;; k" := (bindM m (fun x => k))
  (at level 61, m at next level, right associativity).

Record ChatRequest : Type := { req_user_id : string; req_message : string }.

Record ChatResponse : Type := {
  reply : string;
  tool_called : option string;
  tool_output : option json
}.

(** What the gateway call [llm.ask] does: it returns text or raises. *)
Inductive GatewayReply : Type :=
| Text (llm_text : string)
| Failed (detail : string).

Definition ASK_PRODUCT_REPLY : string :=
  "Produk mana yang ingin Anda ketahui informasi garansinya?".
Definition ORDER_NOT_FOUND_REPLY : string :=
  "Anda tidak memiliki pesanan dengan nomor tersebut.".

Section Pipeline.

(** The readings of the system clock, in the order they are taken. *)
Variable now : nat -> Z.
(** [json.loads]; [None] when it raises. *)
Variable json_loads : string -> option json.
(** [json.dumps] *)
Variable json_dumps : json -> string.
(** [str(v)] for a float, a list or a dictionary. *)
Variable py_repr : json -> string.
(** How the response model takes a [tool_called] that is not a string:
    as a string, or not at all. *)
Variable coerce_str : json -> option string.
(** The language-model gateway. *)
Variable ask : list Turn -> string -> GatewayReply.

(** [datetime.utcnow()], [time.time()] *)
Definition read_clock : M Z := fun w => (tick w, Ok (now (clock w))).

Definition persist_message (user_id role content : string) : M unit :=
  created_at <~ read_clock ;;
  fun w =>
    let msg := {| msg_id := Sql.next_key msg_id (messages (store w));
                  msg_user_id := user_id;
                  msg_role := role;
                  msg_content := content;
                  msg_created_at := created_at |} in
    (with_store w (add_message (store w) msg), Ok tt).

(** A value inside an f-string. *)
Definition fmt (v : json) : string :=
  match v with
  | JStr s => s
  | JNull => "None"
  | JBool true => "True"
  | JBool false => "False"
  | JInt z => PyStr.of_Z z
  | _ => py_repr v
  end.

Definition try_parse_json_action (text : string) : option json :=
  match PyStr.find "{" text, PyStr.rfind "}" text with
  | Some start, Some end_ =>
      if (start <? end_)%nat
      then json_loads (PyStr.slice start (end_ + 1) text)
      else None
  | _, _ => None
  end.

Definition set_cache (table : option PatternTable) (timestamp : option Z) : M unit :=
  fun w => ({| store := store w;
               product_patterns_cache := table;
               cache_timestamp := timestamp;
               clock := clock w |}, Ok tt).

Definition rebuild_patterns : M PatternTable :=
  products <~ reads products ;;
  let table := build_patterns products in
  t <~ read_clock ;;
  _ <~ set_cache (Some table) (Some t) ;;
  ret table.

Definition get_product_patterns : M PatternTable :=
  fun w =>
    match product_patterns_cache w, cache_timestamp w with
    | Some table, Some stamp =>
        (t <~ read_clock ;;
         if (t - stamp <? CACHE_TTL)%Z then ret table else rebuild_patterns) w
    | _, _ => rebuild_patterns w
    end.

Definition extract_patterns (message : string) : M ExtractedPatterns :=
  table <~ get_product_patterns ;;
  let '(pattern_list, product_mapping) := table in
  let found := first_pattern_match pattern_list product_mapping message in
  ret {| pat_order_id := Re.search_i Patterns.ORDER_ID message;
         pat_product_id := Re.search_i Patterns.PRODUCT_ID message;
         pat_product_name := fst found;
         pat_matched_product := snd found |}.

(** [not action_json or action_json.get("action") == "none"] *)
Definition no_action (action_json : option json) : result bool :=
  match action_json with
  | None => Ok true
  | Some d =>
      if negb (Py.truthy d) then Ok true
      else a <- Py.get d "action" ;; Ok (Py.eq_str a "none")
  end.

(** [action_json and action_json.get("action") and
    action_json.get("action") != "none"]: the action to run, if any. *)
Definition runnable (action_json : option json) : result (option json) :=
  match action_json with
  | None => Ok None
  | Some d =>
      if negb (Py.truthy d) then Ok None
      else a <- Py.get d "action" ;;
           Ok (if Py.truthy a && negb (Py.eq_str a "none") then Some a else None)
  end.

(** [d[k]] on a dictionary a tool built. *)
Definition item (d : json) (k : string) : json :=
  match d with
  | JObj kv => match Py.lookup k kv with Some v => v | None => JNull end
  | _ => JNull
  end.

(** The first [(ORD\d+)] of the history, as written. *)
Fixpoint history_order (last_messages : list Turn) : option string :=
  match last_messages with
  | [] => None
  | m :: rest =>
      match Re.search Patterns.ORDER_ID (content m) with
      | Some h => Some (Re.group h)
      | None => history_order rest
      end
  end.

Definition nl : string := String (ascii_of_nat 10) EmptyString.

(** The tools take a string; with any other value the lookup raises. *)
Definition as_str (v : json) : result string :=
  match v with JStr s => Ok s | _ => Raise AttributeError end.

Definition run_order_status (user_id : string) (last_messages : list Turn)
           (action_input : json) : M (option json * string) :=
  raw <~ lift (as_str action_input) ;;
  let order_id := PyStr.strip raw in
  tool_output <~ reads (fun s =>
    if negb (PyStr.nonempty order_id)
    then (* Look for order in history or get latest *)
         match history_order last_messages with
         | Some last_order_id => get_user_order_status s user_id last_order_id
         | None =>
             match get_latest_order_for_user s user_id with
             | Some latest_order => order_found s latest_order
             | None => JObj [ ("found", JBool false); ("order_id", JNull) ]
             end
         end
    else get_user_order_status s user_id order_id) ;;
  ret (Some tool_output,
       if Py.truthy (item tool_output "found")
       then "Pesanan " ++ fmt (item tool_output "order_id")
            ++ " saat ini berstatus: " ++ fmt (item tool_output "status") ++ "."
            ++ (if Py.truthy (item tool_output "tracking")
                then " Tracking: " ++ fmt (item tool_output "tracking") ++ "."
                else "")
       else ORDER_NOT_FOUND_REPLY).

Definition run_warranty_info (action_input : json)
  : M (option json * string) :=
  identifier <~ lift (as_str action_input) ;;
  found <~ reads (fun s => get_warranty_info s identifier) ;;
  tool_output <~ lift found ;;
  ret (tool_output,
       match tool_output with
       | Some d =>
           "Anda dapat mengklaim garansi dengan mengirim email ke warranty@company.com. "
           ++ "Pastikan klaim Anda sesuai dengan detail garansi produk. "
           ++ "Detailnya adalah sebagai berikut." ++ nl ++ nl
           ++ "Produk " ++ fmt (item d "product") ++ " memiliki garansi selama "
           ++ fmt (item d "duration_months") ++ " bulan. Ketentuan: "
           ++ fmt (item d "terms")
       | None =>
           "Maaf — saya tidak dapat menemukan informasi garansi untuk produk "
           ++ identifier ++ "."
       end).

Definition run_product_info (user_message : string) (action_input : json)
  : M (option json * string) :=
  identifier <~ lift (as_str action_input) ;;
  found <~ reads (fun s => get_product_info s identifier) ;;
  tool_output <~ lift found ;;
  ret (tool_output,
       match tool_output with
       | Some d =>
           let msg_lower := PyStr.lower user_message in
           if Re.matches (Re.search Patterns.REPLY_PROS msg_lower)
           then "Kelebihan " ++ fmt (item d "name") ++ ": " ++ fmt (item d "pros")
           else if Re.matches (Re.search Patterns.REPLY_CONS msg_lower)
           then "Kekurangan " ++ fmt (item d "name") ++ ": " ++ fmt (item d "cons")
           else if Re.matches (Re.search Patterns.REPLY_DESCRIPTION msg_lower)
           then "Deskripsi " ++ fmt (item d "name") ++ ": "
                ++ fmt (item d "description")
           else "Produk " ++ fmt (item d "name") ++ " (ID: " ++ fmt (item d "id")
                ++ ")." ++ nl
                ++ "Deskripsi: " ++ fmt (item d "description") ++ nl
                ++ "Kelebihan: " ++ fmt (item d "pros") ++ nl
                ++ "Kekurangan: " ++ fmt (item d "cons")
       | None =>
           "Maaf — saya tidak dapat menemukan informasi produk untuk "
           ++ identifier ++ "."
       end).

(** The [Execute tools] block of [chat] for one action. *)
Definition run_tool (user_id user_message : string) (last_messages : list Turn)
           (action_name action_input : json) : M (option json * string) :=
  if Py.eq_str action_name "get_order_status"
  then run_order_status user_id last_messages action_input
  else if Py.eq_str action_name "get_warranty_info"
  then run_warranty_info action_input
  else if Py.eq_str action_name "get_product_info"
  then run_product_info user_message action_input
  else ret (Some (JObj [ ("error", JStr "unsupported_tool") ]),
            "Tool '" ++ fmt action_name ++ "' yang diminta tidak didukung.").

(** [tool_called: Optional[str]] of the response model. *)
Definition response_tool (action_name : json) : result string :=
  match action_name with
  | JStr s => Ok s
  | _ => match coerce_str action_name with
         | Some s => Ok s
         | None => Raise ValidationError
         end
  end.

(** Steps 4 to 6: the action the request settles on, after the model's
    suggestion, the safeguard and the fallback. *)
Definition settle_action (user_message llm_text : string)
           (warranty_result : Safeguard) : M (option json) :=
  let action_json := try_parse_json_action llm_text in
  let action_json :=
    match warranty_result with
    | Resolved a => Some a
    | _ => action_json
    end in
  (* Fallback when LLM doesn't provide action *)
  fallback <~ lift (no_action action_json) ;;
  if (fallback : bool)
  then patterns <~ extract_patterns user_message ;;
       ret (determine_fallback_action user_message patterns)
  else ret action_json.

(** The [Execute tools] block of [chat] and what follows it: run the
    action, if there is one to run, persist, and answer. *)
Definition execute_tools (user_id user_message : string)
           (last_messages : list Turn) (llm_text : string)
           (action_json : option json) : M ChatResponse :=
  to_run <~ lift (runnable action_json) ;;
  match to_run, action_json with
  | Some action_name, Some d =>
      action_input <~ lift (Py.get_default d "action_input" (JStr "")) ;;
      ran <~ run_tool user_id user_message last_messages action_name action_input ;;
      let '(output, assistant_reply) := ran in
      (* Persist tool output *)
      _ <~ persist_message user_id "tool"
             (json_dumps (JObj [ ("tool", action_name);
                                 ("output", match output with
                                            | Some o => o
                                            | None => JNull
                                            end) ])) ;;
      (* Persist assistant reply *)
      _ <~ persist_message user_id "assistant" assistant_reply ;;
      called <~ lift (response_tool action_name) ;;
      ret {| reply := assistant_reply; tool_called := Some called;
             tool_output := output |}
  | _, _ =>
      _ <~ persist_message user_id "assistant" llm_text ;;
      ret {| reply := llm_text; tool_called := None; tool_output := None |}
  end.

Definition chat (req : ChatRequest) : M ChatResponse :=
  let user_id := req_user_id req in
  let user_message := PyStr.strip (req_message req) in
  (* Store user message *)
  _ <~ persist_message user_id "user" user_message ;;
  (* Fetch last 3 messages for context *)
  last_messages <~ reads (fun s => get_last_n_messages s user_id 3) ;;
  (* Ask LLM *)
  match ask last_messages user_message with
  | Failed e => raise (HTTPException 500 ("LLM error: " ++ e))
  | Text llm_text =>
  (* Warranty safeguard *)
  warranty_result <~ reads (fun s =>
    handle_warranty_safeguard s user_id user_message last_messages) ;;
  match warranty_result with
  | AskProduct =>
      _ <~ persist_message user_id "assistant" ASK_PRODUCT_REPLY ;;
      ret {| reply := ASK_PRODUCT_REPLY; tool_called := None; tool_output := None |}
  | _ =>
      action_json <~ settle_action user_message llm_text warranty_result ;;
      execute_tools user_id user_message last_messages llm_text action_json
  end
  end.

End Pipeline.

(** ** Seeding ([src/db_seed.py]) and the administrative endpoints *)

Definition seed_warranties (k : Z) : list Warranty :=
  [ {| w_id := k; w_duration_months := 24;
       w_terms := "Hanya mencakup cacat produksi." |};
    {| w_id := k + 1; w_duration_months := 12;
       w_terms := "Termasuk perlindungan kerusakan tidak disengaja." |} ].

Definition seed_products (k : Z) : list Product :=
  [ {| p_id := "P123";
       p_name := "Headphone Wireless";
       p_description := "Headphone wireless berkualitas tinggi dengan noise cancellation.";
       p_pros := Some "Kualitas suara yang bagus; Nyaman dipakai; Baterai tahan lama";
       p_cons := Some "Harga mahal; Case yang besar";
       p_warranty_id := Some k |};
    {| p_id := "P234";
       p_name := "Smartphone X";
       p_description := "Smartphone generasi terbaru dengan layar OLED dan sistem triple camera.";
       p_pros := Some "Kamera sangat bagus; Performa cepat; Desain premium";
       p_cons := Some "Harga tinggi; Tidak ada jack headphone";
       p_warranty_id := Some (k + 1)%Z |};
    {| p_id := "P345";
       p_name := "Gaming Laptop Pro";
       p_description := "Laptop gaming yang powerful dengan grafis RTX dan layar high refresh.";
       p_pros := Some "GPU tingkat atas; SSD cepat; Sistem pendingin yang baik";
       p_cons := Some "Berat; Baterai cepat habis";
       p_warranty_id := Some k |} ].

Definition seed_orders (t1 t2 t3 : Z) : list Order :=
  [ {| o_id := 1; o_order_id := "ORD12345"; o_user_id := "user1";
       o_status := "Shipped"; o_tracking := Some "TRACK123";
       o_created_at := t1; o_product_id := "P123" |};
    {| o_id := 2; o_order_id := "ORD23456"; o_user_id := "user2";
       o_status := "Processing"; o_tracking := None;
       o_created_at := t2; o_product_id := "P234" |};
    {| o_id := 3; o_order_id := "ORD34567"; o_user_id := "user1";
       o_status := "Delivered"; o_tracking := Some "TRACK789";
       o_created_at := t3; o_product_id := "P345" |} ].

Section Admin.

Variable now : nat -> Z.
(** [str(e)] of an exception. *)
Variable exn_str : exn -> string.

(** A product key that is already in the table cannot be inserted. *)
Definition key_taken (s : Store) (p : Product) : bool :=
  existsb (fun q => String.eqb (p_id q) (p_id p)) (products s).

Definition seed_database : M unit :=
  fun w =>
    let s := store w in
    match orders s with
    | _ :: _ => (w, Ok tt)
    | [] =>
        let k := Sql.next_key w_id (warranties s) in
        if existsb (key_taken s) (seed_products k)
        then (w, Raise IntegrityError)
        else
          (t1 <~ read_clock now ;;
           t2 <~ read_clock now ;;
           t3 <~ read_clock now ;;
           fun w' =>
             (with_store w'
                {| messages := messages s;
                   warranties := (warranties s ++ seed_warranties k)%list;
                   products := (products s ++ seed_products k)%list;
                   orders := seed_orders t1 t2 t3 |}, Ok tt)) w
    end.

(** The four [DELETE FROM] statements. *)
Definition delete_all : M unit := fun w => (with_store w empty_store, Ok tt).

Definition invalidate_cache : M unit := set_cache None None.

(** [try: ... except Exception as e: raise HTTPException(500, ...)] *)
Definition guarded {A : Type} (prefix : string) (m : M A) : M A :=
  fun w => match m w with
           | (w', Ok a) => (w', Ok a)
           | (w', Raise e) => (w', Raise (HTTPException 500 (prefix ++ exn_str e)))
           end.

Definition message (text : string) : json := JObj [ ("message", JStr text) ].

Definition clear_database : M json :=
  guarded "Error clearing database: "
    (_ <~ delete_all ;;
     _ <~ invalidate_cache ;;
     ret (message "Database cleared successfully")).

Definition seed_database_endpoint : M json :=
  guarded "Error seeding database: "
    (_ <~ seed_database ;;
     _ <~ invalidate_cache ;;
     ret (message "Database seeded successfully")).

Definition reset_database : M json :=
  guarded "Error resetting database: "
    (_ <~ delete_all ;;
     _ <~ seed_database ;;
     _ <~ invalidate_cache ;;
     ret (message "Database reset successfully (cleared and reseeded)")).

Definition count {A : Type} (rows : list A) : json := JInt (Z.of_nat (length rows)).

Definition database_status : M json :=
  guarded "Error checking database status: "
    (fun w =>
       let s := store w in
       let tables :=
         JObj [ ("messages", count (messages s));
                ("orders", count (orders s));
                ("products", count (products s));
                ("warranties", count (warranties s)) ] in
       let cached := JBool (negb (is_none (product_patterns_cache w))) in
       let report (age : json) :=
         JObj [ ("status", JStr "connected");
                ("tables", tables);
                ("cache_status", JObj [ ("patterns_cached", cached);
                                        ("cache_age_seconds", age) ]) ] in
       match cache_timestamp w with
       | Some stamp =>
           if Z.eqb stamp 0 then (w, Ok (report JNull))
           else (t <~ read_clock now ;;
                 ret (report (JInt (Z.quot (t - stamp) 1000000)))) w
       | None => (w, Ok (report JNull))
       end).

(** [GET /order/{order_id}] *)
Definition order_status_endpoint (order_id : string) : M json :=
  data <~ reads (fun s => get_order_status s order_id) ;;
  if Py.truthy (item data "found") then ret data
  else raise (HTTPException 404 ("Order " ++ order_id ++ " not found")).

(** [GET /history/{user_id}] *)
Definition history (user_id : string) : M (list HistoryItem) :=
  reads (fun s => get_all_messages_for_user s user_id).

End Admin.

(** ** Conversations *)

(** Persisting a list of turns for one user, one after the other. *)
Fixpoint persist_all (now : nat -> Z) (user_id : string) (turns : list Turn)
  : M unit :=
  match turns with
  | [] => ret tt
  | t :: rest =>
      _ <~ persist_message now user_id (role t) (content t) ;;
      persist_all now user_id rest
  end.

(** The same turns with the clock readings they were persisted at, the
    first of them being reading number [k]. *)
Fixpoint stamped (now : nat -> Z) (k : nat) (turns : list Turn) : list HistoryItem :=
  match turns with
  | [] => []
  | t :: rest =>
      {| h_role := role t; h_content := content t; h_created_at := now k |}
      :: stamped now (S k) rest
  end.

Definition history_item (item : Message) : HistoryItem :=
  {| h_role := msg_role item;
     h_content := msg_content item;
     h_created_at := msg_created_at item |}.

Definition earlier (a b : HistoryItem) : Prop :=
  (h_created_at a <= h_created_at b)%Z.

(** The three tools of the pipeline. *)
Definition tool_name (name : string) : Prop :=
  name = "get_order_status" \/ name = "get_warranty_info" \/ name = "get_product_info".

(** A decoder that finds no JSON in any text. *)
Definition no_json (text : string) : option json := None.

(** [a] may come before [b] in the order [le]. *)
Definition in_order {A : Type} (le : A -> A -> bool) (a b : A) : Prop :=
  le a b = true.

(** ** States of the pattern cache *)

(** Both globals of the cache are reset. *)
Definition cache_cleared (w : World) : Prop :=
  product_patterns_cache w = None /\ cache_timestamp w = None.

(** The cache is empty, or holds what the present catalog gives. *)
Definition cache_coherent (w : World) : Prop :=
  product_patterns_cache w = None
  \/ product_patterns_cache w = Some (build_patterns (products (store w))).

(** ** The scenario of the headphone question *)

Definition HEADPHONE_QUESTION : string := "apa kelebihan headphone".

Definition headphone_patterns : ExtractedPatterns :=
  {| pat_order_id := None;
     pat_product_id := None;
     pat_product_name := Some {| Re.m_start := 14; Re.m_text := "headphone" |};
     pat_matched_product := Some "Headphone Wireless" |}.

Definition headphone_dict : json :=
  JObj [ ("id", JStr "P123");
         ("name", JStr "Headphone Wireless");
         ("description",
          JStr "Headphone wireless berkualitas tinggi dengan noise cancellation.");
         ("pros", JStr "Kualitas suara yang bagus; Nyaman dipakai; Baterai tahan lama");
         ("cons", JStr "Harga mahal; Case yang besar") ].

Definition HEADPHONE_PROS_REPLY : string :=
  "Kelebihan Headphone Wireless: Kualitas suara yang bagus; Nyaman dipakai; Baterai tahan lama".

(** ** Sample data for the concrete checks *)

Module Sample.

(** A clock that advances by one microsecond at every reading. *)
Definition now (n : nat) : Z := Z.of_nat n.

(** A process that has just started on an empty store. *)
Definition boot : World :=
  {| store := empty_store;
     product_patterns_cache := None;
     cache_timestamp := None;
     clock := 0 |}.

(** The same after [init_database]. *)
Definition seeded : World := fst (seed_database now boot).

(** A decoder for model texts that hold no JSON at all. *)
Definition reject (text : string) : option json := None.
Definition dumps (v : json) : string := "{}".
Definition repr (v : json) : string := "?".
Definition coerce (v : json) : option string := None.

(** A gateway that suggests nothing. *)
Definition small_talk (last_messages : list Turn) (user_message : string)
  : GatewayReply := Text "Ada yang bisa saya bantu?".

Definition exn_text (e : exn) : string := "store error".

(** A gateway whose text has braces around something that is no JSON. *)
Definition BROKEN_TEXT : string := "{action: get_order_status} Sebentar ya.".
Definition broken (last_messages : list Turn) (user_message : string)
  : GatewayReply := Text BROKEN_TEXT.

Definition quote : string := String (ascii_of_nat 34) EmptyString.

(** A model text that suggests an order lookup, and a decoder that
    knows the object it holds. *)
Definition order_suggestion : string :=
  "{" ++ quote ++ "action" ++ quote ++ ":" ++ quote ++ "get_order_status" ++ quote
  ++ "," ++ quote ++ "action_input" ++ quote ++ ":" ++ quote ++ "ORD12345" ++ quote
  ++ "}".
Definition decode (text : string) : option json :=
  if String.eqb text order_suggestion
  then Some (action "get_order_status" "ORD12345")
  else None.
Definition suggests_order (last_messages : list Turn) (user_message : string)
  : GatewayReply := Text (order_suggestion ++ " Saya cek pesanan Anda.").

Definition chat (req : ChatRequest) : M ChatResponse :=
  chat now reject dumps repr coerce small_talk req.

(** The seeded process after the patterns were built once. *)
Definition warm : World := fst (get_product_patterns now seeded).

(** A catalog with two products that share the word "gaming". *)
Definition two_gaming : list Product :=
  [ {| p_id := "P345"; p_name := "Gaming Laptop Pro";
       p_description := "Laptop gaming yang powerful.";
       p_pros := None; p_cons := None; p_warranty_id := None |};
    {| p_id := "P456"; p_name := "Gaming Mouse";
       p_description := "Mouse gaming yang ringan.";
       p_pros := None; p_cons := None; p_warranty_id := None |} ].

Definition gaming_shop : World :=
  {| store := {| messages := []; warranties := [];
                 products := two_gaming; orders := [] |};
     product_patterns_cache := None;
     cache_timestamp := None;
     clock := 0 |}.

End Sample.

(** ** The other lookups of [src/db_tool.py] and their endpoints *)

(** An entry of [get_all_orders_for_user]; [created_at] is the clock
    reading that [isoformat] prints. *)
Definition order_summary (s : Store) (o : Order) : json :=
  JObj [ ("order_id", JStr (o_order_id o));
         ("status", JStr (o_status o));
         ("tracking", Py.of_opt (o_tracking o));
         ("created_at", JInt (o_created_at o));
         ("product_id", Py.of_opt (option_map p_id (order_product s o)));
         ("product_name", Py.of_opt (option_map p_name (order_product s o))) ].

(** The rows that [get_all_orders_for_user] selects, in the order it
    returns them. *)
Definition user_order_rows (s : Store) (user_id : string) : list Order :=
  Sql.order_by order_created_desc
               (filter (fun o => String.eqb (o_user_id o) user_id) (orders s)).

Definition get_all_orders_for_user (s : Store) (user_id : string) : list json :=
  map (order_summary s) (user_order_rows s user_id).

Definition search_product_by_name (s : Store) (product_name : string) : list json :=
  map product_dict
      (filter (fun p => Sql.ilike_contains product_name (p_name p)) (products s)).

(** [GET /products/{product_id}] *)
Definition get_product_endpoint (product_id : string) : M json :=
  found <~ reads (fun s => get_product_info s product_id) ;;
  product_info <~ lift found ;;
  match product_info with
  | None => raise (HTTPException 404 ("Product " ++ product_id ++ " not found"))
  | Some d => ret d
  end.

(** [init_database], the startup event: the tables exist in the model, so
    what is left is the seeding. *)
Definition init_database (now : nat -> Z) : M unit := seed_database now.

(** ** The gateway client ([src/llm_client.py])

    [call_ollama_http] posts the prompt and reads the answer line by line.
    What the network does is an input: no response (the connection or the
    status check failed), or the lines of the body. *)

Inductive HttpResponse : Type :=
| NoResponse (cause : string)
| Body (lines : list string).

(** What can go wrong while reading the body. *)
Inductive StreamFault : Type :=
| BadLine (line : string)
| BadData (data : json).

Section Gateway.

(** [json.loads(line.decode("utf-8"))]; [None] when it raises. *)
Variable json_loads : string -> option json.
(** [str(e)] of the exception a fault raises. *)
Variable fault_str : StreamFault -> string.

(** The loop over [r.iter_lines()], from the line it is at and with the
    output so far. *)
Fixpoint read_stream (lines : list string) (output : string)
  : string + StreamFault :=
  match lines with
  | [] => inl output
  | line :: rest =>
      if negb (PyStr.nonempty line) then read_stream rest output
      else
        match json_loads line with
        | None => inr (BadLine line)
        | Some (JObj kv) =>
            let step (output : string) :=
              if Py.truthy match Py.lookup "done" kv with
                           | Some v => v
                           | None => JBool false
                           end
              then inl output
              else read_stream rest output in
            match Py.lookup "response" kv with
            | Some (JStr chunk) => step (output ++ chunk)
            | Some other => inr (BadData other)
            | None => step output
            end
        | Some data => inr (BadData data)
        end
  end.

Definition call_ollama_http (response : HttpResponse) : GatewayReply :=
  match response with
  | NoResponse cause => Failed ("Ollama HTTP call failed: " ++ cause)
  | Body lines =>
      match read_stream lines EmptyString with
      | inl output => Text (PyStr.strip output)
      | inr fault => Failed ("Ollama HTTP call failed: " ++ fault_str fault)
      end
  end.

End Gateway.

(** ** Relations between the process before and after a computation *)

(** [m] takes every process to one that [R] relates it to, whether it
    returns or raises. *)
Definition keeps {A : Type} (R : World -> World -> Prop) (m : M A) : Prop :=
  forall w, R w (fst (m w)).

(** The roles [chat] writes. *)
Definition chat_role (r : string) : Prop :=
  r = "user" \/ r = "tool" \/ r = "assistant".

(** [w'] is [w] with more messages, all of [user_id] and with a role of
    [chat], and the same catalog and orders. *)
Definition appends_for (user_id : string) (w w' : World) : Prop :=
  exists rows,
    messages (store w') = (messages (store w) ++ rows)%list
    /\ Forall (fun m => msg_user_id m = user_id /\ chat_role (msg_role m)) rows
    /\ warranties (store w') = warranties (store w)
    /\ products (store w') = products (store w)
    /\ orders (store w') = orders (store w).

(** A coherent pattern cache stays coherent. *)
Definition stays_coherent (w w' : World) : Prop :=
  cache_coherent w -> cache_coherent w'.

(** ** More sample data *)

Module Cases.

(** A gateway whose server does not answer. *)
Definition down (last_messages : list Turn) (user_message : string)
  : GatewayReply :=
  call_ollama_http Sample.reject (fun _ => "bad line") (NoResponse "timed out").

(** A model text that asks for a tool the pipeline does not have, and a
    decoder that knows the object it holds. *)
Definition REFUND_TEXT : string :=
  "{" ++ Sample.quote ++ "action" ++ Sample.quote ++ ":" ++ Sample.quote
  ++ "refund_order" ++ Sample.quote ++ "} Saya proses refund.".
Definition refund_object : json := JObj [ ("action", JStr "refund_order") ].
Definition decode_refund (text : string) : option json :=
  if String.eqb text ("{" ++ Sample.quote ++ "action" ++ Sample.quote ++ ":"
                      ++ Sample.quote ++ "refund_order" ++ Sample.quote ++ "}")
  then Some refund_object else None.
Definition suggests_refund (last_messages : list Turn) (user_message : string)
  : GatewayReply := Text REFUND_TEXT.

End Cases.

(** ** A sample stream of the gateway *)

Module Stream.

(** Three lines of an answer, told apart by their text, and a decoder
    that knows the objects they hold. *)
Definition chunk (text : string) (last : bool) : json :=
  JObj [ ("response", JStr text); ("done", JBool last) ].
Definition decode (line : string) : option json :=
  if String.eqb line "first" then Some (chunk " Pesanan Anda " false)
  else if String.eqb line "second" then Some (chunk "sudah dikirim. " true)
  else if String.eqb line "third" then Some (chunk "(diabaikan)" false)
  else None.
Definition fault_text (f : StreamFault) : string := "bad line".

End Stream.

(** Every pattern of the list has an entry in the mapping, and the entry
    is one of [names]. *)
Definition mapping_covers (names : list string) (table : PatternTable) : Prop :=
  forall pattern,
    In pattern (fst table) ->
    exists name, In name names /\ dict_get pattern (snd table) = Some name.

(** Every character of [s] is in the class [f]. *)
Fixpoint all_chars (f : ascii -> bool) (s : string) : bool :=
  match s with
  | EmptyString => true
  | String c s' => f c && all_chars f s'
  end.

Definition not_space (c : ascii) : bool := negb (PyStr.is_space c).

(** The status sentence of an order. *)
(** The reply of [chat] to the output of an order lookup. *)
Definition order_reply (py_repr : json -> string) (tool_output : json) : string :=
  if Py.truthy (item tool_output "found")
  then "Pesanan " ++ fmt py_repr (item tool_output "order_id")
       ++ " saat ini berstatus: " ++ fmt py_repr (item tool_output "status") ++ "."
       ++ (if Py.truthy (item tool_output "tracking")
           then " Tracking: " ++ fmt py_repr (item tool_output "tracking") ++ "."
           else "")
  else ORDER_NOT_FOUND_REPLY.

Definition status_sentence (o : Order) : string :=
  "Pesanan " ++ o_order_id o ++ " saat ini berstatus: " ++ o_status o ++ "."
  ++ match o_tracking o with
     | Some t => if PyStr.nonempty t then " Tracking: " ++ t ++ "." else ""
     | None => ""
     end.

Module Cases2.

(** A model text whose order lookup has a number where the order id
    should be, and a decoder that knows the object it holds. *)
Definition NUMBER_TEXT : string :=
  "{" ++ Sample.quote ++ "action" ++ Sample.quote ++ ":" ++ Sample.quote
  ++ "get_order_status" ++ Sample.quote ++ "," ++ Sample.quote ++ "action_input"
  ++ Sample.quote ++ ":12345}".
Definition number_object : json :=
  JObj [ ("action", JStr "get_order_status"); ("action_input", JInt 12345) ].
Definition decode_number (text : string) : option json :=
  if String.eqb text NUMBER_TEXT then Some number_object else None.
Definition suggests_number (last_messages : list Turn) (user_message : string)
  : GatewayReply := Text NUMBER_TEXT.

(** A model text that asks for the order of somebody else, with blanks
    around the order id, and a decoder that knows the object it holds. *)
Definition LOOKUP_TEXT : string :=
  "Sebentar. {" ++ Sample.quote ++ "action" ++ Sample.quote ++ ":" ++ Sample.quote
  ++ "get_order_status" ++ Sample.quote ++ "," ++ Sample.quote ++ "action_input"
  ++ Sample.quote ++ ":" ++ Sample.quote ++ " ORD23456 " ++ Sample.quote ++ "}".
Definition lookup_object : json :=
  JObj [ ("action", JStr "get_order_status"); ("action_input", JStr " ORD23456 ") ].
Definition decode_lookup (text : string) : option json :=
  if String.eqb text
       ("{" ++ Sample.quote ++ "action" ++ Sample.quote ++ ":" ++ Sample.quote
        ++ "get_order_status" ++ Sample.quote ++ "," ++ Sample.quote ++ "action_input"
        ++ Sample.quote ++ ":" ++ Sample.quote ++ " ORD23456 " ++ Sample.quote ++ "}")
  then Some lookup_object else None.
Definition suggests_lookup (last_messages : list Turn) (user_message : string)
  : GatewayReply := Text LOOKUP_TEXT.

(** The order of the seeded store that belongs to [user2]. *)
Definition order_of_user2 : Order :=
  {| o_id := 2; o_order_id := "ORD23456"; o_user_id := "user2";
     o_status := "Processing"; o_tracking := None;
     o_created_at := 1; o_product_id := "P234" |}.

End Cases2.

(** * Properties *)

(** ** The fallback classifier *)

Lemma fallback_order_first (message : string) (patterns : ExtractedPatterns)
      (m : Re.re_match) :
  pat_order_id patterns = Some m ->
  determine_fallback_action message patterns
  = Some (action "get_order_status" (Re.group m)).
Proof.
  intros H. unfold determine_fallback_action. rewrite H. reflexivity.
Qed.

Lemma read_clock_run (now : nat -> Z) (w : World) :
  read_clock now w = (tick w, Ok (now (clock w))).
Proof. reflexivity. Qed.

Lemma rebuild_patterns_run (now : nat -> Z) (w : World) :
  rebuild_patterns now w
  = ({| store := store w;
        product_patterns_cache := Some (build_patterns (products (store w)));
        cache_timestamp := Some (now (clock w));
        clock := S (clock w) |},
     Ok (build_patterns (products (store w)))).
Proof. reflexivity. Qed.

(** [get_product_patterns] always returns, and leaves the store alone. *)
Lemma get_product_patterns_returns (now : nat -> Z) (w : World) :
  exists w' table,
    get_product_patterns now w = (w', Ok table) /\ store w' = store w.
Proof.
  unfold get_product_patterns.
  destruct (product_patterns_cache w) as [table|];
    [destruct (cache_timestamp w) as [stamp|]|];
    try (rewrite rebuild_patterns_run; eexists _, _; split; reflexivity).
  unfold bindM at 1. rewrite read_clock_run.
  destruct (now (clock w) - stamp <? CACHE_TTL)%Z.
  - eexists _, _. split; reflexivity.
  - rewrite rebuild_patterns_run. eexists _, _. split; reflexivity.
Qed.

Lemma extract_patterns_returns (now : nat -> Z) (message : string) (w : World) :
  exists w' p,
    extract_patterns now message w = (w', Ok p)
    /\ store w' = store w
    /\ pat_order_id p = Re.search_i Patterns.ORDER_ID message
    /\ pat_product_id p = Re.search_i Patterns.PRODUCT_ID message.
Proof.
  destruct (get_product_patterns_returns now w) as (w' & [pl pm] & H & Hs).
  unfold extract_patterns, bindM. rewrite H.
  eexists _, _. split; [reflexivity|]. repeat split; assumption.
Qed.

(** C4.  Whatever entity extraction has recorded as the order reference
    is what the fallback classifier answers [get_order_status] with, for
    every message and whatever else was extracted: the first rule looks at
    nothing but that entry.  And for a message of ASCII text in which the
    order pattern [(ORD\d+)], read without case, finds a reference, entity
    extraction records that very match, so the classifier passes on
    exactly the text of the reference, whatever else the message says. *)
Theorem fallback_selects_order_status (now : nat -> Z) (w : World) :
  (forall (message : string) (patterns : ExtractedPatterns) (m : Re.re_match),
      pat_order_id patterns = Some m ->
      determine_fallback_action message patterns
      = Some (action "get_order_status" (Re.group m)))
  /\ (forall (message : string) (m : Re.re_match),
        PyStr.isascii message = true ->
        Re.search_i Patterns.ORDER_ID message = Some m ->
        exists w' patterns,
          extract_patterns now message w = (w', Ok patterns)
          /\ pat_order_id patterns = Some m
          /\ determine_fallback_action message patterns
             = Some (action "get_order_status" (Re.group m))).
Proof.
  split; [intros message patterns m; apply fallback_order_first|].
  intros message m _ Hm.
  destruct (extract_patterns_returns now message w) as (w' & p & H & _ & Ho & _).
  exists w', p. rewrite Hm in Ho.
  split; [exact H|]. split; [exact Ho|].
  now apply fallback_order_first.
Qed.

Lemma fallback_selects_order_status_witness :
  exists w' patterns,
    extract_patterns Sample.now "garansi ord12345 untuk P123" Sample.seeded
    = (w', Ok patterns)
    /\ pat_order_id patterns = Some {| Re.m_start := 8; Re.m_text := "ord12345" |}
    /\ determine_fallback_action "garansi ord12345 untuk P123" patterns
       = Some (action "get_order_status" "ord12345").
Proof.
  apply (proj2 (fallback_selects_order_status Sample.now Sample.seeded)
           "garansi ord12345 untuk P123"
           {| Re.m_start := 8; Re.m_text := "ord12345" |}).
  - reflexivity.
  - vm_compute. reflexivity.
Defined.

(** ** Lookups in the store *)

Lemma filter_none {A : Type} (f : A -> bool) (l : list A) :
  (forall x, In x l -> f x = false) -> filter f l = [].
Proof.
  induction l as [|a l IH]; intros H; simpl; [reflexivity|].
  rewrite (H a (or_introl eq_refl)). apply IH.
  intros x Hx. apply H. now right.
Qed.

(** Under a unique key, the rows with a given key are that row alone. *)
Lemma filter_unique_key {A : Type} (key : A -> string) (l : list A) (a : A) :
  NoDup (map key l) -> In a l ->
  filter (fun x => String.eqb (key x) (key a)) l = [a].
Proof.
  induction l as [|b l IH]; intros Hnd Hin; [contradiction|].
  simpl in Hnd. inversion Hnd as [|? ? Hnotin Hnd']; subst.
  simpl. destruct Hin as [->|Hin].
  - rewrite String.eqb_refl. f_equal. apply filter_none.
    intros x Hx. apply String.eqb_neq. intros E.
    apply Hnotin. rewrite <- E. now apply in_map.
  - assert (key b <> key a) as Hne.
    { intros E. apply Hnotin. rewrite E. now apply in_map. }
    apply String.eqb_neq in Hne. rewrite Hne. now apply IH.
Qed.

Lemma filter_and {A : Type} (f g : A -> bool) (l : list A) :
  filter (fun x => f x && g x) l = filter g (filter f l).
Proof.
  induction l as [|a l IH]; simpl; [reflexivity|].
  destruct (f a); simpl; [destruct (g a)|]; now rewrite IH.
Qed.

Lemma no_product_with_key (s : Store) (x : string) :
  (forall p, In p (products s) -> p_id p <> x) ->
  filter (fun p => String.eqb (p_id p) x) (products s) = [].
Proof.
  intros H. apply filter_none. intros p Hp. now apply String.eqb_neq, H.
Qed.

(** C10.  An identifier that starts with [P] and is no product's key gets
    the not-found result [None] from [get_product_info] and from
    [get_warranty_info]: the outcome does not depend on the product names,
    so a name that contains the identifier changes nothing. *)
Theorem product_key_lookalike_not_found (s : Store) (x : string) :
  PyStr.startswith "P" x = true ->
  (forall p, In p (products s) -> p_id p <> x) ->
  get_product_info s x = Ok None /\ get_warranty_info s x = Ok None.
Proof.
  intros HP Hkey. unfold get_product_info, get_warranty_info.
  rewrite (no_product_with_key s x Hkey). simpl. rewrite HP. simpl.
  split; reflexivity.
Qed.

Lemma product_key_lookalike_not_found_witness :
  Sql.ilike_contains "Pro" "Gaming Laptop Pro" = true
  /\ get_product_info (store Sample.seeded) "Pro" = Ok None
  /\ get_warranty_info (store Sample.seeded) "Pro" = Ok None.
Proof.
  split; [reflexivity|].
  apply (product_key_lookalike_not_found (store Sample.seeded) "Pro").
  - reflexivity.
  - intros p Hp. vm_compute in Hp.
    destruct Hp as [<-|[<-|[<-|[]]]]; discriminate.
Defined.

(** Without the leading [P], the same lookup falls back on the names. *)
Lemma name_search_without_P (s : Store) (x : string) :
  PyStr.startswith "P" x = false ->
  (forall p, In p (products s) -> p_id p <> x) ->
  get_product_info s x
  = Ok (option_map product_dict
          (Sql.first (filter (fun p => Sql.ilike_contains x (p_name p))
                             (products s)))).
Proof.
  intros HP Hkey. unfold get_product_info.
  rewrite (no_product_with_key s x Hkey). simpl. rewrite HP. simpl.
  now destruct (Sql.first _).
Qed.

Lemma user_order_of_other_user (s : Store) (user_id : string) (o : Order) :
  NoDup (map o_order_id (orders s)) -> In o (orders s) ->
  o_user_id o <> user_id ->
  get_user_order_status s user_id (o_order_id o) = order_not_found (o_order_id o).
Proof.
  intros Hnd Hin Hu. unfold get_user_order_status.
  rewrite (filter_and (fun x => String.eqb (o_order_id x) (o_order_id o))
                      (fun x => String.eqb (o_user_id x) user_id)).
  rewrite (filter_unique_key o_order_id _ o Hnd Hin). simpl.
  apply String.eqb_neq in Hu. rewrite Hu. reflexivity.
Qed.

Lemma any_order_by_key (s : Store) (o : Order) :
  NoDup (map o_order_id (orders s)) -> In o (orders s) ->
  get_order_status s (o_order_id o) = order_found s o.
Proof.
  intros Hnd Hin. unfold get_order_status.
  now rewrite (filter_unique_key o_order_id _ o Hnd Hin).
Qed.

(** ** The pattern cache *)

(** C3, as the code has it.  [DELETE /database/clear] and
    [POST /database/reset] always leave the pattern cache and its timestamp
    reset; [POST /database/seed] does whenever it answers (when seeding
    raises, the process is left as it was); [GET /database/status] only
    reports on the cache and leaves both globals as they are. *)
Theorem admin_cache_invalidation
        (now : nat -> Z) (exn_str : exn -> string) (w : World) :
  cache_cleared (fst (clear_database exn_str w))
  /\ cache_cleared (fst (reset_database now exn_str w))
  /\ match seed_database_endpoint now exn_str w with
     | (w', Ok _) => cache_cleared w'
     | (w', Raise _) => w' = w
     end
  /\ (product_patterns_cache (fst (database_status now exn_str w))
      = product_patterns_cache w
      /\ cache_timestamp (fst (database_status now exn_str w))
         = cache_timestamp w).
Proof.
  split; [|split; [|split]].
  - split; reflexivity.
  - split; reflexivity.
  - unfold seed_database_endpoint, guarded, bindM, seed_database.
    destruct (orders (store w)); [|split; reflexivity].
    destruct (existsb _ _); [reflexivity|split; reflexivity].
  - unfold database_status, guarded.
    destruct (cache_timestamp w) as [stamp|] eqn:E;
      [destruct (Z.eqb stamp 0)|]; simpl; auto.
Qed.

(** C3, as stated, fails for [GET /database/status]: after the patterns
    were built once, a status request leaves them, and their timestamp, in
    the cache. *)
Lemma status_keeps_pattern_cache :
  product_patterns_cache (fst (database_status Sample.now Sample.exn_text Sample.warm))
  = Some (build_patterns (products (store Sample.seeded)))
  /\ cache_timestamp (fst (database_status Sample.now Sample.exn_text Sample.warm))
     = Some 3%Z.
Proof. split; vm_compute; reflexivity. Qed.

Lemma dict_get_set (k : Re.regex) (v : string) (d : list (Re.regex * string)) :
  dict_get k (dict_set k v d) = Some v.
Proof.
  assert (forall r, Re.regex_eqb r r = true) as Hrefl.
  { induction r; simpl; auto using String.eqb_refl.
    - now rewrite IHr1, IHr2.
    - now rewrite IHr1, IHr2. }
  induction d as [|[k' v'] d IH]; simpl.
  - now rewrite Hrefl.
  - destruct (Re.regex_eqb k k') eqn:E; simpl; rewrite E; [reflexivity|exact IH].
Qed.

(** C2 at a catalog where "Gaming Laptop Pro" comes before "Gaming Mouse":
    the pattern of the shared word is in the list once for each product,
    the first of them matches the message "gaming", but the mapping holds
    the name that was assigned last, "Gaming Mouse"; the name search of
    [get_product_info], for the same word, finds "Gaming Laptop Pro". *)
Lemma shared_word_maps_to_last_product :
  exists w',
    extract_patterns Sample.now "gaming" Sample.gaming_shop
    = (w', Ok {| pat_order_id := None;
                 pat_product_id := None;
                 pat_product_name := Some {| Re.m_start := 0; Re.m_text := "gaming" |};
                 pat_matched_product := Some "Gaming Mouse" |})
    /\ nth_error (fst (build_patterns Sample.two_gaming)) 1
       = Some (Patterns.name_pattern "gaming")
    /\ nth_error (fst (build_patterns Sample.two_gaming)) 4
       = Some (Patterns.name_pattern "gaming")
    /\ option_map (fun d => item d "name")
         match get_product_info (store Sample.gaming_shop) "gaming" with
         | Ok found => found
         | Raise _ => None
         end
       = Some (JStr "Gaming Laptop Pro").
Proof. eexists. repeat split; vm_compute; reflexivity. Qed.

(** ** Running stateful code *)

Lemma bindM_cong {A B : Type} (m : M A) (f g : A -> M B) (w : World) :
  (forall a w', m w = (w', Ok a) -> f a w' = g a w') ->
  bindM m f w = bindM m g w.
Proof.
  intros H. unfold bindM. destruct (m w) as [w' [a|e]]; [|reflexivity].
  now apply H.
Qed.

Lemma bindM_reads {A B : Type} (f : Store -> A) (k : A -> M B) (w : World) :
  bindM (reads f) k w = k (f (store w)) w.
Proof. reflexivity. Qed.

Lemma bindM_lift {A B : Type} (a : A) (k : A -> M B) (w : World) :
  bindM (lift (Ok a)) k w = k a w.
Proof. reflexivity. Qed.

Lemma bindM_ok {A B : Type} (m : M A) (k : A -> M B) (w w' : World) (a : A) :
  m w = (w', Ok a) -> bindM m k w = k a w'.
Proof. intros H. unfold bindM. now rewrite H. Qed.

(** ** The warranty safeguard *)

Lemma persist_message_run (now : nat -> Z) (user_id role content : string)
      (w : World) :
  persist_message now user_id role content w
  = ({| store := add_message (store w)
                   {| msg_id := Sql.next_key msg_id (messages (store w));
                      msg_user_id := user_id;
                      msg_role := role;
                      msg_content := content;
                      msg_created_at := now (clock w) |};
        product_patterns_cache := product_patterns_cache w;
        cache_timestamp := cache_timestamp w;
        clock := S (clock w) |}, Ok tt).
Proof. reflexivity. Qed.

Lemma safeguard_explicit_product (s : Store) (user_id message : string)
      (last_messages : list Turn) (m : Re.re_match) :
  Re.matches (Re.search_i Patterns.WARRANTY message) = true ->
  Re.search Patterns.PRODUCT_ID_WORD message = Some m ->
  handle_warranty_safeguard s user_id message last_messages
  = Resolved (action "get_warranty_info" (Re.group m)).
Proof.
  intros Hw Hp. unfold handle_warranty_safeguard. now rewrite Hw, Hp.
Qed.

(** An action of the safeguard is never replaced: neither the model's
    suggestion nor the fallback is looked at. *)
Lemma settle_action_resolved (now : nat -> Z) (json_loads : string -> option json)
      (user_message llm_text input : string) (w : World) :
  settle_action now json_loads user_message llm_text
                (Resolved (action "get_warranty_info" input)) w
  = (w, Ok (Some (action "get_warranty_info" input))).
Proof. reflexivity. Qed.

(** C1, as the code has it.  When the message, of ASCII text (stripped,
    as [chat] reads it), has one of the words "garansi" or "warranty", in
    any case, and a product id written as a word of its own with a capital
    P, the safeguard answers [get_warranty_info] with the first such id, for any
    store and history; and the request then runs that tool whatever text
    the model returned: the outcome below mentions neither the model text
    nor the decoder. *)
Theorem safeguard_explicit_product_wins
        (now : nat -> Z) (json_loads : string -> option json)
        (json_dumps py_repr : json -> string) (coerce_str : json -> option string)
        (ask : list Turn -> string -> GatewayReply)
        (req : ChatRequest) (w : World) (llm_text : string) (m : Re.re_match) :
  PyStr.isascii (req_message req) = true ->
  Re.matches (Re.search_i Patterns.WARRANTY (PyStr.strip (req_message req))) = true ->
  Re.search Patterns.PRODUCT_ID_WORD (PyStr.strip (req_message req)) = Some m ->
  ask (get_last_n_messages
         (store (fst (persist_message now (req_user_id req) "user"
                        (PyStr.strip (req_message req)) w)))
         (req_user_id req) 3)
      (PyStr.strip (req_message req)) = Text llm_text ->
  (forall s last_messages,
      handle_warranty_safeguard s (req_user_id req) (PyStr.strip (req_message req))
                                last_messages
      = Resolved (action "get_warranty_info" (Re.group m)))
  /\ chat now json_loads json_dumps py_repr coerce_str ask req w
     = (_ <~ persist_message now (req_user_id req) "user"
               (PyStr.strip (req_message req)) ;;
        ran <~ run_warranty_info py_repr (JStr (Re.group m)) ;;
        _ <~ persist_message now (req_user_id req) "tool"
               (json_dumps (JObj [ ("tool", JStr "get_warranty_info");
                                   ("output", match fst ran with
                                              | Some o => o
                                              | None => JNull
                                              end) ])) ;;
        _ <~ persist_message now (req_user_id req) "assistant" (snd ran) ;;
        ret {| reply := snd ran;
               tool_called := Some "get_warranty_info";
               tool_output := fst ran |}) w.
Proof.
  intros _ Hw Hp Hask.
  split; [intros; now apply safeguard_explicit_product|].
  rewrite persist_message_run in Hask. simpl fst in Hask.
  unfold chat. apply bindM_cong. intros [] w1 E.
  rewrite persist_message_run in E. injection E as <-.
  rewrite bindM_reads, Hask, bindM_reads.
  rewrite (safeguard_explicit_product _ _ _ _ m Hw Hp).
  unfold bindM at 1. rewrite settle_action_resolved. unfold execute_tools.
  change (runnable (Some (action "get_warranty_info" (Re.group m))))
    with (@Ok (option json) (Some (JStr "get_warranty_info"))).
  rewrite bindM_lift.
  change (Py.get_default (action "get_warranty_info" (Re.group m)) "action_input" (JStr ""))
    with (Ok (JStr (Re.group m))).
  rewrite bindM_lift.
  change (run_tool py_repr (req_user_id req) (PyStr.strip (req_message req))
            (get_last_n_messages _ (req_user_id req) 3)
            (JStr "get_warranty_info") (JStr (Re.group m)))
    with (run_warranty_info py_repr (JStr (Re.group m))).
  apply bindM_cong. intros [out rep] w2 _. reflexivity.
Qed.

Lemma safeguard_explicit_product_wins_witness :
  try_parse_json_action Sample.decode (Sample.order_suggestion ++ " Saya cek pesanan Anda.")
  = Some (action "get_order_status" "ORD12345")
  /\ exists r,
      snd (chat Sample.now Sample.decode Sample.dumps Sample.repr Sample.coerce
                Sample.suggests_order
                {| req_user_id := "user9"; req_message := " garansi P123 " |}
                Sample.seeded) = Ok r
      /\ tool_called r = Some "get_warranty_info"
      /\ tool_output r
         = Some (JObj [ ("product", JStr "Headphone Wireless");
                        ("product_id", JStr "P123");
                        ("duration_months", JInt 24);
                        ("terms", JStr "Hanya mencakup cacat produksi.") ]).
Proof.
  split; [vm_compute; reflexivity|].
  destruct (safeguard_explicit_product_wins
              Sample.now Sample.decode Sample.dumps Sample.repr Sample.coerce
              Sample.suggests_order
              {| req_user_id := "user9"; req_message := " garansi P123 " |}
              Sample.seeded
              (Sample.order_suggestion ++ " Saya cek pesanan Anda.")
              {| Re.m_start := 8; Re.m_text := "P123" |}) as [_ H].
  - reflexivity.
  - vm_compute. reflexivity.
  - vm_compute. reflexivity.
  - vm_compute. reflexivity.
  - rewrite H. eexists. split; [vm_compute; reflexivity|].
    split; reflexivity.
Defined.

(** C1, as stated, fails: "garansi p123" is a warranty question and holds
    a product id in the sense of entity extraction ([(P\d+)] without
    case), yet the safeguard, which looks for [\bP\d+\b] as written, does
    not answer [get_warranty_info] with it.  For a user without orders it
    asks which product is meant, and no tool runs; for a user with orders
    it answers with the product of an order instead. *)
Lemma safeguard_misses_lowercase_id :
  Re.matches (Re.search_i Patterns.WARRANTY "garansi p123") = true
  /\ option_map Re.group (Re.search_i Patterns.PRODUCT_ID "garansi p123") = Some "p123"
  /\ handle_warranty_safeguard (store Sample.seeded) "user9" "garansi p123"
       [ {| role := "user"; content := "garansi p123" |} ] = AskProduct
  /\ snd (Sample.chat {| req_user_id := "user9"; req_message := "garansi p123" |}
                      Sample.seeded)
     = Ok {| reply := ASK_PRODUCT_REPLY; tool_called := None; tool_output := None |}
  /\ handle_warranty_safeguard (store Sample.seeded) "user1" "garansi p123"
       [ {| role := "user"; content := "garansi p123" |} ]
     = Resolved (action "get_warranty_info" "P345").
Proof. repeat split; vm_compute; reflexivity. Qed.







(** ** The conversation store *)

Section OrderBy.

Context {A : Type} (le : A -> A -> bool).
Hypothesis le_total : forall a b, le a b = false -> le b a = true.

Lemma insert_perm (x : A) (l : list A) :
  Permutation (Sql.insert le x l) (x :: l).
Proof.
  induction l as [|y t IH]; simpl; [reflexivity|].
  destruct (le x y); [reflexivity|].
  rewrite IH. apply perm_swap.
Qed.

Lemma order_by_perm (l : list A) : Permutation (Sql.order_by le l) l.
Proof.
  induction l as [|x t IH]; simpl; [reflexivity|].
  rewrite insert_perm. now constructor.
Qed.

Lemma insert_sorted (x : A) (l : list A) :
  Sorted (in_order le) l -> Sorted (in_order le) (Sql.insert le x l).
Proof.
  induction 1 as [|y t Hs IH Hhd]; simpl.
  - repeat constructor.
  - destruct (le x y) eqn:E.
    + constructor; [now constructor|now constructor].
    + constructor; [exact IH|].
      destruct t as [|z t']; simpl.
      * constructor. now apply le_total.
      * destruct (le x z); constructor.
        -- now apply le_total.
        -- now inversion Hhd.
Qed.

Lemma order_by_sorted (l : list A) : Sorted (in_order le) (Sql.order_by le l).
Proof.
  induction l as [|x t IH]; simpl; [constructor|now apply insert_sorted].
Qed.

(** Rows that already come in order are returned as they are. *)
Lemma order_by_of_sorted (l : list A) : Sorted (in_order le) l -> Sql.order_by le l = l.
Proof.
  induction 1 as [|x t Hs IH Hhd]; simpl; [reflexivity|].
  rewrite IH. destruct Hhd as [|y t' Hxy]; simpl; [reflexivity|].
  unfold in_order in Hxy. now rewrite Hxy.
Qed.

End OrderBy.

Lemma created_asc_total (a b : Message) :
  created_asc a b = false -> created_asc b a = true.
Proof. unfold created_asc. intros H. apply Z.leb_gt in H. apply Z.leb_le. lia. Qed.

Lemma get_all_messages_unfold (s : Store) (user_id : string) :
  get_all_messages_for_user s user_id
  = map history_item
        (Sql.order_by created_asc (filter (of_user user_id) (messages s))).
Proof. reflexivity. Qed.

(** What [persist_all] adds to the rows of its user. *)
Lemma persist_all_rows (now : nat -> Z) (user_id : string) (turns : list Turn) :
  forall w, exists rows,
    filter (of_user user_id) (messages (store (fst (persist_all now user_id turns w))))
    = (filter (of_user user_id) (messages (store w)) ++ rows)%list
    /\ map history_item rows = stamped now (clock w) turns.
Proof.
  induction turns as [|t rest IH]; intros w.
  - exists []. split; [now rewrite app_nil_r|reflexivity].
  - simpl persist_all.
    erewrite bindM_ok by apply persist_message_run.
    match goal with |- context [persist_all now user_id rest ?w1] =>
      destruct (IH w1) as (rows & Hrows & Hitems) end.
    simpl in Hrows, Hitems. rewrite filter_app in Hrows. simpl in Hrows.
    unfold of_user at 3 in Hrows. simpl in Hrows.
    rewrite String.eqb_refl in Hrows. rewrite <- app_assoc in Hrows.
    eexists. split; [exact Hrows|]. simpl. now rewrite Hitems.
Qed.

Lemma sorted_history (rows : list Message) :
  Sorted (in_order created_asc) rows ->
  StronglySorted earlier (map history_item rows).
Proof.
  intros H. apply Sorted_StronglySorted.
  - intros a b c. unfold earlier. lia.
  - induction H as [|x t Hs IH Hhd]; simpl; constructor; [exact IH|].
    destruct Hhd as [|y t' Hxy]; simpl; constructor.
    unfold earlier. simpl. now apply Z.leb_le.
Qed.

Lemma stamped_in_order (now : nat -> Z) (turns : list Turn) :
  (forall i, (now i <= now (S i))%Z) ->
  forall k rows,
    map history_item rows = stamped now k turns ->
    Sorted (in_order created_asc) rows.
Proof.
  intros Hmono. induction turns as [|t rest IH]; intros k rows H.
  - destruct rows; [constructor|discriminate].
  - destruct rows as [|m rows]; [discriminate|].
    pose proof (f_equal (@tl HistoryItem) H) as Hrest.
    pose proof (f_equal (fun l => option_map h_created_at (hd_error l)) H) as Hm.
    simpl in Hrest, Hm.
    constructor; [now apply (IH (S k))|].
    destruct rows as [|m' rows']; constructor.
    destruct rest as [|t' rest']; [discriminate|].
    pose proof (f_equal (fun l => option_map h_created_at (hd_error l)) Hrest) as Hm'.
    simpl in Hm'. injection Hm as Hm. injection Hm' as Hm'.
    unfold created_asc. apply Z.leb_le. rewrite Hm, Hm'. apply Hmono.
Qed.

Lemma stamped_length (now : nat -> Z) (turns : list Turn) :
  forall k, length (stamped now k turns) = length turns.
Proof. induction turns; intros k; simpl; [reflexivity|now rewrite IHturns]. Qed.

(** C8.  For a user with no messages yet, persisting N turns and then
    fetching all messages of that user returns exactly N items, sorted by
    creation time, and they are the persisted turns: the same roles and
    contents, each with the clock reading it was persisted at.  When
    every reading of the clock is later than the one before, the items
    come in the order persisted. *)
Theorem history_round_trip (now : nat -> Z) (user_id : string)
        (turns : list Turn) (w : World) :
  filter (of_user user_id) (messages (store w)) = [] ->
  length (get_all_messages_for_user
            (store (fst (persist_all now user_id turns w))) user_id)
  = length turns
  /\ StronglySorted earlier
       (get_all_messages_for_user
          (store (fst (persist_all now user_id turns w))) user_id)
  /\ Permutation
       (get_all_messages_for_user
          (store (fst (persist_all now user_id turns w))) user_id)
       (stamped now (clock w) turns)
  /\ ((forall i, (now i < now (S i))%Z) ->
      get_all_messages_for_user
        (store (fst (persist_all now user_id turns w))) user_id
      = stamped now (clock w) turns).
Proof.
  intros Hnew.
  destruct (persist_all_rows now user_id turns w) as (rows & Hrows & Hitems).
  rewrite Hnew in Hrows. simpl in Hrows.
  rewrite get_all_messages_unfold, Hrows.
  assert (Permutation (map history_item (Sql.order_by created_asc rows))
                      (stamped now (clock w) turns)) as Hperm.
  { rewrite <- Hitems. apply Permutation_map, order_by_perm. }
  split; [|split; [|split]].
  - rewrite (Permutation_length Hperm). apply stamped_length.
  - apply sorted_history, order_by_sorted, created_asc_total.
  - exact Hperm.
  - intros Hmono. rewrite order_by_of_sorted; [exact Hitems|].
    apply (stamped_in_order now turns) with (k := clock w); [|exact Hitems].
    intros i. specialize (Hmono i). lia.
Qed.

Lemma history_round_trip_witness :
  get_all_messages_for_user
    (store (fst (persist_all Sample.now "user9"
                   [ {| role := "user"; content := "garansi P123" |};
                     {| role := "tool"; content := "{}" |};
                     {| role := "assistant"; content := "24 bulan" |} ]
                   Sample.seeded))) "user9"
  = [ {| h_role := "user"; h_content := "garansi P123"; h_created_at := 3 |};
      {| h_role := "tool"; h_content := "{}"; h_created_at := 4 |};
      {| h_role := "assistant"; h_content := "24 bulan"; h_created_at := 5 |} ].
Proof.
  apply (history_round_trip Sample.now "user9"
           [ {| role := "user"; content := "garansi P123" |};
             {| role := "tool"; content := "{}" |};
             {| role := "assistant"; content := "24 bulan" |} ]
           Sample.seeded).
  - reflexivity.
  - intros i. unfold Sample.now. lia.
Defined.

(** ** The product-info scenario *)

(** With a cache that is empty or was built from the present catalog,
    [get_product_patterns] returns the patterns of the present catalog. *)
Lemma get_product_patterns_coherent (now : nat -> Z) (w : World) :
  cache_coherent w ->
  exists w',
    get_product_patterns now w = (w', Ok (build_patterns (products (store w))))
    /\ store w' = store w.
Proof.
  intros [Hc|Hc]; unfold get_product_patterns; rewrite Hc.
  - rewrite rebuild_patterns_run. eexists. split; reflexivity.
  - destruct (cache_timestamp w) as [stamp|];
      [|rewrite rebuild_patterns_run; eexists; split; reflexivity].
    unfold bindM at 1. rewrite read_clock_run.
    destruct (now (clock w) - stamp <? CACHE_TTL)%Z.
    + eexists. split; reflexivity.
    + rewrite rebuild_patterns_run. eexists. split; reflexivity.
Qed.

Lemma safeguard_not_warranty (s : Store) (user_id message : string)
      (last_messages : list Turn) :
  Re.matches (Re.search_i Patterns.WARRANTY message) = false ->
  handle_warranty_safeguard s user_id message last_messages = NotWarranty.
Proof. intros H. unfold handle_warranty_safeguard. now rewrite H. Qed.

Lemma extract_headphone (now : nat -> Z) (k : Z) (w : World) :
  products (store w) = seed_products k ->
  cache_coherent w ->
  exists w',
    extract_patterns now HEADPHONE_QUESTION w = (w', Ok headphone_patterns)
    /\ store w' = store w.
Proof.
  intros Hp Hc.
  destruct (get_product_patterns_coherent now w Hc) as (w' & H & Hs).
  exists w'. split; [|exact Hs].
  unfold extract_patterns. erewrite bindM_ok by exact H.
  rewrite Hp. vm_compute. reflexivity.
Qed.

Lemma product_info_headphone (py_repr : json -> string) (k : Z) (w : World) :
  products (store w) = seed_products k ->
  run_product_info py_repr HEADPHONE_QUESTION (JStr "headphone") w
  = (w, Ok (Some headphone_dict, HEADPHONE_PROS_REPLY)).
Proof.
  intros Hp.
  unfold run_product_info, bindM, lift, reads, as_str, get_product_info.
  rewrite Hp. vm_compute. reflexivity.
Qed.

(** Without a safeguard action and without a usable suggestion of the
    model, the request settles on what the fallback classifier says. *)
Lemma settle_action_fallback (now : nat -> Z) (json_loads : string -> option json)
      (user_message llm_text : string) (w : World) :
  no_action (try_parse_json_action json_loads llm_text) = Ok true ->
  settle_action now json_loads user_message llm_text NotWarranty w
  = (patterns <~ extract_patterns now user_message ;;
     ret (determine_fallback_action user_message patterns)) w.
Proof. intros H. unfold settle_action. rewrite H. reflexivity. Qed.

(** C7, as the code has it.  On the seeded catalog, with a pattern cache
    that is empty or built from it, and a model text that gives no usable
    action: entity extraction finds the fragment "headphone" (the mapping
    names "Headphone Wireless" for it); the fallback classifier selects
    [get_product_info] with the fragment "headphone" itself as input; the
    name search of the tool finds product P123; and the reply of the
    request is the "pros" sentence alone. *)
Theorem headphone_pros_scenario
        (now : nat -> Z) (json_loads : string -> option json)
        (json_dumps py_repr : json -> string) (coerce_str : json -> option string)
        (ask : list Turn -> string -> GatewayReply)
        (user_id llm_text : string) (k : Z) (w : World) :
  products (store w) = seed_products k ->
  cache_coherent w ->
  ask (get_last_n_messages
         (store (fst (persist_message now user_id "user" HEADPHONE_QUESTION w)))
         user_id 3)
      HEADPHONE_QUESTION = Text llm_text ->
  no_action (try_parse_json_action json_loads llm_text) = Ok true ->
  (exists w1, extract_patterns now HEADPHONE_QUESTION w = (w1, Ok headphone_patterns))
  /\ determine_fallback_action HEADPHONE_QUESTION headphone_patterns
     = Some (action "get_product_info" "headphone")
  /\ get_product_info (store w) "headphone" = Ok (Some headphone_dict)
  /\ exists w',
      chat now json_loads json_dumps py_repr coerce_str ask
           {| req_user_id := user_id; req_message := HEADPHONE_QUESTION |} w
      = (w', Ok {| reply := HEADPHONE_PROS_REPLY;
                   tool_called := Some "get_product_info";
                   tool_output := Some headphone_dict |}).
Proof.
  intros Hp Hc Hask Hno.
  split; [|split; [|split]].
  - destruct (extract_headphone now k w Hp Hc) as (w1 & H & _). now exists w1.
  - vm_compute. reflexivity.
  - unfold get_product_info. rewrite Hp. vm_compute. reflexivity.
  - rewrite persist_message_run in Hask. simpl fst in Hask.
    unfold chat. simpl req_user_id. simpl req_message.
    change (PyStr.strip HEADPHONE_QUESTION) with HEADPHONE_QUESTION.
    erewrite bindM_ok by apply persist_message_run.
    rewrite bindM_reads, Hask, bindM_reads.
    rewrite safeguard_not_warranty by (vm_compute; reflexivity).
    match goal with |- exists _, bindM _ _ ?w1 = _ =>
      destruct (extract_headphone now k w1 Hp Hc) as (w2 & Hx & Hs) end.
    erewrite bindM_ok;
      [|rewrite settle_action_fallback by exact Hno;
        erewrite bindM_ok by exact Hx; reflexivity].
    unfold execute_tools.
    change (determine_fallback_action HEADPHONE_QUESTION headphone_patterns)
      with (Some (action "get_product_info" "headphone")).
    change (runnable (Some (action "get_product_info" "headphone")))
      with (@Ok (option json) (Some (JStr "get_product_info"))).
    rewrite bindM_lift.
    change (Py.get_default (action "get_product_info" "headphone") "action_input" (JStr ""))
      with (Ok (JStr "headphone")).
    rewrite bindM_lift.
    match goal with |- context [run_tool ?r ?u ?m ?l _ _] =>
      change (run_tool r u m l (JStr "get_product_info") (JStr "headphone"))
        with (run_product_info r m (JStr "headphone")) end.
    erewrite bindM_ok by (apply (product_info_headphone py_repr k); rewrite Hs; exact Hp).
    cbv beta iota.
    erewrite bindM_ok by apply persist_message_run.
    erewrite bindM_ok by apply persist_message_run.
    eexists. reflexivity.
Qed.

Lemma headphone_pros_scenario_witness :
  exists w',
    Sample.chat {| req_user_id := "user9"; req_message := HEADPHONE_QUESTION |}
                Sample.seeded
    = (w', Ok {| reply := HEADPHONE_PROS_REPLY;
                 tool_called := Some "get_product_info";
                 tool_output := Some headphone_dict |}).
Proof.
  refine (proj2 (proj2 (proj2
            (headphone_pros_scenario
               Sample.now Sample.reject Sample.dumps Sample.repr Sample.coerce
               Sample.small_talk "user9" "Ada yang bisa saya bantu?" 1 Sample.seeded
               _ _ _ _)))).
  - reflexivity.
  - left. reflexivity.
  - reflexivity.
  - vm_compute. reflexivity.
Defined.

(** C7, as stated, fails on one point: the input the fallback classifier
    gives to [get_product_info] is the fragment found in the message, not
    the canonical name the pattern cache holds for it, nor the product's
    key. *)
Lemma fallback_input_is_the_fragment :
  exists w1 patterns,
    extract_patterns Sample.now HEADPHONE_QUESTION Sample.seeded = (w1, Ok patterns)
    /\ pat_matched_product patterns = Some "Headphone Wireless"
    /\ determine_fallback_action HEADPHONE_QUESTION patterns
       = Some (action "get_product_info" "headphone")
    /\ determine_fallback_action HEADPHONE_QUESTION patterns
       <> Some (action "get_product_info" "Headphone Wireless")
    /\ determine_fallback_action HEADPHONE_QUESTION patterns
       <> Some (action "get_product_info" "P123").
Proof.
  eexists _, _. split; [vm_compute; reflexivity|].
  repeat split; try (vm_compute; reflexivity); vm_compute; discriminate.
Qed.

(** ** Model text without a usable action *)

Lemma rfind_split (d : ascii) (s : string) :
  forall k, PyStr.rfind d s = Some k ->
  exists mid post,
    s = mid ++ String d post
    /\ substring 0 (k + 1) s = mid ++ String d EmptyString
    /\ PyStr.rfind d post = None.
Proof.
  induction s as [|a s IH]; intros k H; simpl in H; [discriminate|].
  destruct (PyStr.rfind d s) as [k'|] eqn:E.
  - injection H as <-. destruct (IH k' eq_refl) as (mid & post & Hs & Hsub & Hpost).
    exists (String a mid), post. simpl. rewrite Hsub.
    split; [now rewrite Hs at 1|]. split; [reflexivity|exact Hpost].
  - destruct (Ascii.eqb d a) eqn:Ea; [|discriminate].
    injection H as <-. apply Ascii.eqb_eq in Ea. subst a.
    exists EmptyString, s. simpl. repeat split; [|exact E].
    now destruct s.
Qed.

(** The text handed to [json.loads] runs from the first opening brace to
    the last closing brace, both included. *)
Lemma span_shape (c d : ascii) (s : string) :
  forall i k,
    PyStr.find c s = Some i -> PyStr.rfind d s = Some k -> (i < k)%nat ->
    exists pre mid post,
      s = pre ++ String c (mid ++ String d post)
      /\ PyStr.slice i (k + 1) s = String c (mid ++ String d EmptyString)
      /\ PyStr.find c pre = None
      /\ PyStr.rfind d post = None.
Proof.
  induction s as [|a s IH]; intros i k Hf Hr Hlt; simpl in Hf, Hr; [discriminate|].
  destruct (PyStr.rfind d s) as [k'|] eqn:Er.
  2:{ destruct (Ascii.eqb d a); [injection Hr as <-; lia|discriminate]. }
  injection Hr as <-.
  destruct (Ascii.eqb c a) eqn:Ec.
  - injection Hf as <-. apply Ascii.eqb_eq in Ec. subst a.
    destruct (rfind_split d s k' Er) as (mid & post & Hs & Hsub & Hpost).
    exists EmptyString, mid, post. simpl.
    split; [now rewrite Hs at 1|]. split; [|split; [reflexivity|exact Hpost]].
    unfold PyStr.slice. simpl. f_equal.
    replace (k' + 1 - 0)%nat with (k' + 1)%nat by lia. exact Hsub.
  - destruct (PyStr.find c s) as [i'|] eqn:Ef; [|discriminate].
    injection Hf as <-.
    destruct (IH i' k' eq_refl eq_refl) as (pre & mid & post & Hs & Hsl & Hpre & Hpost);
      [lia|].
    exists (String a pre), mid, post. simpl. rewrite Ec, Hpre.
    split; [now rewrite Hs at 1|]. split; [|split; [reflexivity|exact Hpost]].
    exact Hsl.
Qed.

Lemma scalar_under_key (x : string) (l : list Product) :
  NoDup (map p_id l) ->
  exists o, Sql.scalar_one_or_none (filter (fun p => String.eqb (p_id p) x) l) = Ok o.
Proof.
  intros Hnd.
  destruct (filter (fun p => String.eqb (p_id p) x) l) as [|p rest] eqn:E.
  - now exists None.
  - assert (In p (filter (fun p => String.eqb (p_id p) x) l)) as Hin
        by (rewrite E; now left).
    apply filter_In in Hin. destruct Hin as [Hin Hx].
    apply String.eqb_eq in Hx. subst x.
    rewrite (filter_unique_key p_id l p Hnd Hin) in E.
    injection E as <-. now exists (Some p).
Qed.

Lemma get_product_info_returns (s : Store) (x : string) :
  NoDup (map p_id (products s)) -> exists o, get_product_info s x = Ok o.
Proof.
  intros Hnd. unfold get_product_info.
  destruct (scalar_under_key x _ Hnd) as [o ->]. simpl. eexists. reflexivity.
Qed.

Lemma get_warranty_info_returns (s : Store) (x : string) :
  NoDup (map p_id (products s)) -> exists o, get_warranty_info s x = Ok o.
Proof.
  intros Hnd. unfold get_warranty_info.
  destruct (scalar_under_key x _ Hnd) as [o ->]. simpl. eexists. reflexivity.
Qed.

Lemma fallback_action_shape (message : string) (patterns : ExtractedPatterns)
      (a : json) :
  determine_fallback_action message patterns = Some a ->
  exists name input, a = action name input /\ tool_name name.
Proof.
  unfold determine_fallback_action, tool_name. intros H.
  destruct (pat_order_id patterns);
    [injection H as <-; eauto 6|].
  destruct (Re.matches (Re.search_i Patterns.FALLBACK_ORDER message));
    [injection H as <-; eauto 6|].
  destruct (Re.matches (Re.search_i Patterns.FALLBACK_WARRANTY message));
    destruct (Re.matches (Re.search_i Patterns.FALLBACK_PRODUCT message));
    destruct (pat_product_id patterns); destruct (pat_product_name patterns);
    try discriminate; injection H as <-; eauto 7.
Qed.

Lemma safeguard_shape (s : Store) (user_id message : string)
      (last_messages : list Turn) (a : json) :
  handle_warranty_safeguard s user_id message last_messages = Resolved a ->
  exists input, a = action "get_warranty_info" input.
Proof.
  unfold handle_warranty_safeguard. intros H.
  destruct (negb _); [discriminate|].
  destruct (Re.search Patterns.PRODUCT_ID_WORD message);
    [injection H as <-; eauto|].
  destruct (if negb _ then _ else _) as [p|]; [|discriminate].
  destruct (PyStr.nonempty p); [injection H as <-; eauto|discriminate].
Qed.

Lemma run_tool_returns (py_repr : json -> string) (user_id user_message : string)
      (last_messages : list Turn) (name input : string) (w : World) :
  tool_name name ->
  NoDup (map p_id (products (store w))) ->
  exists ran,
    run_tool py_repr user_id user_message last_messages (JStr name) (JStr input) w
    = (w, Ok ran).
Proof.
  intros [-> | [-> | ->]] Hnd.
  - change (run_tool py_repr user_id user_message last_messages
                     (JStr "get_order_status") (JStr input))
      with (run_order_status py_repr user_id last_messages (JStr input)).
    unfold run_order_status, as_str. cbv beta iota.
    rewrite bindM_lift, bindM_reads. eexists. reflexivity.
  - change (run_tool py_repr user_id user_message last_messages
                     (JStr "get_warranty_info") (JStr input))
      with (run_warranty_info py_repr (JStr input)).
    unfold run_warranty_info, as_str. cbv beta iota.
    rewrite bindM_lift, bindM_reads.
    destruct (get_warranty_info_returns (store w) input Hnd) as [o ->].
    rewrite bindM_lift. eexists. reflexivity.
  - change (run_tool py_repr user_id user_message last_messages
                     (JStr "get_product_info") (JStr input))
      with (run_product_info py_repr user_message (JStr input)).
    unfold run_product_info, as_str. cbv beta iota.
    rewrite bindM_lift, bindM_reads.
    destruct (get_product_info_returns (store w) input Hnd) as [o ->].
    rewrite bindM_lift. eexists. reflexivity.
Qed.

Lemma runnable_tool (name input : string) :
  tool_name name -> runnable (Some (action name input)) = Ok (Some (JStr name)).
Proof. intros [-> | [-> | ->]]; reflexivity. Qed.

(** Running an action of the safeguard or of the fallback always answers. *)
Lemma execute_tools_returns
      (now : nat -> Z) (json_dumps py_repr : json -> string)
      (coerce_str : json -> option string)
      (user_id user_message : string) (last_messages : list Turn)
      (llm_text name input : string) (w : World) :
  tool_name name ->
  NoDup (map p_id (products (store w))) ->
  exists w' r,
    execute_tools now json_dumps py_repr coerce_str user_id user_message
                  last_messages llm_text (Some (action name input)) w
    = (w', Ok r).
Proof.
  intros Hname Hnd. unfold execute_tools.
  rewrite (runnable_tool name input Hname), bindM_lift.
  change (Py.get_default (action name input) "action_input" (JStr ""))
    with (Ok (JStr input)).
  rewrite bindM_lift.
  destruct (run_tool_returns py_repr user_id user_message last_messages
                             name input w Hname Hnd) as [[out rep] H].
  erewrite bindM_ok by exact H. cbv beta iota.
  erewrite bindM_ok by apply persist_message_run.
  erewrite bindM_ok by apply persist_message_run.
  eexists _, _. reflexivity.
Qed.

Lemma execute_nothing_returns
      (now : nat -> Z) (json_dumps py_repr : json -> string)
      (coerce_str : json -> option string)
      (user_id user_message : string) (last_messages : list Turn)
      (llm_text : string) (w : World) :
  exists w' r,
    execute_tools now json_dumps py_repr coerce_str user_id user_message
                  last_messages llm_text None w
    = (w', Ok r).
Proof. eexists _, _. reflexivity. Qed.

Lemma no_json_parses_nothing (text : string) :
  try_parse_json_action no_json text = None.
Proof.
  unfold try_parse_json_action.
  destruct (PyStr.find _ text); [|reflexivity].
  destruct (PyStr.rfind _ text); [|reflexivity].
  now destruct (_ <? _)%nat.
Qed.

Lemma settle_action_without_json
      (now : nat -> Z) (json_loads : string -> option json)
      (user_message llm_text : string) (warranty_result : Safeguard) :
  try_parse_json_action json_loads llm_text = None ->
  settle_action now json_loads user_message llm_text warranty_result
  = settle_action now no_json user_message llm_text warranty_result.
Proof.
  intros H. unfold settle_action. now rewrite H, no_json_parses_nothing.
Qed.

(** When the model text gives no action, the request settles on an action
    of the safeguard, on one of the fallback, or on none. *)
Lemma settle_action_returns
      (now : nat -> Z) (json_loads : string -> option json)
      (s : Store) (user_id user_message llm_text : string)
      (last_messages : list Turn) (w : World) :
  try_parse_json_action json_loads llm_text = None ->
  exists w' action_json,
    settle_action now json_loads user_message llm_text
                  (handle_warranty_safeguard s user_id user_message last_messages) w
    = (w', Ok action_json)
    /\ store w' = store w
    /\ (action_json = None
        \/ exists name input, action_json = Some (action name input) /\ tool_name name).
Proof.
  intros Hnone.
  destruct (handle_warranty_safeguard s user_id user_message last_messages)
    as [| |a] eqn:Es.
  - rewrite settle_action_fallback by (now rewrite Hnone).
    destruct (extract_patterns_returns now user_message w) as (w' & p & Hx & Hs & _).
    erewrite bindM_ok by exact Hx.
    exists w', (determine_fallback_action user_message p).
    split; [reflexivity|]. split; [exact Hs|].
    destruct (determine_fallback_action user_message p) as [a|] eqn:Ea; [|now left].
    right. destruct (fallback_action_shape _ _ _ Ea) as (name & input & -> & Hn).
    now exists name, input.
  - unfold settle_action. rewrite Hnone.
    change (no_action None) with (@Ok bool true). rewrite bindM_lift.
    destruct (extract_patterns_returns now user_message w) as (w' & p & Hx & Hs & _).
    erewrite bindM_ok by exact Hx.
    exists w', (determine_fallback_action user_message p).
    split; [reflexivity|]. split; [exact Hs|].
    destruct (determine_fallback_action user_message p) as [a|] eqn:Ea; [|now left].
    right. destruct (fallback_action_shape _ _ _ Ea) as (name & input & -> & Hn).
    now exists name, input.
  - destruct (safeguard_shape _ _ _ _ _ Es) as [input ->].
    rewrite settle_action_resolved. exists w, (Some (action "get_warranty_info" input)).
    split; [reflexivity|]. split; [reflexivity|].
    right. exists "get_warranty_info", input. split; [reflexivity|].
    right. now left.
Qed.

(** The action parser hands to [json.loads] the text from the first
    opening brace to the last closing brace; when there is no such span,
    or [json.loads] raises on it, the parser returns [None].  In that case
    the request goes on with the safeguard and the fallback: it asks which
    product is meant, or runs the action of the safeguard, or else runs
    what the fallback classifier makes of the extracted entities; it is
    handled exactly as with a text that holds no JSON at all, and it
    answers: with the product keys unique, as the store keeps them, it
    does not raise. *)
Theorem model_text_without_action
        (now : nat -> Z) (json_loads : string -> option json)
        (json_dumps py_repr : json -> string) (coerce_str : json -> option string)
        (ask : list Turn -> string -> GatewayReply)
        (req : ChatRequest) (w : World) (llm_text : string) :
  NoDup (map p_id (products (store w))) ->
  ask (get_last_n_messages
         (store (fst (persist_message now (req_user_id req) "user"
                        (PyStr.strip (req_message req)) w)))
         (req_user_id req) 3)
      (PyStr.strip (req_message req)) = Text llm_text ->
  (PyStr.find "{" llm_text = None \/ PyStr.rfind "}" llm_text = None ->
   try_parse_json_action json_loads llm_text = None)
  /\ (forall i k,
        PyStr.find "{" llm_text = Some i -> PyStr.rfind "}" llm_text = Some k ->
        if (i <? k)%nat
        then exists pre mid post,
            llm_text = pre ++ String "{" (mid ++ String "}" post)
            /\ PyStr.find "{" pre = None
            /\ PyStr.rfind "}" post = None
            /\ try_parse_json_action json_loads llm_text
               = json_loads (String "{" (mid ++ String "}" EmptyString))
        else try_parse_json_action json_loads llm_text = None)
  /\ (try_parse_json_action json_loads llm_text = None ->
      (exists w' r,
          chat now json_loads json_dumps py_repr coerce_str ask req w = (w', Ok r))
      /\ chat now json_loads json_dumps py_repr coerce_str ask req w
         = chat now no_json json_dumps py_repr coerce_str ask req w
      /\ chat now json_loads json_dumps py_repr coerce_str ask req w
         = (let user_id := req_user_id req in
            let user_message := PyStr.strip (req_message req) in
            _ <~ persist_message now user_id "user" user_message ;;
            last_messages <~ reads (fun s => get_last_n_messages s user_id 3) ;;
            warranty_result <~ reads (fun s =>
              handle_warranty_safeguard s user_id user_message last_messages) ;;
            match warranty_result with
            | AskProduct =>
                _ <~ persist_message now user_id "assistant" ASK_PRODUCT_REPLY ;;
                ret {| reply := ASK_PRODUCT_REPLY;
                       tool_called := None; tool_output := None |}
            | Resolved a =>
                execute_tools now json_dumps py_repr coerce_str user_id user_message
                              last_messages llm_text (Some a)
            | NotWarranty =>
                patterns <~ extract_patterns now user_message ;;
                execute_tools now json_dumps py_repr coerce_str user_id user_message
                              last_messages llm_text
                              (determine_fallback_action user_message patterns)
            end) w).
Proof.
  intros Hnd Hask. split; [|split].
  - unfold try_parse_json_action. intros [-> | H]; [reflexivity|].
    rewrite H. now destruct (PyStr.find _ _).
  - intros i k Hf Hr. unfold try_parse_json_action. rewrite Hf, Hr.
    destruct (i <? k)%nat eqn:Hlt; [|reflexivity].
    apply Nat.ltb_lt in Hlt.
    destruct (span_shape _ _ _ i k Hf Hr Hlt) as (pre & mid & post & Hs & Hsl & Hp & Hq).
    exists pre, mid, post. now rewrite Hsl.
  - intros Hnone.
    rewrite persist_message_run in Hask. simpl fst in Hask. split.
    + unfold chat. erewrite bindM_ok by apply persist_message_run.
      match type of Hask with ask (get_last_n_messages (store ?W) _ _) _ = _ =>
        set (w1 := W) in * end.
      rewrite bindM_reads, Hask, bindM_reads.
      destruct (settle_action_returns
                  now json_loads (store w1) (req_user_id req)
                  (PyStr.strip (req_message req)) llm_text
                  (get_last_n_messages (store w1) (req_user_id req) 3) w1 Hnone)
        as (w2 & aj & Hsettle & Hs & Hshape).
      assert (NoDup (map p_id (products (store w2)))) as Hnd2
          by (rewrite Hs; exact Hnd).
      revert Hsettle.
      destruct (handle_warranty_safeguard _ _ _ _); intros Hsettle.
      * erewrite bindM_ok by exact Hsettle.
        destruct Hshape as [-> | (name & input & -> & Hn)];
          [apply execute_nothing_returns|now apply execute_tools_returns].
      * erewrite bindM_ok by apply persist_message_run. eexists _, _. reflexivity.
      * erewrite bindM_ok by exact Hsettle.
        destruct Hshape as [-> | (name & input & -> & Hn)];
          [apply execute_nothing_returns|now apply execute_tools_returns].
    + split.
      * unfold chat. apply bindM_cong. intros [] w1 E.
        rewrite persist_message_run in E. injection E as <-.
        rewrite !bindM_reads, Hask, !bindM_reads.
        destruct (handle_warranty_safeguard _ _ _ _); try reflexivity;
          unfold bindM; now rewrite (settle_action_without_json _ _ _ _ _ Hnone).
      * unfold chat. cbv zeta. apply bindM_cong. intros [] w1 E.
        rewrite persist_message_run in E. injection E as <-.
        rewrite !bindM_reads, Hask, !bindM_reads.
        destruct (handle_warranty_safeguard _ _ _ _) as [| |a] eqn:Es.
        -- unfold bindM at 1.
           rewrite settle_action_fallback by (now rewrite Hnone).
           unfold bindM, ret.
           destruct (extract_patterns now _ _) as [w2 [p|e]]; reflexivity.
        -- reflexivity.
        -- destruct (safeguard_shape _ _ _ _ _ Es) as [input ->].
           unfold bindM at 1. now rewrite settle_action_resolved.
Qed.

Lemma model_text_without_action_witness :
  try_parse_json_action Sample.decode Sample.BROKEN_TEXT = None
  /\ (exists w' r,
         chat Sample.now Sample.decode Sample.dumps Sample.repr Sample.coerce
              Sample.broken
              {| req_user_id := "user1"; req_message := "cek ORD12345 dong" |}
              Sample.seeded = (w', Ok r))
  /\ chat Sample.now Sample.decode Sample.dumps Sample.repr Sample.coerce
          Sample.broken
          {| req_user_id := "user1"; req_message := "cek ORD12345 dong" |}
          Sample.seeded
     = chat Sample.now no_json Sample.dumps Sample.repr Sample.coerce
            Sample.broken
            {| req_user_id := "user1"; req_message := "cek ORD12345 dong" |}
            Sample.seeded.
Proof.
  split; [vm_compute; reflexivity|].
  destruct (model_text_without_action
              Sample.now Sample.decode Sample.dumps Sample.repr Sample.coerce
              Sample.broken
              {| req_user_id := "user1"; req_message := "cek ORD12345 dong" |}
              Sample.seeded Sample.BROKEN_TEXT) as (_ & _ & H).
  - vm_compute. repeat constructor; simpl; intuition discriminate.
  - reflexivity.
  - destruct H as (Hret & Heq & _); [vm_compute; reflexivity|].
    split; assumption.
Defined.

(** C6.  The request does fail on a model text.  The gateway answers the
    message "cek ORD12345" of [user1] with an action whose order id is a
    number, not a string: the span from the first opening brace to the last
    closing brace parses, the parser returns the object, the action is
    taken as it is, and stripping its input raises.  The request ends in
    that exception, with the user's message persisted and no reply.  When
    the gateway answers the same message with a text whose span is no
    JSON, the parser returns [None] and the fallback answers the order
    question. *)
Theorem number_as_order_id_fails_the_request :
  PyStr.find "{" Cases2.NUMBER_TEXT = Some 0%nat
  /\ PyStr.rfind "}" Cases2.NUMBER_TEXT
     = Some (String.length Cases2.NUMBER_TEXT - 1)%nat
  /\ try_parse_json_action Cases2.decode_number Cases2.NUMBER_TEXT
     = Some (JObj [ ("action", JStr "get_order_status");
                    ("action_input", JInt 12345) ])
  /\ chat Sample.now Cases2.decode_number Sample.dumps Sample.repr Sample.coerce
          Cases2.suggests_number
          {| req_user_id := "user1"; req_message := "cek ORD12345" |} Sample.seeded
     = (fst (persist_message Sample.now "user1" "user" "cek ORD12345" Sample.seeded),
        Raise AttributeError)
  /\ try_parse_json_action Cases2.decode_number Sample.BROKEN_TEXT = None
  /\ snd (chat Sample.now Cases2.decode_number Sample.dumps Sample.repr Sample.coerce
               Sample.broken
               {| req_user_id := "user1"; req_message := "cek ORD12345" |}
               Sample.seeded)
     = Ok {| reply := "Pesanan ORD12345 saat ini berstatus: Shipped. Tracking: TRACK123.";
             tool_called := Some "get_order_status";
             tool_output :=
               Some (order_found (store Sample.seeded)
                       {| o_id := 1; o_order_id := "ORD12345"; o_user_id := "user1";
                          o_status := "Shipped"; o_tracking := Some "TRACK123";
                          o_created_at := 0; o_product_id := "P123" |}) |}.
Proof. repeat split; vm_compute; reflexivity. Qed.

(** * Further properties of the code *)

(** ** What every request keeps *)

Section Keeps.

Context (R : World -> World -> Prop).
Hypothesis R_refl : forall w, R w w.
Hypothesis R_trans : forall a b c, R a b -> R b c -> R a c.

Lemma keeps_ret {A : Type} (a : A) : keeps R (ret a).
Proof. intros w. apply R_refl. Qed.

Lemma keeps_raise {A : Type} (e : exn) : keeps R (@raise A e).
Proof. intros w. apply R_refl. Qed.

Lemma keeps_lift {A : Type} (r : result A) : keeps R (lift r).
Proof. intros w. apply R_refl. Qed.

Lemma keeps_reads {A : Type} (f : Store -> A) : keeps R (reads f).
Proof. intros w. apply R_refl. Qed.

Lemma keeps_bind {A B : Type} (m : M A) (f : A -> M B) :
  keeps R m -> (forall a, keeps R (f a)) -> keeps R (bindM m f).
Proof.
  intros Hm Hf w. specialize (Hm w). unfold bindM.
  destruct (m w) as [w' [a|e]]; simpl in *; [|exact Hm].
  eapply R_trans; [exact Hm|apply Hf].
Qed.

Variable now : nat -> Z.
Variable json_loads : string -> option json.
Variables json_dumps py_repr : json -> string.
Variable coerce_str : json -> option string.
Variable ask : list Turn -> string -> GatewayReply.
Variable user_id : string.

Hypothesis persist_keeps :
  forall role content,
    chat_role role -> keeps R (persist_message now user_id role content).
Hypothesis patterns_keep : keeps R (get_product_patterns now).

Lemma keeps_extract_patterns (message : string) :
  keeps R (extract_patterns now message).
Proof.
  unfold extract_patterns. apply keeps_bind; [exact patterns_keep|].
  intros [pattern_list product_mapping]. apply keeps_ret.
Qed.

Lemma keeps_settle_action (user_message llm_text : string) (sg : Safeguard) :
  keeps R (settle_action now json_loads user_message llm_text sg).
Proof.
  unfold settle_action. apply keeps_bind; [apply keeps_lift|].
  intros [|]; [|apply keeps_ret].
  apply keeps_bind; [apply keeps_extract_patterns|intros p; apply keeps_ret].
Qed.

Lemma keeps_run_tool (user_message : string) (last_messages : list Turn)
      (action_name action_input : json) :
  keeps R (run_tool py_repr user_id user_message last_messages
                    action_name action_input).
Proof.
  unfold run_tool, run_order_status, run_warranty_info, run_product_info.
  repeat match goal with
         | |- keeps R (if ?b then _ else _) => destruct b
         | |- keeps R (bindM _ _) => apply keeps_bind; [|intro]
         | |- keeps R (lift _) => apply keeps_lift
         | |- keeps R (reads _) => apply keeps_reads
         | |- keeps R (ret _) => apply keeps_ret
         end.
Qed.

Lemma keeps_execute_tools (user_message : string) (last_messages : list Turn)
      (llm_text : string) (action_json : option json) :
  keeps R (execute_tools now json_dumps py_repr coerce_str user_id user_message
                         last_messages llm_text action_json).
Proof.
  assert (keeps R (_ <~ persist_message now user_id "assistant" llm_text ;;
                   ret {| reply := llm_text; tool_called := None;
                          tool_output := None |})) as Hplain.
  { apply keeps_bind; [apply persist_keeps; right; now right|].
    intros _. apply keeps_ret. }
  unfold execute_tools. apply keeps_bind; [apply keeps_lift|].
  intros [action_name|]; [|exact Hplain].
  destruct action_json as [d|]; [|exact Hplain].
  apply keeps_bind; [apply keeps_lift|]. intros action_input.
  apply keeps_bind; [apply keeps_run_tool|]. intros [output assistant_reply].
  apply keeps_bind; [apply persist_keeps; right; now left|]. intros _.
  apply keeps_bind; [apply persist_keeps; right; now right|]. intros _.
  apply keeps_bind; [apply keeps_lift|]. intros called. apply keeps_ret.
Qed.

Lemma keeps_chat (req : ChatRequest) :
  req_user_id req = user_id ->
  keeps R (chat now json_loads json_dumps py_repr coerce_str ask req).
Proof.
  intros Hu. unfold chat. rewrite Hu.
  apply keeps_bind; [apply persist_keeps; now left|]. intros _.
  apply keeps_bind; [apply keeps_reads|]. intros last_messages.
  destruct (ask last_messages _) as [llm_text|e]; [|apply keeps_raise].
  apply keeps_bind; [apply keeps_reads|].
  assert (forall sg,
             keeps R (action_json <~ settle_action now json_loads
                                       (PyStr.strip (req_message req)) llm_text sg ;;
                      execute_tools now json_dumps py_repr coerce_str user_id
                                    (PyStr.strip (req_message req)) last_messages
                                    llm_text action_json)) as Hrun.
  { intros sg. apply keeps_bind; [apply keeps_settle_action|].
    intros action_json. apply keeps_execute_tools. }
  intros [| |a]; [apply Hrun| |apply Hrun].
  apply keeps_bind; [apply persist_keeps; right; now right|].
  intros _. apply keeps_ret.
Qed.

End Keeps.

Lemma appends_for_refl (user_id : string) (w : World) : appends_for user_id w w.
Proof.
  exists []. rewrite app_nil_r. repeat split; constructor.
Qed.

Lemma appends_for_trans (user_id : string) (a b c : World) :
  appends_for user_id a b -> appends_for user_id b c -> appends_for user_id a c.
Proof.
  intros (r1 & Hm1 & Hf1 & Hw1 & Hp1 & Ho1) (r2 & Hm2 & Hf2 & Hw2 & Hp2 & Ho2).
  exists (r1 ++ r2)%list.
  rewrite Hm2, Hm1, app_assoc, Hw2, Hp2, Ho2.
  repeat split; try assumption. apply Forall_app. now split.
Qed.

Lemma persist_appends (now : nat -> Z) (user_id role content : string) :
  chat_role role ->
  keeps (appends_for user_id) (persist_message now user_id role content).
Proof.
  intros Hr w. rewrite persist_message_run. simpl.
  eexists [_]. repeat split. constructor; [|constructor]. now split.
Qed.

Lemma patterns_append_nothing (now : nat -> Z) (user_id : string) :
  keeps (appends_for user_id) (get_product_patterns now).
Proof.
  intros w. destruct (get_product_patterns_returns now w) as (w' & t & H & Hs).
  rewrite H. simpl. exists []. rewrite Hs, app_nil_r. repeat split. constructor.
Qed.

(** A chat request, whatever its outcome, only appends to the message
    table rows of the requesting user with one of the roles "user", "tool"
    and "assistant"; it changes no earlier message and nothing in the
    tables of warranties, products and orders. *)
Theorem chat_only_appends_messages
        (now : nat -> Z) (json_loads : string -> option json)
        (json_dumps py_repr : json -> string) (coerce_str : json -> option string)
        (ask : list Turn -> string -> GatewayReply)
        (req : ChatRequest) (w : World) :
  appends_for (req_user_id req) w
              (fst (chat now json_loads json_dumps py_repr coerce_str ask req w)).
Proof.
  apply (keeps_chat (appends_for (req_user_id req))
                    (appends_for_refl _) (appends_for_trans _)
                    now json_loads json_dumps py_repr coerce_str ask
                    (req_user_id req)).
  - intros role content Hr. now apply persist_appends.
  - apply patterns_append_nothing.
  - reflexivity.
Qed.

Lemma persist_stays_coherent (now : nat -> Z) (user_id role content : string) :
  keeps stays_coherent (persist_message now user_id role content).
Proof. intros w H. rewrite persist_message_run. exact H. Qed.

Lemma patterns_stay_coherent (now : nat -> Z) :
  keeps stays_coherent (get_product_patterns now).
Proof.
  intros w Hc. unfold get_product_patterns.
  destruct (product_patterns_cache w) as [table|] eqn:Et;
    [destruct (cache_timestamp w) as [stamp|]|];
    try (rewrite rebuild_patterns_run; right; reflexivity).
  unfold bindM at 1. rewrite read_clock_run.
  destruct (now (clock w) - stamp <? CACHE_TTL)%Z.
  - change (cache_coherent w). unfold cache_coherent in *.
    rewrite ?Et in *. exact Hc.
  - rewrite rebuild_patterns_run. right. reflexivity.
Qed.

(** A pattern cache that is empty or holds the patterns of the present
    catalog is left in such a state by every request: a chat request,
    whatever its outcome, and each of the four administrative endpoints.
    So a cache that starts empty never serves the patterns of another
    catalog than the present one. *)
Theorem pattern_cache_stays_coherent
        (now : nat -> Z) (json_loads : string -> option json)
        (json_dumps py_repr : json -> string) (coerce_str : json -> option string)
        (ask : list Turn -> string -> GatewayReply) (exn_str : exn -> string)
        (req : ChatRequest) (w : World) :
  cache_coherent w ->
  cache_coherent (fst (chat now json_loads json_dumps py_repr coerce_str ask req w))
  /\ cache_coherent (fst (clear_database exn_str w))
  /\ cache_coherent (fst (seed_database_endpoint now exn_str w))
  /\ cache_coherent (fst (reset_database now exn_str w))
  /\ cache_coherent (fst (database_status now exn_str w)).
Proof.
  intros Hc. split; [|split; [|split; [|split]]].
  - revert Hc.
    apply (keeps_chat stays_coherent (fun _ H => H) (fun _ _ _ H1 H2 H => H2 (H1 H))
                      now json_loads json_dumps py_repr coerce_str ask
                      (req_user_id req)).
    + intros role content _. apply persist_stays_coherent.
    + apply patterns_stay_coherent.
    + reflexivity.
  - left. reflexivity.
  - unfold seed_database_endpoint, guarded, bindM, seed_database.
    destruct (orders (store w)); [|left; reflexivity].
    destruct (existsb _ _); [exact Hc|left; reflexivity].
  - left. reflexivity.
  - unfold database_status, guarded.
    destruct (cache_timestamp w) as [stamp|];
      [destruct (Z.eqb stamp 0)|]; exact Hc.
Qed.

Lemma pattern_cache_stays_coherent_witness :
  cache_coherent (fst (Sample.chat {| req_user_id := "user9";
                                      req_message := "info laptop" |} Sample.warm))
  /\ cache_coherent (fst (clear_database Sample.exn_text Sample.warm))
  /\ cache_coherent (fst (seed_database_endpoint Sample.now Sample.exn_text Sample.warm))
  /\ cache_coherent (fst (reset_database Sample.now Sample.exn_text Sample.warm))
  /\ cache_coherent (fst (database_status Sample.now Sample.exn_text Sample.warm)).
Proof.
  apply (pattern_cache_stays_coherent
           Sample.now Sample.reject Sample.dumps Sample.repr Sample.coerce
           Sample.small_talk Sample.exn_text
           {| req_user_id := "user9"; req_message := "info laptop" |} Sample.warm).
  right. vm_compute. reflexivity.
Defined.

(** ** Outcomes of a chat request *)

(** When the gateway call raises, the request fails with status 500 and
    the detail "LLM error: ..."; the user's message (of ASCII text, so
    that [strip] is Python's) has been persisted by then and stays, and
    nothing else has changed. *)
Theorem gateway_failure_after_user_message
        (now : nat -> Z) (json_loads : string -> option json)
        (json_dumps py_repr : json -> string) (coerce_str : json -> option string)
        (ask : list Turn -> string -> GatewayReply)
        (req : ChatRequest) (w : World) (e : string) :
  PyStr.isascii (req_message req) = true ->
  ask (get_last_n_messages
         (store (fst (persist_message now (req_user_id req) "user"
                        (PyStr.strip (req_message req)) w)))
         (req_user_id req) 3)
      (PyStr.strip (req_message req)) = Failed e ->
  chat now json_loads json_dumps py_repr coerce_str ask req w
  = (fst (persist_message now (req_user_id req) "user"
                          (PyStr.strip (req_message req)) w),
     Raise (HTTPException 500 ("LLM error: " ++ e))).
Proof.
  intros _ Hask. rewrite persist_message_run in *. simpl fst in *.
  unfold chat. erewrite bindM_ok by apply persist_message_run.
  rewrite bindM_reads, Hask. reflexivity.
Qed.

Lemma gateway_failure_after_user_message_witness :
  chat Sample.now Sample.reject Sample.dumps Sample.repr Sample.coerce Cases.down
       {| req_user_id := "user1"; req_message := "cek ORD12345" |} Sample.seeded
  = (fst (persist_message Sample.now "user1" "user" "cek ORD12345" Sample.seeded),
     Raise (HTTPException 500 "LLM error: Ollama HTTP call failed: timed out")).
Proof.
  apply (gateway_failure_after_user_message
           Sample.now Sample.reject Sample.dumps Sample.repr Sample.coerce Cases.down
           {| req_user_id := "user1"; req_message := "cek ORD12345" |} Sample.seeded
           "Ollama HTTP call failed: timed out").
  - reflexivity.
  - reflexivity.
Defined.

Lemma lookup_nonempty (k : string) (kv : list (string * json)) (v : json) :
  Py.lookup k kv = Some v -> Py.truthy (JObj kv) = true.
Proof. now destruct kv. Qed.

(** When the safeguard does not apply (to a message of ASCII text) and
    the model names a tool that is none of the three (and not "none"), no
    lookup is made: the reply is the
    fixed "not supported" sentence with that name, the tool output is the
    error marker, and the request persists three turns, the user's, the
    tool's and the assistant's. *)
Theorem unsupported_tool_is_reported
        (now : nat -> Z) (json_loads : string -> option json)
        (json_dumps py_repr : json -> string) (coerce_str : json -> option string)
        (ask : list Turn -> string -> GatewayReply)
        (req : ChatRequest) (w : World) (llm_text name : string)
        (kv : list (string * json)) :
  PyStr.isascii (req_message req) = true ->
  ask (get_last_n_messages
         (store (fst (persist_message now (req_user_id req) "user"
                        (PyStr.strip (req_message req)) w)))
         (req_user_id req) 3)
      (PyStr.strip (req_message req)) = Text llm_text ->
  Re.matches (Re.search_i Patterns.WARRANTY (PyStr.strip (req_message req))) = false ->
  try_parse_json_action json_loads llm_text = Some (JObj kv) ->
  Py.lookup "action" kv = Some (JStr name) ->
  name <> "" -> name <> "none" -> ~ tool_name name ->
  chat now json_loads json_dumps py_repr coerce_str ask req w
  = (_ <~ persist_message now (req_user_id req) "user"
            (PyStr.strip (req_message req)) ;;
     _ <~ persist_message now (req_user_id req) "tool"
            (json_dumps
               (JObj [ ("tool", JStr name);
                       ("output", JObj [ ("error", JStr "unsupported_tool") ]) ])) ;;
     _ <~ persist_message now (req_user_id req) "assistant"
            ("Tool '" ++ name ++ "' yang diminta tidak didukung.") ;;
     ret {| reply := "Tool '" ++ name ++ "' yang diminta tidak didukung.";
            tool_called := Some name;
            tool_output := Some (JObj [ ("error", JStr "unsupported_tool") ]) |}) w.
Proof.
  intros _ Hask Hw Hparse Hact Hne Hnone Htool.
  rewrite persist_message_run in Hask. simpl fst in Hask.
  apply String.eqb_neq in Hnone.
  assert (PyStr.nonempty name = true) as Hne' by (destruct name; [contradiction|reflexivity]).
  assert (String.eqb name "get_order_status" = false
          /\ String.eqb name "get_warranty_info" = false
          /\ String.eqb name "get_product_info" = false) as (H1 & H2 & H3).
  { unfold tool_name in Htool.
    repeat split; apply String.eqb_neq; intros ->; apply Htool; auto. }
  unfold chat. apply bindM_cong. intros [] w1 E.
  rewrite persist_message_run in E. injection E as <-.
  rewrite bindM_reads, Hask, bindM_reads.
  rewrite safeguard_not_warranty by exact Hw.
  unfold bindM at 1, settle_action. rewrite Hparse.
  unfold no_action, runnable, Py.get. rewrite (lookup_nonempty _ _ _ Hact), Hact.
  simpl. rewrite Hnone. simpl.
  unfold execute_tools, runnable, Py.get.
  rewrite (lookup_nonempty _ _ _ Hact), Hact. simpl.
  rewrite Hne', Hnone. simpl.
  unfold Py.get_default. rewrite bindM_lift.
  unfold run_tool. simpl. rewrite H1, H2, H3. reflexivity.
Qed.

Lemma unsupported_tool_is_reported_witness :
  snd (chat Sample.now Cases.decode_refund Sample.dumps Sample.repr Sample.coerce
            Cases.suggests_refund
            {| req_user_id := "user1"; req_message := "tolong refund ORD12345" |}
            Sample.seeded)
  = Ok {| reply := "Tool 'refund_order' yang diminta tidak didukung.";
          tool_called := Some "refund_order";
          tool_output := Some (JObj [ ("error", JStr "unsupported_tool") ]) |}.
Proof.
  rewrite (unsupported_tool_is_reported
             Sample.now Cases.decode_refund Sample.dumps Sample.repr Sample.coerce
             Cases.suggests_refund
             {| req_user_id := "user1"; req_message := "tolong refund ORD12345" |}
             Sample.seeded Cases.REFUND_TEXT "refund_order"
             [ ("action", JStr "refund_order") ]).
  - reflexivity.
  - reflexivity.
  - reflexivity.
  - vm_compute. reflexivity.
  - vm_compute. reflexivity.
  - reflexivity.
  - discriminate.
  - discriminate.
  - intros [H | [H | H]]; discriminate.
Defined.

Lemma fallback_nothing (message : string) (patterns : ExtractedPatterns) :
  pat_order_id patterns = None ->
  Re.matches (Re.search_i Patterns.FALLBACK_ORDER message) = false ->
  Re.matches (Re.search_i Patterns.FALLBACK_WARRANTY message) = false ->
  Re.matches (Re.search_i Patterns.FALLBACK_PRODUCT message) = false ->
  determine_fallback_action message patterns = None.
Proof.
  intros Ho H1 H2 H3. unfold determine_fallback_action.
  now rewrite Ho, H1, H2, H3.
Qed.

(** When neither the model, nor the safeguard, nor the fallback gives an
    action (the message, of ASCII text, holds no order reference and none
    of the order, warranty and product-info keywords), the reply is the model's text as
    it came, any JSON fragment included; no tool is called, and the
    request persists two turns, the user's message and that text. *)
Theorem model_text_is_the_reply
        (now : nat -> Z) (json_loads : string -> option json)
        (json_dumps py_repr : json -> string) (coerce_str : json -> option string)
        (ask : list Turn -> string -> GatewayReply)
        (req : ChatRequest) (w : World) (llm_text : string) :
  PyStr.isascii (req_message req) = true ->
  ask (get_last_n_messages
         (store (fst (persist_message now (req_user_id req) "user"
                        (PyStr.strip (req_message req)) w)))
         (req_user_id req) 3)
      (PyStr.strip (req_message req)) = Text llm_text ->
  no_action (try_parse_json_action json_loads llm_text) = Ok true ->
  Re.matches (Re.search_i Patterns.WARRANTY (PyStr.strip (req_message req))) = false ->
  Re.search_i Patterns.ORDER_ID (PyStr.strip (req_message req)) = None ->
  Re.matches (Re.search_i Patterns.FALLBACK_ORDER (PyStr.strip (req_message req))) = false ->
  Re.matches (Re.search_i Patterns.FALLBACK_WARRANTY (PyStr.strip (req_message req))) = false ->
  Re.matches (Re.search_i Patterns.FALLBACK_PRODUCT (PyStr.strip (req_message req))) = false ->
  exists w' question answer,
    chat now json_loads json_dumps py_repr coerce_str ask req w
    = (w', Ok {| reply := llm_text; tool_called := None; tool_output := None |})
    /\ messages (store w') = (messages (store w) ++ [question; answer])%list
    /\ (msg_role question = "user"
        /\ msg_content question = PyStr.strip (req_message req))
    /\ (msg_role answer = "assistant" /\ msg_content answer = llm_text).
Proof.
  intros _ Hask Hno Hw Ho H1 H2 H3.
  rewrite persist_message_run in Hask. simpl fst in Hask.
  unfold chat. erewrite bindM_ok by apply persist_message_run.
  rewrite bindM_reads, Hask, bindM_reads.
  rewrite safeguard_not_warranty by exact Hw.
  match goal with |- exists _ _ _, bindM _ _ ?w1 = _ /\ _ =>
    destruct (extract_patterns_returns now (PyStr.strip (req_message req)) w1)
      as (w2 & p & Hx & Hs & Hpo & _) end.
  rewrite Ho in Hpo.
  erewrite bindM_ok;
    [|rewrite settle_action_fallback by exact Hno;
      erewrite bindM_ok by exact Hx; reflexivity].
  rewrite (fallback_nothing _ _ Hpo H1 H2 H3).
  unfold execute_tools. change (runnable None) with (@Ok (option json) None).
  rewrite bindM_lift.
  erewrite bindM_ok by apply persist_message_run.
  eexists _, _, _. split; [reflexivity|].
  simpl. rewrite Hs. simpl. rewrite <- app_assoc. simpl.
  repeat split; reflexivity.
Qed.

Lemma model_text_is_the_reply_witness :
  exists w' question answer,
    Sample.chat {| req_user_id := "user9"; req_message := " halo " |} Sample.seeded
    = (w', Ok {| reply := "Ada yang bisa saya bantu?";
                 tool_called := None; tool_output := None |})
    /\ messages (store w')
       = (messages (store Sample.seeded) ++ [question; answer])%list
    /\ (msg_role question = "user" /\ msg_content question = "halo")
    /\ (msg_role answer = "assistant"
        /\ msg_content answer = "Ada yang bisa saya bantu?").
Proof.
  apply (model_text_is_the_reply
           Sample.now Sample.reject Sample.dumps Sample.repr Sample.coerce
           Sample.small_talk
           {| req_user_id := "user9"; req_message := " halo " |} Sample.seeded
           "Ada yang bisa saya bantu?");
    vm_compute; reflexivity.
Defined.

(** ** Histories *)

Lemma newest_comes_first (l : list Message) (m : Message) :
  (forall x, In x l -> (msg_created_at x < msg_created_at m)%Z) ->
  Sql.order_by created_desc (l ++ [m]) = m :: Sql.order_by created_desc l.
Proof.
  induction l as [|x l IH]; intros H; [reflexivity|].
  simpl. rewrite IH by (intros y Hy; apply H; now right).
  simpl. unfold created_desc at 1.
  specialize (H x (or_introl eq_refl)).
  destruct (msg_created_at m <=? msg_created_at x)%Z eqn:E; [|reflexivity].
  apply Z.leb_le in E. lia.
Qed.

(** The history that [chat] reads right after persisting the user's
    message starts with that very message, followed by the most recent
    earlier turns of the user: provided the clock reading of the new row is
    later than those of the user's earlier rows. *)
Theorem new_message_heads_history
        (now : nat -> Z) (user_id role_ content_ : string) (n : nat) (w : World) :
  (forall m, In m (messages (store w)) -> msg_user_id m = user_id ->
             (msg_created_at m < now (clock w))%Z) ->
  get_last_n_messages
    (store (fst (persist_message now user_id role_ content_ w))) user_id (S n)
  = {| role := role_; content := content_ |}
      :: get_last_n_messages (store w) user_id n.
Proof.
  intros Hlate. rewrite persist_message_run. unfold get_last_n_messages.
  simpl. rewrite filter_app. simpl. unfold of_user at 2. simpl.
  rewrite String.eqb_refl, newest_comes_first; [reflexivity|].
  intros x Hx. apply filter_In in Hx. destruct Hx as [Hx Hu].
  apply String.eqb_eq in Hu. simpl. now apply Hlate.
Qed.

Lemma new_message_heads_history_witness :
  get_last_n_messages
    (store (fst (persist_message Sample.now "user1" "user" "garansinya?"
                   (fst (Sample.chat {| req_user_id := "user1";
                                        req_message := "cek ORD12345" |}
                                     Sample.seeded)))))
    "user1" 3
  = [ {| role := "user"; content := "garansinya?" |};
      {| role := "assistant";
         content := "Pesanan ORD12345 saat ini berstatus: Shipped. Tracking: TRACK123." |};
      {| role := "tool"; content := "{}" |} ].
Proof.
  rewrite (new_message_heads_history Sample.now "user1" "user" "garansinya?" 2).
  - reflexivity.
  - intros m Hm _. vm_compute in Hm.
    destruct Hm as [<- | [<- | [<- | []]]]; vm_compute; reflexivity.
Defined.

Lemma filter_other_user (u v : string) (rows : list Message) :
  v <> u ->
  Forall (fun m => msg_user_id m = v /\ chat_role (msg_role m)) rows ->
  filter (of_user u) rows = [].
Proof.
  intros Hvu Hrows. apply filter_none. intros m Hm.
  rewrite Forall_forall in Hrows. destruct (Hrows m Hm) as [Hv _].
  unfold of_user. rewrite Hv. now apply String.eqb_neq.
Qed.

(** A chat request of one user, whatever its outcome, leaves the history
    of every other user as it was: both what [GET /history/{user_id}]
    returns and the context that [chat] reads for that user. *)
Theorem chat_keeps_other_histories
        (now : nat -> Z) (json_loads : string -> option json)
        (json_dumps py_repr : json -> string) (coerce_str : json -> option string)
        (ask : list Turn -> string -> GatewayReply)
        (req : ChatRequest) (w : World) (other : string) (n : nat) :
  req_user_id req <> other ->
  get_all_messages_for_user
    (store (fst (chat now json_loads json_dumps py_repr coerce_str ask req w))) other
  = get_all_messages_for_user (store w) other
  /\ get_last_n_messages
       (store (fst (chat now json_loads json_dumps py_repr coerce_str ask req w)))
       other n
     = get_last_n_messages (store w) other n.
Proof.
  intros Hother.
  assert (appends_for (req_user_id req) w
            (fst (chat now json_loads json_dumps py_repr coerce_str ask req w)))
    as (rows & Hm & Hrows & _).
  { apply (keeps_chat (appends_for (req_user_id req))
                      (appends_for_refl _) (appends_for_trans _)
                      now json_loads json_dumps py_repr coerce_str ask
                      (req_user_id req)).
    - intros r c Hr. now apply persist_appends.
    - apply patterns_append_nothing.
    - reflexivity. }
  unfold get_all_messages_for_user, get_last_n_messages.
  rewrite Hm, filter_app, (filter_other_user other _ rows Hother Hrows), app_nil_r.
  split; reflexivity.
Qed.

Lemma chat_keeps_other_histories_witness :
  get_all_messages_for_user
    (store (fst (Sample.chat {| req_user_id := "user1";
                                req_message := "cek ORD12345" |} Sample.seeded)))
    "user2"
  = get_all_messages_for_user (store Sample.seeded) "user2"
  /\ get_last_n_messages
       (store (fst (Sample.chat {| req_user_id := "user1";
                                   req_message := "cek ORD12345" |} Sample.seeded)))
       "user2" 3
     = get_last_n_messages (store Sample.seeded) "user2" 3.
Proof.
  apply (chat_keeps_other_histories
           Sample.now Sample.reject Sample.dumps Sample.repr Sample.coerce
           Sample.small_talk
           {| req_user_id := "user1"; req_message := "cek ORD12345" |}
           Sample.seeded "user2" 3).
  discriminate.
Defined.

(** ** Orders *)

Lemma order_created_desc_total (a b : Order) :
  order_created_desc a b = false -> order_created_desc b a = true.
Proof.
  unfold order_created_desc. intros H. apply Z.leb_gt in H. apply Z.leb_le. lia.
Qed.

Lemma orders_newest_first (l : list Order) :
  StronglySorted (fun a b => (o_created_at b <= o_created_at a)%Z)
                 (Sql.order_by order_created_desc l).
Proof.
  apply Sorted_StronglySorted; [intros a b c; lia|].
  pose proof (order_by_sorted order_created_desc order_created_desc_total l) as H.
  induction H as [|x t Hs IH Hhd]; constructor; [exact IH|].
  destruct Hhd as [|y t' Hxy]; constructor.
  unfold in_order, order_created_desc in Hxy. now apply Z.leb_le.
Qed.

Lemma latest_order_spec (s : Store) (user_id : string) :
  match get_latest_order_for_user s user_id with
  | None => forall o, In o (orders s) -> o_user_id o <> user_id
  | Some o =>
      In o (orders s) /\ o_user_id o = user_id
      /\ forall o', In o' (orders s) -> o_user_id o' = user_id ->
                    (o_created_at o' <= o_created_at o)%Z
  end.
Proof.
  unfold get_latest_order_for_user.
  pose proof (order_by_perm order_created_desc
                (filter (fun o => String.eqb (o_user_id o) user_id) (orders s))) as Hperm.
  pose proof (orders_newest_first
                (filter (fun o => String.eqb (o_user_id o) user_id) (orders s))) as Hsort.
  destruct (Sql.order_by order_created_desc _) as [|o rest].
  - simpl. intros o Ho Hu.
    assert (In o []) as [].
    apply (Permutation_in _ (Permutation_sym Hperm)).
    apply filter_In. split; [exact Ho|]. now apply String.eqb_eq.
  - simpl.
    assert (In o (filter (fun o => String.eqb (o_user_id o) user_id) (orders s))) as Hin
        by (apply (Permutation_in _ Hperm); now left).
    apply filter_In in Hin. destruct Hin as [Hin Hu]. apply String.eqb_eq in Hu.
    split; [exact Hin|]. split; [exact Hu|].
    intros o' Ho' Hu'.
    assert (In o' (o :: rest)) as [<- | Hrest].
    { apply (Permutation_in _ (Permutation_sym Hperm)).
      apply filter_In. split; [exact Ho'|]. now apply String.eqb_eq. }
    + lia.
    + inversion Hsort as [|? ? _ Hall]; subst.
      rewrite Forall_forall in Hall. now apply Hall.
Qed.

(** An order-status action with a blank order id, when no turn of the
    history holds an order reference (the input and the turns being of
    ASCII text), reports the requesting user's most
    recent order: an order of that user that no other order of the user is
    later than.  For a user without orders the output is [found = false]
    with no order id, and the reply is the not-found sentence. *)
Theorem blank_order_id_means_latest_order
        (py_repr : json -> string) (w : World) (user_id raw : string)
        (last_messages : list Turn) :
  PyStr.isascii raw = true ->
  (forall t, In t last_messages -> PyStr.isascii (content t) = true) ->
  PyStr.strip raw = "" ->
  history_order last_messages = None ->
  (exists o,
      In o (orders (store w)) /\ o_user_id o = user_id
      /\ (forall o', In o' (orders (store w)) -> o_user_id o' = user_id ->
                     (o_created_at o' <= o_created_at o)%Z)
      /\ run_order_status py_repr user_id last_messages (JStr raw) w
         = (w, Ok (Some (order_found (store w) o),
                   "Pesanan " ++ o_order_id o ++ " saat ini berstatus: "
                   ++ o_status o ++ "."
                   ++ match o_tracking o with
                      | Some t => if PyStr.nonempty t
                                  then " Tracking: " ++ t ++ "." else ""
                      | None => ""
                      end)))
  \/ ((forall o, In o (orders (store w)) -> o_user_id o <> user_id)
      /\ run_order_status py_repr user_id last_messages (JStr raw) w
         = (w, Ok (Some (JObj [ ("found", JBool false); ("order_id", JNull) ]),
                   ORDER_NOT_FOUND_REPLY))).
Proof.
  intros _ _ Hraw Hhist.
  pose proof (latest_order_spec (store w) user_id) as Hspec.
  unfold run_order_status, as_str. cbv beta iota.
  rewrite bindM_lift, bindM_reads, Hraw, Hhist.
  destruct (get_latest_order_for_user (store w) user_id) as [o|].
  - left. exists o. destruct Hspec as (Hin & Hu & Hmax).
    repeat split; try assumption.
    destruct (o_tracking o) as [t|] eqn:Et; [destruct t|];
      unfold ret; simpl; rewrite ?Et; reflexivity.
  - right. split; [exact Hspec|reflexivity].
Qed.

Lemma blank_order_id_means_latest_order_witness :
  (exists o,
      In o (orders (store Sample.seeded)) /\ o_user_id o = "user1"
      /\ (forall o', In o' (orders (store Sample.seeded)) -> o_user_id o' = "user1" ->
                     (o_created_at o' <= o_created_at o)%Z)
      /\ run_order_status Sample.repr "user1"
                          [ {| role := "user"; content := "pesanan saya" |} ]
                          (JStr " ") Sample.seeded
         = (Sample.seeded,
            Ok (Some (order_found (store Sample.seeded) o),
                "Pesanan " ++ o_order_id o ++ " saat ini berstatus: "
                ++ o_status o ++ "."
                ++ match o_tracking o with
                   | Some t => if PyStr.nonempty t
                               then " Tracking: " ++ t ++ "." else ""
                   | None => ""
                   end)))
  \/ ((forall o, In o (orders (store Sample.seeded)) -> o_user_id o <> "user1")
      /\ run_order_status Sample.repr "user1"
                          [ {| role := "user"; content := "pesanan saya" |} ]
                          (JStr " ") Sample.seeded
         = (Sample.seeded,
            Ok (Some (JObj [ ("found", JBool false); ("order_id", JNull) ]),
                ORDER_NOT_FOUND_REPLY))).
Proof.
  apply (blank_order_id_means_latest_order
           Sample.repr Sample.seeded "user1" " "
           [ {| role := "user"; content := "pesanan saya" |} ]).
  - reflexivity.
  - intros t [<- | []]. reflexivity.
  - reflexivity.
  - reflexivity.
Defined.

(** A warranty question of ASCII text without an explicit product id,
    from a user who has orders, is answered for the product of the user's most recent
    order, whatever the history says: a product named in the conversation
    is only looked for when the user has no order. *)
Theorem warranty_context_prefers_latest_order
        (s : Store) (user_id message : string) (last_messages : list Turn)
        (o : Order) :
  PyStr.isascii message = true ->
  Re.matches (Re.search_i Patterns.WARRANTY message) = true ->
  Re.search Patterns.PRODUCT_ID_WORD message = None ->
  get_latest_order_for_user s user_id = Some o ->
  o_product_id o <> "" ->
  handle_warranty_safeguard s user_id message last_messages
  = Resolved (action "get_warranty_info" (o_product_id o))
  /\ In o (orders s) /\ o_user_id o = user_id
  /\ (forall o', In o' (orders s) -> o_user_id o' = user_id ->
                 (o_created_at o' <= o_created_at o)%Z).
Proof.
  intros _ Hw Hp Ho Hne.
  pose proof (latest_order_spec s user_id) as Hspec. rewrite Ho in Hspec.
  split; [|exact Hspec].
  unfold handle_warranty_safeguard. rewrite Hw, Hp, Ho. simpl.
  destruct (o_product_id o); [contradiction|reflexivity].
Qed.

Lemma warranty_context_prefers_latest_order_witness :
  handle_warranty_safeguard (store Sample.seeded) "user2" "berapa lama garansi produk ini?"
    [ {| role := "user"; content := "berapa lama garansi produk ini?" |};
      {| role := "assistant"; content := "Kelebihan Headphone Wireless (P123)" |} ]
  = Resolved (action "get_warranty_info" "P234").
Proof.
  apply (warranty_context_prefers_latest_order
           (store Sample.seeded) "user2" "berapa lama garansi produk ini?"
           [ {| role := "user"; content := "berapa lama garansi produk ini?" |};
             {| role := "assistant"; content := "Kelebihan Headphone Wireless (P123)" |} ]
           {| o_id := 2; o_order_id := "ORD23456"; o_user_id := "user2";
              o_status := "Processing"; o_tracking := None;
              o_created_at := 1; o_product_id := "P234" |}).
  - reflexivity.
  - vm_compute. reflexivity.
  - vm_compute. reflexivity.
  - vm_compute. reflexivity.
  - discriminate.
Defined.

(** ** The pattern cache and the administrative endpoints *)

(** A cached pattern table is returned as it is, without a look at the
    catalog, while it is younger than 300 seconds; from 300 seconds on it
    is rebuilt from the catalog and stamped with a new clock reading. *)
Theorem pattern_cache_expires_after_ttl
        (now : nat -> Z) (w : World) (table : PatternTable) (stamp : Z) :
  product_patterns_cache w = Some table ->
  cache_timestamp w = Some stamp ->
  ((now (clock w) - stamp < 300 * 1000000)%Z ->
   get_product_patterns now w = (tick w, Ok table))
  /\ ((300 * 1000000 <= now (clock w) - stamp)%Z ->
      get_product_patterns now w
      = ({| store := store w;
            product_patterns_cache := Some (build_patterns (products (store w)));
            cache_timestamp := Some (now (S (clock w)));
            clock := S (S (clock w)) |},
         Ok (build_patterns (products (store w))))).
Proof.
  intros Hc Ht. unfold get_product_patterns. rewrite Hc, Ht.
  split; intros H; unfold bindM at 1; rewrite read_clock_run;
    destruct (_ <? _)%Z eqn:E.
  - reflexivity.
  - apply Z.ltb_ge in E. unfold CACHE_TTL in E. lia.
  - apply Z.ltb_lt in E. unfold CACHE_TTL in E. lia.
  - rewrite rebuild_patterns_run. reflexivity.
Qed.

Lemma pattern_cache_expires_after_ttl_witness :
  get_product_patterns (fun n => Z.of_nat n * 100000000)%Z
    {| store := empty_store;
       product_patterns_cache := Some (build_patterns Sample.two_gaming);
       cache_timestamp := Some 0%Z;
       clock := 2 |}
  = ({| store := empty_store;
        product_patterns_cache := Some (build_patterns Sample.two_gaming);
        cache_timestamp := Some 0%Z;
        clock := 3 |},
     Ok (build_patterns Sample.two_gaming))
  /\ get_product_patterns (fun n => Z.of_nat n * 100000000)%Z
       {| store := empty_store;
          product_patterns_cache := Some (build_patterns Sample.two_gaming);
          cache_timestamp := Some 0%Z;
          clock := 3 |}
     = ({| store := empty_store;
           product_patterns_cache := Some ([], []);
           cache_timestamp := Some 400000000%Z;
           clock := 5 |},
        Ok ([], [])).
Proof.
  split.
  - apply (pattern_cache_expires_after_ttl
             (fun n => Z.of_nat n * 100000000)%Z
             {| store := empty_store;
                product_patterns_cache := Some (build_patterns Sample.two_gaming);
                cache_timestamp := Some 0%Z;
                clock := 2 |}
             (build_patterns Sample.two_gaming) 0%Z); [reflexivity|reflexivity|].
    vm_compute. reflexivity.
  - apply (pattern_cache_expires_after_ttl
             (fun n => Z.of_nat n * 100000000)%Z
             {| store := empty_store;
                product_patterns_cache := Some (build_patterns Sample.two_gaming);
                cache_timestamp := Some 0%Z;
                clock := 3 |}
             (build_patterns Sample.two_gaming) 0%Z); [reflexivity|reflexivity|].
    vm_compute. discriminate.
Defined.

(** Seeding is idempotent: running [init_database] (that is,
    [seed_database]) again changes nothing and ends as the first run did,
    whether that run seeded the store, found it seeded, or failed on a
    product key that was taken. *)
Theorem seeding_twice_is_seeding_once (now : nat -> Z) (w : World) :
  init_database now (fst (init_database now w))
  = (fst (init_database now w), snd (init_database now w)).
Proof.
  unfold init_database.
  unfold seed_database at 2 3 4.
  destruct (orders (store w)) as [|o l] eqn:Eo.
  - destruct (existsb _ _) eqn:Ek.
    + simpl. unfold seed_database. now rewrite Eo, Ek.
    + reflexivity.
  - simpl. unfold seed_database. now rewrite Eo.
Qed.

(** After [POST /database/reset], and after [DELETE /database/clear],
    whatever the store held: the request has succeeded, and a status
    request that follows reports no cached patterns, no messages, and 3
    orders, 3 products and 2 warranties after a reset, none after a clear. *)
Theorem status_after_reset_and_clear
        (now : nat -> Z) (exn_str : exn -> string) (w : World) :
  (exists body, snd (reset_database now exn_str w) = Ok body)
  /\ snd (database_status now exn_str (fst (reset_database now exn_str w)))
     = Ok (JObj [ ("status", JStr "connected");
                  ("tables", JObj [ ("messages", JInt 0); ("orders", JInt 3);
                                    ("products", JInt 3); ("warranties", JInt 2) ]);
                  ("cache_status", JObj [ ("patterns_cached", JBool false);
                                          ("cache_age_seconds", JNull) ]) ])
  /\ (exists body, snd (clear_database exn_str w) = Ok body)
  /\ snd (database_status now exn_str (fst (clear_database exn_str w)))
     = Ok (JObj [ ("status", JStr "connected");
                  ("tables", JObj [ ("messages", JInt 0); ("orders", JInt 0);
                                    ("products", JInt 0); ("warranties", JInt 0) ]);
                  ("cache_status", JObj [ ("patterns_cached", JBool false);
                                          ("cache_age_seconds", JNull) ]) ]).
Proof.
  repeat split; try (eexists; reflexivity); reflexivity.
Qed.

(** [GET /order/{order_id}] answers 404 exactly when no order of the store
    has that id; otherwise it returns an order with that id, whoever owns
    it.  The store is not changed either way. *)
Theorem order_endpoint_404_iff_absent (w : World) (order_id : string) :
  match order_status_endpoint order_id w with
  | (w', Raise e) =>
      w' = w
      /\ e = HTTPException 404 ("Order " ++ order_id ++ " not found")
      /\ forall o, In o (orders (store w)) -> o_order_id o <> order_id
  | (w', Ok data) =>
      w' = w
      /\ exists o, In o (orders (store w)) /\ o_order_id o = order_id
                   /\ data = order_found (store w) o
  end.
Proof.
  unfold order_status_endpoint. rewrite bindM_reads. unfold get_order_status.
  destruct (filter _ (orders (store w))) as [|o rest] eqn:E; simpl.
  - repeat split. intros o Ho Hid.
    assert (In o []) as []. rewrite <- E. apply filter_In.
    split; [exact Ho|]. now apply String.eqb_eq.
  - split; [reflexivity|]. exists o.
    assert (In o (filter (fun o => String.eqb (o_order_id o) order_id)
                         (orders (store w)))) as Hin by (rewrite E; now left).
    apply filter_In in Hin. destruct Hin as [Hin Hid].
    apply String.eqb_eq in Hid. now repeat split.
Qed.

(** ** Product lookups *)

Lemma like_percent_all (s : string) : Sql.like "%" s = true.
Proof. induction s as [|c s IH]; simpl; [reflexivity|]. exact IH. Qed.

Lemma ilike_contains_empty (column : string) : Sql.ilike_contains "" column = true.
Proof.
  unfold Sql.ilike_contains. simpl append.
  change (Sql.like "%%" column)
    with ((fix any (s : string) : bool :=
             Sql.like "%" s
             || match s with
                | EmptyString => false
                | String _ s' => any s'
                end) column).
  destruct column; now rewrite like_percent_all.
Qed.

Lemma filter_all {A : Type} (f : A -> bool) (l : list A) :
  (forall x, f x = true) -> filter f l = l.
Proof.
  intros H. induction l as [|a l IH]; simpl; [reflexivity|]. now rewrite H, IH.
Qed.

(** With an empty identifier the name search matches every product:
    [search_product_by_name] returns the whole catalog, and
    [get_product_info], when no product has the empty key, returns the
    first product of the catalog instead of "not found".  This is the
    input [chat] uses when the model's action has no [action_input]. *)
Theorem empty_identifier_finds_first_product (s : Store) :
  (forall p, In p (products s) -> p_id p <> "") ->
  search_product_by_name s "" = map product_dict (products s)
  /\ get_product_info s ""
     = Ok (option_map product_dict (hd_error (products s))).
Proof.
  intros Hkey. split.
  - unfold search_product_by_name.
    now rewrite (filter_all _ _ (fun p => ilike_contains_empty (p_name p))).
  - rewrite name_search_without_P by (reflexivity || exact Hkey).
    now rewrite (filter_all _ _ (fun p => ilike_contains_empty (p_name p))).
Qed.

Lemma empty_identifier_finds_first_product_witness :
  search_product_by_name (store Sample.seeded) ""
  = map product_dict (products (store Sample.seeded))
  /\ get_product_info (store Sample.seeded) "" = Ok (Some headphone_dict).
Proof.
  apply (empty_identifier_finds_first_product (store Sample.seeded)).
  intros p Hp. vm_compute in Hp.
  destruct Hp as [<- | [<- | [<- | []]]]; discriminate.
Defined.

(** For an identifier that is no product key and does not start with "P",
    [get_product_info] returns the first hit of [search_product_by_name],
    and [GET /products/{product_id}] answers with that hit, or with 404
    when the search finds nothing: the endpoint takes a name fragment
    where it is documented to take a product id. *)
Theorem product_endpoint_searches_names (w : World) (x : string) :
  PyStr.startswith "P" x = false ->
  (forall p, In p (products (store w)) -> p_id p <> x) ->
  get_product_info (store w) x = Ok (hd_error (search_product_by_name (store w) x))
  /\ get_product_endpoint x w
     = (w, match hd_error (search_product_by_name (store w) x) with
           | Some d => Ok d
           | None => Raise (HTTPException 404 ("Product " ++ x ++ " not found"))
           end).
Proof.
  intros HP Hkey.
  assert (get_product_info (store w) x
          = Ok (hd_error (search_product_by_name (store w) x))) as H.
  { rewrite (name_search_without_P _ _ HP Hkey). unfold search_product_by_name.
    now destruct (filter _ _). }
  split; [exact H|].
  unfold get_product_endpoint. rewrite bindM_reads, H, bindM_lift.
  now destruct (hd_error _).
Qed.

Lemma product_endpoint_searches_names_witness :
  get_product_info (store Sample.seeded) "laptop"
  = Ok (hd_error (search_product_by_name (store Sample.seeded) "laptop"))
  /\ get_product_endpoint "laptop" Sample.seeded
     = (Sample.seeded,
        match hd_error (search_product_by_name (store Sample.seeded) "laptop") with
        | Some d => Ok d
        | None => Raise (HTTPException 404 ("Product " ++ "laptop" ++ " not found"))
        end).
Proof.
  apply (product_endpoint_searches_names Sample.seeded "laptop").
  - reflexivity.
  - intros p Hp. vm_compute in Hp.
    destruct Hp as [<- | [<- | [<- | []]]]; discriminate.
Defined.

(** A product that exists but has no warranty row gets the same answer
    from the warranty tool as a product that does not exist: the lookup
    returns [None] and the reply is the "cannot find warranty information"
    sentence, while [get_product_info] does return the product. *)
Theorem product_without_warranty_is_not_found
        (py_repr : json -> string) (w : World) (p : Product) :
  NoDup (map p_id (products (store w))) ->
  In p (products (store w)) ->
  product_warranty (store w) p = None ->
  get_product_info (store w) (p_id p) = Ok (Some (product_dict p))
  /\ run_warranty_info py_repr (JStr (p_id p)) w
     = (w, Ok (None,
               "Maaf — saya tidak dapat menemukan informasi garansi untuk produk "
               ++ p_id p ++ ".")).
Proof.
  intros Hnd Hin Hw. split.
  - unfold get_product_info. now rewrite (filter_unique_key p_id _ p Hnd Hin).
  - unfold run_warranty_info, as_str. cbv beta iota.
    rewrite bindM_lift, bindM_reads. unfold get_warranty_info.
    rewrite (filter_unique_key p_id _ p Hnd Hin). simpl. rewrite Hw.
    reflexivity.
Qed.

Lemma product_without_warranty_is_not_found_witness :
  run_warranty_info Sample.repr (JStr "P456") Sample.gaming_shop
  = (Sample.gaming_shop,
     Ok (None,
         "Maaf — saya tidak dapat menemukan informasi garansi untuk produk P456.")).
Proof.
  apply (product_without_warranty_is_not_found
           Sample.repr Sample.gaming_shop
           {| p_id := "P456"; p_name := "Gaming Mouse";
              p_description := "Mouse gaming yang ringan.";
              p_pros := None; p_cons := None; p_warranty_id := None |}).
  - vm_compute. repeat constructor; simpl; intuition discriminate.
  - right. left. reflexivity.
  - reflexivity.
Defined.

(** [GET /users/{user_id}/orders] lists exactly the orders of that user,
    each once, the most recent first. *)
Theorem user_orders_are_the_users_newest_first (s : Store) (user_id : string) :
  exists rows,
    get_all_orders_for_user s user_id = map (order_summary s) rows
    /\ Permutation rows
         (filter (fun o => String.eqb (o_user_id o) user_id) (orders s))
    /\ (forall o, In o rows <-> In o (orders s) /\ o_user_id o = user_id)
    /\ StronglySorted (fun a b => (o_created_at b <= o_created_at a)%Z) rows.
Proof.
  exists (user_order_rows s user_id).
  pose proof (order_by_perm order_created_desc
                (filter (fun o => String.eqb (o_user_id o) user_id) (orders s))) as Hperm.
  split; [reflexivity|]. split; [exact Hperm|]. split.
  - intros o. unfold user_order_rows. split.
    + intros H. apply (Permutation_in _ Hperm) in H. apply filter_In in H.
      destruct H as [H Hu]. now apply String.eqb_eq in Hu.
    + intros [H Hu]. apply (Permutation_in _ (Permutation_sym Hperm)).
      apply filter_In. split; [exact H|]. now apply String.eqb_eq.
  - apply orders_newest_first.
Qed.

(** ** The gateway client *)

Lemma read_stream_skips_blank (json_loads : string -> option json)
      (lines : list string) :
  forall output,
    read_stream json_loads (filter PyStr.nonempty lines) output
    = read_stream json_loads lines output.
Proof.
  induction lines as [|line rest IH]; intros output; [reflexivity|].
  simpl. destruct (PyStr.nonempty line) eqn:E; simpl; [|apply IH].
  rewrite E. simpl.
  destruct (json_loads line) as [[| | | | | |kv]|]; try reflexivity.
  destruct (Py.lookup "response" kv) as [[| | | | chunk | |]|]; try reflexivity;
    destruct (Py.truthy _); try reflexivity; apply IH.
Qed.

Lemma read_stream_stops_at_done (json_loads : string -> option json)
      (line : string) (kv : list (string * json)) (done : json)
      (rest1 rest2 : list string) (before : list string) :
  line <> "" ->
  json_loads line = Some (JObj kv) ->
  Py.lookup "done" kv = Some done ->
  Py.truthy done = true ->
  forall output,
    read_stream json_loads (before ++ line :: rest1) output
    = read_stream json_loads (before ++ line :: rest2) output.
Proof.
  intros Hne Hline Hdone Htrue.
  assert (PyStr.nonempty line = true) as Hn by (destruct line; [contradiction|reflexivity]).
  induction before as [|b before IH]; intros output; simpl.
  - rewrite Hn. simpl. rewrite Hline, Hdone, Htrue.
    destruct (Py.lookup "response" kv) as [[| | | | chunk | |]|]; reflexivity.
  - destruct (PyStr.nonempty b); simpl; [|apply IH].
    destruct (json_loads b) as [[| | | | | |kvb]|]; try reflexivity.
    destruct (Py.lookup "response" kvb) as [[| | | | chunk | |]|]; try reflexivity;
      match goal with |- (if ?c then _ else _) = _ => destruct c end;
      try reflexivity; apply IH.
Qed.

(** [call_ollama_http] stops reading at the first line whose object has a
    true "done": whatever the server sends after it, text or garbage, does
    not change the answer.  Blank lines of the body are skipped: taking
    them out changes nothing either. *)
Theorem gateway_answer_ends_at_done
        (json_loads : string -> option json) (fault_str : StreamFault -> string)
        (line : string) (kv : list (string * json)) (done : json)
        (before rest : list string) :
  line <> "" ->
  json_loads line = Some (JObj kv) ->
  Py.lookup "done" kv = Some done ->
  Py.truthy done = true ->
  call_ollama_http json_loads fault_str (Body (before ++ line :: rest))
  = call_ollama_http json_loads fault_str (Body (before ++ [line]))
  /\ forall lines,
      call_ollama_http json_loads fault_str (Body (filter PyStr.nonempty lines))
      = call_ollama_http json_loads fault_str (Body lines).
Proof.
  intros Hne Hline Hdone Htrue. split.
  - unfold call_ollama_http.
    now rewrite (read_stream_stops_at_done json_loads line kv done rest []
                                           before Hne Hline Hdone Htrue).
  - intros lines. unfold call_ollama_http. now rewrite read_stream_skips_blank.
Qed.

Lemma gateway_answer_ends_at_done_witness :
  call_ollama_http Stream.decode Stream.fault_text
                   (Body [ "first"; ""; "second"; "third"; "garbage" ])
  = Text "Pesanan Anda sudah dikirim."
  /\ call_ollama_http Stream.decode Stream.fault_text
                      (Body [ "first"; "garbage" ])
     = Failed "Ollama HTTP call failed: bad line".
Proof.
  split; [|reflexivity].
  change [ "first"; ""; "second"; "third"; "garbage" ]
    with ([ "first"; "" ] ++ "second" :: [ "third"; "garbage" ])%list.
  rewrite (proj1 (gateway_answer_ends_at_done
                    Stream.decode Stream.fault_text "second"
                    [ ("response", JStr "sudah dikirim. "); ("done", JBool true) ]
                    (JBool true) [ "first"; "" ] [ "third"; "garbage" ]
                    ltac:(discriminate) eq_refl eq_refl eq_refl)).
  reflexivity.
Defined.

(** ** Surrounding whitespace *)

Lemma rstrip_idempotent (s : string) : PyStr.rstrip (PyStr.rstrip s) = PyStr.rstrip s.
Proof.
  induction s as [|c s IH]; [reflexivity|]. simpl.
  destruct (PyStr.rstrip s) as [|d r] eqn:E.
  - destruct (PyStr.is_space c) eqn:Ec; [reflexivity|]. simpl. now rewrite Ec.
  - simpl. simpl in IH. now rewrite IH.
Qed.

Lemma rstrip_keeps_head (c : ascii) (s : string) :
  PyStr.is_space c = false ->
  exists r, PyStr.rstrip (String c s) = String c r.
Proof.
  intros Hc. simpl. destruct (PyStr.rstrip s); [rewrite Hc|]; eauto.
Qed.

Lemma lstrip_shape (s : string) :
  PyStr.lstrip s = EmptyString
  \/ exists c r, PyStr.lstrip s = String c r /\ PyStr.is_space c = false.
Proof.
  induction s as [|c s IH]; [now left|]. simpl.
  destruct (PyStr.is_space c) eqn:E; [exact IH|]. right. eauto.
Qed.

Lemma strip_idempotent (s : string) : PyStr.strip (PyStr.strip s) = PyStr.strip s.
Proof.
  unfold PyStr.strip.
  destruct (lstrip_shape s) as [-> | (c & r & -> & Hc)]; [reflexivity|].
  destruct (rstrip_keeps_head c r Hc) as [r' Hr]. rewrite Hr.
  simpl PyStr.lstrip. rewrite Hc, <- Hr. apply rstrip_idempotent.
Qed.

Lemma lstrip_spaces (pre s : string) :
  all_chars PyStr.is_space pre = true -> PyStr.lstrip (pre ++ s) = PyStr.lstrip s.
Proof.
  induction pre as [|c pre IH]; intros H; [reflexivity|].
  simpl in *. apply andb_prop in H. destruct H as [Hc Hpre].
  rewrite Hc. now apply IH.
Qed.

Lemma rstrip_all_spaces (post : string) :
  all_chars PyStr.is_space post = true -> PyStr.rstrip post = "".
Proof.
  induction post as [|c post IH]; intros H; [reflexivity|].
  simpl in *. apply andb_prop in H. destruct H as [Hc Hpost].
  now rewrite (IH Hpost), Hc.
Qed.

Lemma rstrip_spaces (s post : string) :
  all_chars PyStr.is_space post = true -> PyStr.rstrip (s ++ post) = PyStr.rstrip s.
Proof.
  intros H. induction s as [|c s IH]; simpl.
  - now apply rstrip_all_spaces.
  - now rewrite IH.
Qed.

Lemma lstrip_all_spaces (post : string) :
  all_chars PyStr.is_space post = true -> PyStr.lstrip post = "".
Proof.
  induction post as [|c post IH]; intros H; [reflexivity|].
  simpl in *. apply andb_prop in H. destruct H as [Hc Hpost].
  rewrite Hc. now apply IH.
Qed.

(** What is stripped off: any white space before and after. *)
Lemma strip_surrounded (pre core post : string) :
  all_chars PyStr.is_space pre = true ->
  all_chars PyStr.is_space post = true ->
  PyStr.strip (pre ++ core ++ post) = PyStr.strip core.
Proof.
  intros Hpre Hpost. unfold PyStr.strip. rewrite (lstrip_spaces _ _ Hpre).
  induction core as [|c core IH].
  - simpl. now rewrite (lstrip_all_spaces _ Hpost).
  - change (String c core ++ post) with (String c (core ++ post)).
    unfold PyStr.lstrip; fold PyStr.lstrip.
    destruct (PyStr.is_space c); [exact IH|].
    change (String c (core ++ post)) with (String c core ++ post).
    now apply rstrip_spaces.
Qed.

(** White space around the message of a chat request makes no difference.
    For a message of ASCII text, where the white space of the embedding is
    the white space [str.strip] removes: white space put before and after
    a message gives a request that is handled, in every respect, as the
    one with the message itself; and a request is handled as the one whose
    message is already stripped. *)
Theorem chat_ignores_surrounding_whitespace
        (now : nat -> Z) (json_loads : string -> option json)
        (json_dumps py_repr : json -> string) (coerce_str : json -> option string)
        (ask : list Turn -> string -> GatewayReply)
        (user_id message : string) (w : World) :
  PyStr.isascii message = true ->
  (forall pre post,
      all_chars PyStr.is_space pre = true ->
      all_chars PyStr.is_space post = true ->
      chat now json_loads json_dumps py_repr coerce_str ask
           {| req_user_id := user_id; req_message := pre ++ message ++ post |} w
      = chat now json_loads json_dumps py_repr coerce_str ask
             {| req_user_id := user_id; req_message := message |} w)
  /\ chat now json_loads json_dumps py_repr coerce_str ask
          {| req_user_id := user_id; req_message := message |} w
     = chat now json_loads json_dumps py_repr coerce_str ask
            {| req_user_id := user_id; req_message := PyStr.strip message |} w.
Proof.
  intros _. split.
  - intros pre post Hpre Hpost.
    unfold chat. simpl req_user_id. simpl req_message.
    now rewrite (strip_surrounded _ _ _ Hpre Hpost).
  - unfold chat. simpl req_user_id. simpl req_message.
    now rewrite strip_idempotent.
Qed.

Lemma chat_ignores_surrounding_whitespace_witness :
  Sample.chat {| req_user_id := "user1";
                 req_message := "  " ++ "cek ORD12345" ++ nl |} Sample.seeded
  = Sample.chat {| req_user_id := "user1"; req_message := "cek ORD12345" |}
                Sample.seeded.
Proof.
  refine (proj1 (chat_ignores_surrounding_whitespace
                   Sample.now Sample.reject Sample.dumps Sample.repr Sample.coerce
                   Sample.small_talk "user1" "cek ORD12345" Sample.seeded _)
                "  " nl _ _).
  - reflexivity.
  - reflexivity.
  - reflexivity.
Defined.

(** ** The pattern table *)

Lemma regex_eqb_refl (r : Re.regex) : Re.regex_eqb r r = true.
Proof.
  induction r; simpl; auto using String.eqb_refl.
  - now rewrite IHr1, IHr2.
  - now rewrite IHr1, IHr2.
Qed.

Lemma regex_eqb_eq (a b : Re.regex) : Re.regex_eqb a b = true -> a = b.
Proof.
  revert b. induction a as [s| | |a1 IH1 a2 IH2|a1 IH1 a2 IH2];
    intros [t| | |b1 b2|b1 b2]; simpl; try discriminate; intros H.
  - apply String.eqb_eq in H. now subst.
  - reflexivity.
  - reflexivity.
  - apply andb_prop in H. destruct H as [H1 H2].
    now rewrite (IH1 _ H1), (IH2 _ H2).
  - apply andb_prop in H. destruct H as [H1 H2].
    now rewrite (IH1 _ H1), (IH2 _ H2).
Qed.

Lemma regex_eqb_sym (a b : Re.regex) : Re.regex_eqb a b = Re.regex_eqb b a.
Proof.
  destruct (Re.regex_eqb a b) eqn:E1.
  - apply regex_eqb_eq in E1. subst. now rewrite regex_eqb_refl.
  - destruct (Re.regex_eqb b a) eqn:E2; [|reflexivity].
    apply regex_eqb_eq in E2. subst. now rewrite regex_eqb_refl in E1.
Qed.

(** Reading a dictionary after an assignment. *)
Lemma dict_get_after_set (k k' : Re.regex) (v : string) (d : list (Re.regex * string)) :
  dict_get k (dict_set k' v d)
  = if Re.regex_eqb k k' then Some v else dict_get k d.
Proof.
  induction d as [|[k0 v0] d IH]; simpl; [reflexivity|].
  destruct (Re.regex_eqb k' k0) eqn:E; simpl.
  - apply regex_eqb_eq in E. subst k0.
    now destruct (Re.regex_eqb k k').
  - rewrite IH. destruct (Re.regex_eqb k k0) eqn:E0; [|reflexivity].
    apply regex_eqb_eq in E0. subst k0.
    now rewrite regex_eqb_sym, E.
Qed.

Lemma mapping_covers_add (names : list string) (table : PatternTable)
      (pattern : Re.regex) (name : string) :
  mapping_covers names table -> In name names ->
  mapping_covers names ((fst table ++ [pattern])%list,
                        dict_set pattern name (snd table)).
Proof.
  intros Hcov Hname pat Hin. simpl in *. rewrite dict_get_after_set.
  destruct (Re.regex_eqb pat pattern) eqn:E; [now exists name|].
  apply in_app_or in Hin. destruct Hin as [Hin | [<- | []]].
  - now apply Hcov.
  - now rewrite regex_eqb_refl in E.
Qed.

Lemma mapping_covers_product (names : list string) (table : PatternTable)
      (product : Product) :
  mapping_covers names table -> In (p_name product) names ->
  mapping_covers names (add_product_patterns table product).
Proof.
  intros Hcov Hname. unfold add_product_patterns.
  generalize (significant_words (p_name product)). intros ws.
  assert (mapping_covers names
            ((fst table ++ [Patterns.name_pattern (PyStr.lower (p_name product))])%list,
             dict_set (Patterns.name_pattern (PyStr.lower (p_name product)))
                      (p_name product) (snd table))) as H0
      by now apply mapping_covers_add.
  revert H0. generalize ((fst table ++ [Patterns.name_pattern (PyStr.lower (p_name product))])%list,
             dict_set (Patterns.name_pattern (PyStr.lower (p_name product)))
                      (p_name product) (snd table)).
  induction ws as [|word ws IH]; intros acc Hacc; simpl; [exact Hacc|].
  apply IH. now apply mapping_covers_add.
Qed.

Lemma mapping_covers_build (names : list string) (products : list Product) :
  forall table,
    mapping_covers names table ->
    (forall p, In p products -> In (p_name p) names) ->
    mapping_covers names (fold_left add_product_patterns products table).
Proof.
  induction products as [|p ps IH]; intros table Hcov Hnames; simpl; [exact Hcov|].
  apply IH.
  - apply mapping_covers_product; [exact Hcov|]. apply Hnames. now left.
  - intros q Hq. apply Hnames. now right.
Qed.

Lemma first_match_is_covered (names : list string) (message : string)
      (mapping : list (Re.regex * string)) (patterns : list Re.regex) :
  (forall pattern, In pattern patterns ->
                   exists name, In name names /\ dict_get pattern mapping = Some name) ->
  match first_pattern_match patterns mapping message with
  | (Some _, matched) => exists name, In name names /\ matched = Some name
  | (None, matched) => matched = None
  end.
Proof.
  induction patterns as [|pat ps IH]; intros Hcov; simpl; [reflexivity|].
  destruct (Re.search_i pat message).
  - destruct (Hcov pat (or_introl eq_refl)) as (name & Hn & Hg). now exists name.
  - apply IH. intros p Hp. apply Hcov. now right.
Qed.

(** With a pattern cache that is empty or built from the present catalog,
    entity extraction names a canonical product exactly when it finds a
    product-name fragment in the message, and the product it names is in
    the catalog. *)
Theorem matched_product_is_in_catalog (now : nat -> Z) (message : string) (w : World) :
  cache_coherent w ->
  exists w' patterns,
    extract_patterns now message w = (w', Ok patterns)
    /\ match pat_product_name patterns with
       | Some _ => exists p, In p (products (store w))
                             /\ pat_matched_product patterns = Some (p_name p)
       | None => pat_matched_product patterns = None
       end.
Proof.
  intros Hc.
  destruct (get_product_patterns_coherent now w Hc) as (w' & H & Hs).
  exists w'. unfold extract_patterns. erewrite bindM_ok by exact H.
  destruct (build_patterns (products (store w))) as [pl pm] eqn:Eb.
  eexists. split; [reflexivity|]. simpl.
  assert (mapping_covers (map p_name (products (store w))) (pl, pm)) as Hcov.
  { rewrite <- Eb. apply mapping_covers_build.
    - intros pat [].
    - intros p Hp. now apply in_map. }
  pose proof (first_match_is_covered _ message pm pl Hcov) as Hfirst.
  destruct (first_pattern_match pl pm message) as [[m|] matched]; simpl.
  - destruct Hfirst as (name & Hn & ->). apply in_map_iff in Hn.
    destruct Hn as (p & <- & Hp). now exists p.
  - exact Hfirst.
Qed.

Lemma matched_product_is_in_catalog_witness :
  exists w' patterns,
    extract_patterns Sample.now "ada mouse gaming?" Sample.gaming_shop
    = (w', Ok patterns)
    /\ match pat_product_name patterns with
       | Some _ => exists p, In p (products (store Sample.gaming_shop))
                             /\ pat_matched_product patterns = Some (p_name p)
       | None => pat_matched_product patterns = None
       end.
Proof.
  apply (matched_product_is_in_catalog Sample.now "ada mouse gaming?" Sample.gaming_shop).
  left. reflexivity.
Defined.

(** ** What the order pattern finds *)

Lemma eat_digits_run (s : string) (q : option ascii) (rest : string) :
  Re.eat_digits s Some = Some (q, rest) ->
  exists digits,
    s = digits ++ rest /\ digits <> "" /\ all_chars PyStr.is_digit digits = true.
Proof.
  revert q rest. induction s as [|c s IH]; intros q rest H; simpl in H; [discriminate|].
  destruct (PyStr.is_digit c) eqn:Ec; [|discriminate].
  destruct (Re.eat_digits s Some) as [[q' r']|] eqn:E.
  - injection H as <- <-. destruct (IH _ _ eq_refl) as (ds & Hs & _ & Hd).
    exists (String c ds). simpl. rewrite Ec, Hd, <- Hs. repeat split. discriminate.
  - injection H as <- <-. exists (String c ""). simpl. rewrite Ec.
    repeat split. discriminate.
Qed.

Lemma eat_lit_run (p : string) :
  forall (cur : Re.cursor) (q : option ascii) (rest : string),
    Re.eat_lit true p cur = Some (q, rest) ->
    exists t, snd cur = t ++ rest /\ PyStr.lower t = PyStr.lower p.
Proof.
  induction p as [|a p IH]; intros [prev s] q rest H;
    unfold Re.eat_lit in H; fold Re.eat_lit in H; simpl snd in H.
  - injection H as <- <-. now exists "".
  - destruct s as [|c s]; [discriminate|].
    destruct (Re.char_eq true a c) eqn:E; [|discriminate].
    destruct (IH _ _ _ H) as (t & Hs & Hl). simpl in Hs.
    exists (String c t). simpl. rewrite Hs, Hl. split; [reflexivity|].
    unfold Re.char_eq in E. apply Ascii.eqb_eq in E. now rewrite E.
Qed.

Lemma string_app_assoc (a b c : string) : (a ++ b) ++ c = a ++ b ++ c.
Proof. induction a as [|x a IH]; simpl; [reflexivity|now rewrite IH]. Qed.

Lemma string_length_app (a b : string) :
  String.length (a ++ b) = (String.length a + String.length b)%nat.
Proof. induction a as [|x a IH]; simpl; [reflexivity|now rewrite IH]. Qed.

Lemma substring_prefix (a b : string) :
  substring 0 (String.length (a ++ b) - String.length b) (a ++ b) = a.
Proof.
  rewrite string_length_app.
  replace (String.length a + String.length b - String.length b)%nat
    with (String.length a) by lia.
  induction a as [|c a IH]; simpl.
  - now destruct b.
  - now rewrite IH.
Qed.

Lemma search_at_unfold (ic : bool) (r : Re.regex) (prev : option ascii)
      (s : string) (pos : nat) :
  Re.search_at ic r prev s pos
  = match Re.rmatch ic r (prev, s) Some with
    | Some (_, rest) =>
        Some {| Re.m_start := pos;
                Re.m_text := substring 0 (String.length s - String.length rest) s |}
    | None =>
        match s with
        | EmptyString => None
        | String c s' => Re.search_at ic r (Some c) s' (S pos)
        end
    end.
Proof. destruct s; reflexivity. Qed.

Lemma order_id_match (ic : bool) (cur : Re.cursor) :
  Re.rmatch ic Patterns.ORDER_ID cur Some
  = match Re.eat_lit ic "ORD" cur with
    | Some c' => Re.eat_digits (snd c') Some
    | None => None
    end.
Proof. reflexivity. Qed.

Lemma order_match_shape (s : string) :
  forall prev pos m,
    Re.search_at true Patterns.ORDER_ID prev s pos = Some m ->
    exists before letters digits rest,
      s = before ++ letters ++ digits ++ rest
      /\ Re.m_text m = letters ++ digits
      /\ Re.m_start m = (pos + String.length before)%nat
      /\ PyStr.lower letters = "ord"
      /\ digits <> ""
      /\ all_chars PyStr.is_digit digits = true.
Proof.
  induction s as [|c s IH]; intros prev pos m H; rewrite search_at_unfold in H.
  - simpl in H. discriminate.
  - remember (String c s) as s0 eqn:Es0.
    destruct (Re.rmatch true Patterns.ORDER_ID (prev, s0) Some)
      as [[q rest]|] eqn:E.
    + injection H as <-. rewrite order_id_match in E.
      destruct (Re.eat_lit true "ORD" (prev, s0)) as [[q1 r1]|] eqn:El;
        [|discriminate].
      destruct (eat_lit_run _ _ _ _ El) as (letters & Hs & Hl).
      destruct (eat_digits_run _ _ _ E) as (digits & Hd & Hne & Hall).
      simpl in Hs, Hd. subst r1.
      exists "", letters, digits, rest. cbn [Re.m_text Re.m_start].
      rewrite Hs. split; [reflexivity|].
      split; [|repeat split; try assumption; simpl; lia].
      rewrite <- string_app_assoc. apply substring_prefix.
    + subst s0.
      destruct (IH _ _ _ H) as (before & letters & digits & rest & Hs & Ht & Hp & Hl & Hd).
      exists (String c before), letters, digits, rest. simpl.
      rewrite Hs, Ht, Hp. repeat split; try apply Hd; try assumption. lia.
Qed.

(** The order reference of entity extraction in a message of ASCII text
    is a piece of the message: the letters "ord" in any case followed by
    one or more digits, found at the position the match reports; the fallback classifier hands that
    text, as written in the message, to [get_order_status]. *)
Theorem order_reference_is_in_the_message (message : string) (m : Re.re_match)
        (patterns : ExtractedPatterns) :
  PyStr.isascii message = true ->
  Re.search_i Patterns.ORDER_ID message = Some m ->
  pat_order_id patterns = Some m ->
  exists before letters digits rest,
    message = before ++ letters ++ digits ++ rest
    /\ String.length before = Re.m_start m
    /\ PyStr.lower letters = "ord"
    /\ digits <> ""
    /\ all_chars PyStr.is_digit digits = true
    /\ determine_fallback_action message patterns
       = Some (action "get_order_status" (letters ++ digits)).
Proof.
  intros _ Hm Hp.
  destruct (order_match_shape message None 0 m Hm)
    as (before & letters & digits & rest & Hs & Ht & Hpos & Hl & Hne & Hall).
  exists before, letters, digits, rest. repeat split; try assumption.
  - now rewrite Hpos.
  - rewrite (fallback_order_first _ _ _ Hp). unfold Re.group. now rewrite Ht.
Qed.

Lemma order_reference_is_in_the_message_witness :
  exists before letters digits rest,
    "paket Ord007x belum sampai" = before ++ letters ++ digits ++ rest
    /\ String.length before = 6
    /\ PyStr.lower letters = "ord"
    /\ digits <> ""
    /\ all_chars PyStr.is_digit digits = true
    /\ determine_fallback_action
         "paket Ord007x belum sampai"
         {| pat_order_id := Some {| Re.m_start := 6; Re.m_text := "Ord007" |};
            pat_product_id := None; pat_product_name := None;
            pat_matched_product := None |}
       = Some (action "get_order_status" (letters ++ digits)).
Proof.
  apply (order_reference_is_in_the_message
           "paket Ord007x belum sampai"
           {| Re.m_start := 6; Re.m_text := "Ord007" |}).
  - reflexivity.
  - vm_compute. reflexivity.
  - reflexivity.
Defined.

(** ** An order question answered by the fallback *)

Lemma digit_not_space (c : ascii) : PyStr.is_digit c = true -> not_space c = true.
Proof. destruct c as [[] [] [] [] [] [] [] []]; intros H; try discriminate H; reflexivity. Qed.

Lemma lower_keeps_space (c : ascii) :
  PyStr.is_space (PyStr.lower_char c) = PyStr.is_space c.
Proof. destruct c as [[] [] [] [] [] [] [] []]; reflexivity. Qed.

Lemma all_chars_app (f : ascii -> bool) (a b : string) :
  all_chars f (a ++ b) = all_chars f a && all_chars f b.
Proof. induction a as [|c a IH]; simpl; [reflexivity|]. now rewrite IH, andb_assoc. Qed.

Lemma all_chars_weaken (f g : ascii -> bool) (s : string) :
  (forall c, f c = true -> g c = true) ->
  all_chars f s = true -> all_chars g s = true.
Proof.
  intros Hfg. induction s as [|c s IH]; simpl; [reflexivity|].
  intros H. apply andb_prop in H. destruct H as [Hc Hs].
  now rewrite (Hfg c Hc), IH.
Qed.

Lemma lower_without_space (s t : string) :
  PyStr.lower s = t -> all_chars not_space t = true -> all_chars not_space s = true.
Proof.
  revert t. induction s as [|c s IH]; intros t <- H; [reflexivity|].
  simpl in *. apply andb_prop in H. destruct H as [Hc Hs].
  unfold not_space in *. rewrite lower_keeps_space in Hc.
  now rewrite Hc, (IH _ eq_refl Hs).
Qed.

Lemma strip_without_space (s : string) :
  all_chars not_space s = true -> PyStr.strip s = s.
Proof.
  intros H. unfold PyStr.strip.
  assert (PyStr.lstrip s = s) as ->.
  { destruct s as [|c s]; [reflexivity|]. simpl in *.
    apply andb_prop in H. destruct H as [Hc _]. unfold not_space in Hc.
    now destruct (PyStr.is_space c). }
  induction s as [|c s IH]; [reflexivity|]. simpl in *.
  apply andb_prop in H. destruct H as [Hc Hs]. rewrite (IH Hs).
  unfold not_space in Hc. destruct s; [|reflexivity].
  now destruct (PyStr.is_space c).
Qed.

Lemma order_text_is_clean (message : string) (m : Re.re_match) :
  Re.search_i Patterns.ORDER_ID message = Some m ->
  PyStr.strip (Re.group m) = Re.group m /\ PyStr.nonempty (Re.group m) = true.
Proof.
  intros Hm.
  destruct (order_match_shape message None 0 m Hm)
    as (before & letters & digits & rest & _ & Ht & _ & Hl & Hne & Hall).
  unfold Re.group. rewrite Ht. split.
  - apply strip_without_space. rewrite all_chars_app.
    rewrite (lower_without_space letters "ord" Hl eq_refl).
    now rewrite (all_chars_weaken _ _ _ digit_not_space Hall).
  - destruct letters; [discriminate Hl|reflexivity].
Qed.

Lemma own_order_is_found (s : Store) (user_id : string) (o : Order) :
  NoDup (map o_order_id (orders s)) -> In o (orders s) ->
  get_user_order_status s (o_user_id o) (o_order_id o) = order_found s o.
Proof.
  intros Hnd Hin. unfold get_user_order_status.
  rewrite (filter_and (fun x => String.eqb (o_order_id x) (o_order_id o))
                      (fun x => String.eqb (o_user_id x) (o_user_id o))).
  rewrite (filter_unique_key o_order_id _ o Hnd Hin). simpl.
  now rewrite String.eqb_refl.
Qed.

Lemma no_such_order_of_user (s : Store) (user_id order_id : string) :
  (forall o, In o (orders s) -> o_order_id o = order_id -> o_user_id o <> user_id) ->
  get_user_order_status s user_id order_id = order_not_found order_id.
Proof.
  intros H. unfold get_user_order_status. rewrite filter_none; [reflexivity|].
  intros o Ho. destruct (String.eqb (o_order_id o) order_id) eqn:E; [|reflexivity].
  apply String.eqb_eq in E. simpl. now apply String.eqb_neq, H.
Qed.

Lemma found_reply (py_repr : json -> string) (s : Store) (o : Order) :
  order_reply py_repr (order_found s o) = status_sentence o.
Proof.
  unfold status_sentence, order_reply.
  destruct (o_tracking o) as [t|] eqn:Et; [destruct t|];
    simpl; rewrite ?Et; reflexivity.
Qed.

(** An explicit order id is looked up for the requesting user. *)
Lemma run_order_status_explicit (py_repr : json -> string) (user_id x : string)
      (last_messages : list Turn) (w : World) :
  PyStr.strip x = x -> PyStr.nonempty x = true ->
  run_order_status py_repr user_id last_messages (JStr x) w
  = (w, Ok (Some (get_user_order_status (store w) user_id x),
            order_reply py_repr (get_user_order_status (store w) user_id x))).
Proof.
  intros Hs Hne. unfold run_order_status, as_str. cbv beta iota.
  rewrite bindM_lift, bindM_reads, Hs, Hne. reflexivity.
Qed.

(** Up to the reply: with no usable suggestion of the model and no
    warranty question, a message with an order reference makes the request
    run [get_order_status] with that reference. *)
Lemma order_question_reaches_tool
      (now : nat -> Z) (json_loads : string -> option json)
      (json_dumps py_repr : json -> string) (coerce_str : json -> option string)
      (ask : list Turn -> string -> GatewayReply)
      (req : ChatRequest) (w : World) (llm_text : string) (m : Re.re_match) :
  ask (get_last_n_messages
         (store (fst (persist_message now (req_user_id req) "user"
                        (PyStr.strip (req_message req)) w)))
         (req_user_id req) 3)
      (PyStr.strip (req_message req)) = Text llm_text ->
  no_action (try_parse_json_action json_loads llm_text) = Ok true ->
  Re.matches (Re.search_i Patterns.WARRANTY (PyStr.strip (req_message req))) = false ->
  Re.search_i Patterns.ORDER_ID (PyStr.strip (req_message req)) = Some m ->
  exists w2 w3,
    orders (store w2) = orders (store w)
    /\ products (store w2) = products (store w)
    /\ chat now json_loads json_dumps py_repr coerce_str ask req w
       = (w3, Ok {| reply := order_reply py_repr
                               (get_user_order_status (store w2) (req_user_id req)
                                                      (Re.group m));
                    tool_called := Some "get_order_status";
                    tool_output := Some (get_user_order_status
                                           (store w2) (req_user_id req)
                                           (Re.group m)) |}).
Proof.
  intros Hask Hno Hw Hm.
  destruct (order_text_is_clean _ _ Hm) as [Hstrip Hne].
  rewrite persist_message_run in Hask. simpl fst in Hask.
  unfold chat. erewrite bindM_ok by apply persist_message_run.
  rewrite bindM_reads, Hask, bindM_reads.
  rewrite safeguard_not_warranty by exact Hw.
  match goal with |- context [bindM _ _ ?w1 = _] =>
    destruct (extract_patterns_returns now (PyStr.strip (req_message req)) w1)
      as (w2 & p & Hx & Hs & Hpo & _) end.
  rewrite Hm in Hpo.
  exists w2.
  erewrite bindM_ok;
    [|rewrite settle_action_fallback by exact Hno;
      erewrite bindM_ok by exact Hx; reflexivity].
  rewrite (fallback_order_first _ _ _ Hpo).
  unfold execute_tools.
  change (runnable (Some (action "get_order_status" (Re.group m))))
    with (@Ok (option json) (Some (JStr "get_order_status"))).
  rewrite bindM_lift.
  change (Py.get_default (action "get_order_status" (Re.group m)) "action_input" (JStr ""))
    with (Ok (JStr (Re.group m))).
  rewrite bindM_lift.
  match goal with |- context [run_tool ?r ?u ?um ?l _ _] =>
    change (run_tool r u um l (JStr "get_order_status") (JStr (Re.group m)))
      with (run_order_status r u l (JStr (Re.group m))) end.
  erewrite bindM_ok by (apply run_order_status_explicit; assumption).
  cbv beta iota.
  erewrite bindM_ok by apply persist_message_run.
  erewrite bindM_ok by apply persist_message_run.
  eexists. rewrite Hs.
  split; [reflexivity|]. split; [reflexivity|]. reflexivity.
Qed.

(** An order id, once stripped and not empty, is looked up for the
    requesting user. *)
Lemma run_order_status_stripped (py_repr : json -> string) (user_id raw : string)
      (last_messages : list Turn) (w : World) :
  PyStr.nonempty (PyStr.strip raw) = true ->
  run_order_status py_repr user_id last_messages (JStr raw) w
  = (w, Ok (Some (get_user_order_status (store w) user_id (PyStr.strip raw)),
            order_reply py_repr
              (get_user_order_status (store w) user_id (PyStr.strip raw)))).
Proof.
  intros Hne. unfold run_order_status, as_str. cbv beta iota.
  rewrite bindM_lift, bindM_reads, Hne. reflexivity.
Qed.

(** C9.  A chat request to which the safeguard does not apply runs
    [get_order_status] with an explicit, non-empty order id in two ways:
    the model's action names the tool and gives the id (blanks around it
    are stripped), or the model gives no action and the fallback finds the
    id in the message.  Either way the lookup is made for the user of the
    request: when the id is that of an order of the store that belongs to
    somebody else, the tool output is [found = false] and the reply is the
    not-found sentence, while [GET /order/{order_id}] returns that same
    order.  The message and the model's order id are of ASCII text. *)
Theorem chat_order_lookup_is_per_user
        (now : nat -> Z) (json_loads : string -> option json)
        (json_dumps py_repr : json -> string) (coerce_str : json -> option string)
        (ask : list Turn -> string -> GatewayReply)
        (req : ChatRequest) (w : World) (llm_text : string) (o : Order) :
  NoDup (map o_order_id (orders (store w))) ->
  In o (orders (store w)) ->
  o_user_id o <> req_user_id req ->
  PyStr.nonempty (o_order_id o) = true ->
  PyStr.isascii (req_message req) = true ->
  ask (get_last_n_messages
         (store (fst (persist_message now (req_user_id req) "user"
                        (PyStr.strip (req_message req)) w)))
         (req_user_id req) 3)
      (PyStr.strip (req_message req)) = Text llm_text ->
  Re.matches (Re.search_i Patterns.WARRANTY (PyStr.strip (req_message req))) = false ->
  (forall (kv : list (string * json)) (raw : string),
      try_parse_json_action json_loads llm_text = Some (JObj kv) ->
      Py.lookup "action" kv = Some (JStr "get_order_status") ->
      Py.lookup "action_input" kv = Some (JStr raw) ->
      PyStr.isascii raw = true ->
      PyStr.strip raw = o_order_id o ->
      exists w',
        chat now json_loads json_dumps py_repr coerce_str ask req w
        = (w', Ok {| reply := ORDER_NOT_FOUND_REPLY;
                     tool_called := Some "get_order_status";
                     tool_output := Some (order_not_found (o_order_id o)) |}))
  /\ (forall m : Re.re_match,
        no_action (try_parse_json_action json_loads llm_text) = Ok true ->
        Re.search_i Patterns.ORDER_ID (PyStr.strip (req_message req)) = Some m ->
        Re.group m = o_order_id o ->
        exists w',
          chat now json_loads json_dumps py_repr coerce_str ask req w
          = (w', Ok {| reply := ORDER_NOT_FOUND_REPLY;
                       tool_called := Some "get_order_status";
                       tool_output := Some (order_not_found (o_order_id o)) |}))
  /\ order_status_endpoint (o_order_id o) w = (w, Ok (order_found (store w) o)).
Proof.
  intros Hnd Hin Hu Hne _ Hask Hw. split; [|split].
  - intros kv raw Hparse Hact Hinput _ Hraw.
    rewrite persist_message_run in Hask. simpl fst in Hask.
    unfold chat. erewrite bindM_ok by apply persist_message_run.
    rewrite bindM_reads, Hask, bindM_reads.
    rewrite safeguard_not_warranty by exact Hw.
    unfold bindM at 1, settle_action. rewrite Hparse.
    unfold no_action, Py.get. rewrite (lookup_nonempty _ _ _ Hact), Hact.
    simpl negb. cbv iota. unfold bind.
    change (Py.eq_str (JStr "get_order_status") "none") with false.
    unfold bindM at 1, lift at 1. cbv beta iota. unfold ret at 1.
    unfold execute_tools, runnable, Py.get.
    rewrite (lookup_nonempty _ _ _ Hact), Hact. simpl negb. cbv iota. unfold bind.
    change (Py.eq_str (JStr "get_order_status") "none") with false.
    change (Py.truthy (JStr "get_order_status")) with true.
    simpl andb. rewrite bindM_lift.
    unfold Py.get_default. rewrite Hinput, bindM_lift.
    match goal with |- context [run_tool ?r ?u ?um ?l _ _] =>
      change (run_tool r u um l (JStr "get_order_status") (JStr raw))
        with (run_order_status r u l (JStr raw)) end.
    erewrite bindM_ok
      by (apply run_order_status_stripped; rewrite Hraw; exact Hne).
    cbv beta iota. rewrite Hraw.
    match goal with |- context [get_user_order_status ?s _ _] =>
      rewrite (user_order_of_other_user s (req_user_id req) o Hnd Hin Hu) end.
    erewrite bindM_ok by apply persist_message_run.
    erewrite bindM_ok by apply persist_message_run.
    eexists. reflexivity.
  - intros m Hno Hm Hg.
    destruct (order_question_reaches_tool now json_loads json_dumps py_repr coerce_str
                ask req w llm_text m Hask Hno Hw Hm)
      as (w2 & w3 & Ho & _ & Hchat).
    rewrite <- Ho in Hnd, Hin.
    rewrite Hg, (user_order_of_other_user _ _ _ Hnd Hin Hu) in Hchat.
    exists w3. exact Hchat.
  - unfold order_status_endpoint, bindM, reads.
    rewrite (any_order_by_key _ _ Hnd Hin). reflexivity.
Qed.

Lemma chat_order_lookup_is_per_user_witness :
  (exists w',
      chat Sample.now Cases2.decode_lookup Sample.dumps Sample.repr Sample.coerce
           Cases2.suggests_lookup
           {| req_user_id := "user1"; req_message := "pesanan teman saya gimana?" |}
           Sample.seeded
      = (w', Ok {| reply := ORDER_NOT_FOUND_REPLY;
                   tool_called := Some "get_order_status";
                   tool_output := Some (order_not_found "ORD23456") |}))
  /\ order_status_endpoint "ORD23456" Sample.seeded
     = (Sample.seeded, Ok (order_found (store Sample.seeded) Cases2.order_of_user2)).
Proof.
  assert (NoDup (map o_order_id (orders (store Sample.seeded)))) as Hnd
      by (vm_compute; repeat constructor; simpl; intuition discriminate).
  assert (In Cases2.order_of_user2 (orders (store Sample.seeded))) as Hin
      by (vm_compute; right; left; reflexivity).
  destruct (chat_order_lookup_is_per_user
              Sample.now Cases2.decode_lookup Sample.dumps Sample.repr Sample.coerce
              Cases2.suggests_lookup
              {| req_user_id := "user1"; req_message := "pesanan teman saya gimana?" |}
              Sample.seeded Cases2.LOOKUP_TEXT Cases2.order_of_user2
              Hnd Hin)
    as (Hmodel & _ & Hendpoint).
  - discriminate.
  - reflexivity.
  - reflexivity.
  - reflexivity.
  - vm_compute. reflexivity.
  - split; [|exact Hendpoint].
    apply (Hmodel [ ("action", JStr "get_order_status");
                    ("action_input", JStr " ORD23456 ") ] " ORD23456 ").
    + vm_compute. reflexivity.
    + reflexivity.
    + reflexivity.
    + reflexivity.
    + reflexivity.
Defined.

(** The scenario of an order question, in general.  The safeguard does
    not apply, the model gives no usable action, and the message, of ASCII
    text, holds an order reference.  Then the request looks up, for the requesting user,
    the order whose id is the reference as written in the message: when
    the user has it, the reply is its status sentence, with the tracking
    number if there is one; when no order of the user has that id, as for
    a reference typed in lower case against an id stored in upper case,
    the reply is the not-found sentence. *)
Theorem order_question_is_answered
        (now : nat -> Z) (json_loads : string -> option json)
        (json_dumps py_repr : json -> string) (coerce_str : json -> option string)
        (ask : list Turn -> string -> GatewayReply)
        (req : ChatRequest) (w : World) (llm_text : string) (m : Re.re_match) :
  PyStr.isascii (req_message req) = true ->
  NoDup (map o_order_id (orders (store w))) ->
  ask (get_last_n_messages
         (store (fst (persist_message now (req_user_id req) "user"
                        (PyStr.strip (req_message req)) w)))
         (req_user_id req) 3)
      (PyStr.strip (req_message req)) = Text llm_text ->
  no_action (try_parse_json_action json_loads llm_text) = Ok true ->
  Re.matches (Re.search_i Patterns.WARRANTY (PyStr.strip (req_message req))) = false ->
  Re.search_i Patterns.ORDER_ID (PyStr.strip (req_message req)) = Some m ->
  (forall o,
      In o (orders (store w)) -> o_order_id o = Re.group m ->
      o_user_id o = req_user_id req ->
      exists w' found,
        chat now json_loads json_dumps py_repr coerce_str ask req w
        = (w', Ok {| reply := status_sentence o;
                     tool_called := Some "get_order_status";
                     tool_output := Some found |})
        /\ item found "found" = JBool true
        /\ item found "order_id" = JStr (o_order_id o))
  /\ ((forall o, In o (orders (store w)) -> o_order_id o = Re.group m ->
                 o_user_id o <> req_user_id req) ->
      exists w',
        chat now json_loads json_dumps py_repr coerce_str ask req w
        = (w', Ok {| reply := ORDER_NOT_FOUND_REPLY;
                     tool_called := Some "get_order_status";
                     tool_output := Some (order_not_found (Re.group m)) |})).
Proof.
  intros _ Hnd Hask Hno Hw Hm.
  destruct (order_question_reaches_tool now json_loads json_dumps py_repr coerce_str
              ask req w llm_text m Hask Hno Hw Hm)
    as (w2 & w3 & Ho & Hp & Hchat).
  rewrite <- Ho in Hnd. split.
  - intros o Hin Hid Hu. rewrite <- Ho in Hin.
    rewrite <- Hid, <- Hu, (own_order_is_found _ (o_user_id o) _ Hnd Hin) in Hchat.
    rewrite found_reply in Hchat.
    exists w3, (order_found (store w2) o). split; [exact Hchat|]. split; reflexivity.
  - intros Hnone.
    rewrite (no_such_order_of_user (store w2)) in Hchat
      by (rewrite Ho; exact Hnone).
    exists w3. exact Hchat.
Qed.

Lemma order_question_is_answered_witness :
  exists w' found,
    Sample.chat {| req_user_id := "user1";
                   req_message := "ORD12345 sudah sampai belum?" |} Sample.seeded
    = (w', Ok {| reply := "Pesanan ORD12345 saat ini berstatus: Shipped. Tracking: TRACK123.";
                 tool_called := Some "get_order_status";
                 tool_output := Some found |})
    /\ item found "found" = JBool true
    /\ item found "order_id" = JStr "ORD12345".
Proof.
  refine (proj1 (order_question_is_answered
                   Sample.now Sample.reject Sample.dumps Sample.repr Sample.coerce
                   Sample.small_talk
                   {| req_user_id := "user1";
                      req_message := "ORD12345 sudah sampai belum?" |}
                   Sample.seeded "Ada yang bisa saya bantu?"
                   {| Re.m_start := 0; Re.m_text := "ORD12345" |} _ _ _ _ _ _)
                {| o_id := 1; o_order_id := "ORD12345"; o_user_id := "user1";
                   o_status := "Shipped"; o_tracking := Some "TRACK123";
                   o_created_at := 0; o_product_id := "P123" |} _ _ _).
  - reflexivity.
  - vm_compute. repeat constructor; simpl; intuition discriminate.
  - reflexivity.
  - reflexivity.
  - vm_compute. reflexivity.
  - vm_compute. reflexivity.
  - left. reflexivity.
  - reflexivity.
  - reflexivity.
Defined.

(** ** An action whose input is not a string *)

(** When the safeguard does not apply (to a message of ASCII text) and
    the model's action is [get_order_status] with an input that is not a
    string (a number,
    [null], a list), stripping the input raises: the request fails after
    the user's message was persisted, with no tool and no assistant turn. *)
Theorem non_string_input_fails_the_request
        (now : nat -> Z) (json_loads : string -> option json)
        (json_dumps py_repr : json -> string) (coerce_str : json -> option string)
        (ask : list Turn -> string -> GatewayReply)
        (req : ChatRequest) (w : World) (llm_text : string)
        (kv : list (string * json)) (input : json) :
  PyStr.isascii (req_message req) = true ->
  ask (get_last_n_messages
         (store (fst (persist_message now (req_user_id req) "user"
                        (PyStr.strip (req_message req)) w)))
         (req_user_id req) 3)
      (PyStr.strip (req_message req)) = Text llm_text ->
  Re.matches (Re.search_i Patterns.WARRANTY (PyStr.strip (req_message req))) = false ->
  try_parse_json_action json_loads llm_text = Some (JObj kv) ->
  Py.lookup "action" kv = Some (JStr "get_order_status") ->
  Py.lookup "action_input" kv = Some input ->
  (forall s, input <> JStr s) ->
  chat now json_loads json_dumps py_repr coerce_str ask req w
  = (fst (persist_message now (req_user_id req) "user"
                          (PyStr.strip (req_message req)) w),
     Raise AttributeError).
Proof.
  intros _ Hask Hw Hparse Hact Hin Hnot.
  rewrite persist_message_run in *. simpl fst in *.
  assert (as_str input = Raise AttributeError) as Hraise.
  { destruct input; try reflexivity. now destruct (Hnot s). }
  unfold chat. erewrite bindM_ok by apply persist_message_run.
  rewrite bindM_reads, Hask, bindM_reads.
  rewrite safeguard_not_warranty by exact Hw.
  unfold bindM at 1, settle_action. rewrite Hparse.
  unfold no_action, Py.get. rewrite (lookup_nonempty _ _ _ Hact), Hact.
  simpl negb. cbv iota. unfold bind.
  change (Py.eq_str (JStr "get_order_status") "none") with false.
  unfold bindM at 1, lift at 1. cbv beta iota. unfold ret at 1.
  unfold execute_tools, runnable, Py.get.
  rewrite (lookup_nonempty _ _ _ Hact), Hact. simpl negb. cbv iota. unfold bind.
  change (Py.eq_str (JStr "get_order_status") "none") with false.
  change (Py.truthy (JStr "get_order_status")) with true.
  simpl andb. rewrite bindM_lift.
  unfold Py.get_default. rewrite Hin, bindM_lift.
  match goal with |- context [run_tool ?r ?u ?um ?l _ _] =>
    change (run_tool r u um l (JStr "get_order_status") input)
      with (run_order_status r u l input) end.
  unfold run_order_status. unfold bindM at 1 2, lift at 1. now rewrite Hraise.
Qed.

Lemma non_string_input_fails_the_request_witness :
  chat Sample.now Cases2.decode_number Sample.dumps Sample.repr Sample.coerce
       Cases2.suggests_number
       {| req_user_id := "user1"; req_message := "cek pesanan 12345" |} Sample.seeded
  = (fst (persist_message Sample.now "user1" "user" "cek pesanan 12345" Sample.seeded),
     Raise AttributeError).
Proof.
  apply (non_string_input_fails_the_request
           Sample.now Cases2.decode_number Sample.dumps Sample.repr Sample.coerce
           Cases2.suggests_number
           {| req_user_id := "user1"; req_message := "cek pesanan 12345" |}
           Sample.seeded Cases2.NUMBER_TEXT
           [ ("action", JStr "get_order_status"); ("action_input", JInt 12345) ]
           (JInt 12345)).
  - reflexivity.
  - reflexivity.
  - reflexivity.
  - vm_compute. reflexivity.
  - reflexivity.
  - reflexivity.
  - discriminate.
Defined.

(** ** What seeding leaves in the store *)

Lemma next_key_is_fresh {A : Type} (key : A -> Z) (rows : list A) (r : A) :
  In r rows -> (key r < Sql.next_key key rows)%Z.
Proof.
  unfold Sql.next_key. intros H.
  assert (key r <= fold_right (fun r m => Z.max (key r) m) 0 rows)%Z; [|lia].
  induction rows as [|x rows IH]; [contradiction|].
  cbn [fold_right]. destruct H as [-> | H].
  - apply Z.le_max_l.
  - etransitivity; [apply (IH H)|apply Z.le_max_r].
Qed.

Lemma find_app_right {A : Type} (f : A -> bool) (l1 l2 : list A) :
  (forall x, In x l1 -> f x = false) -> find f (l1 ++ l2) = find f l2.
Proof.
  induction l1 as [|a l1 IH]; intros H; [reflexivity|]. simpl.
  rewrite (H a (or_introl eq_refl)). apply IH. intros x Hx. apply H. now right.
Qed.

Lemma key_not_taken (s : Store) (p : Product) :
  key_taken s p = false ->
  forall q, In q (products s) -> String.eqb (p_id q) (p_id p) = false.
Proof.
  unfold key_taken. intros H q Hq.
  destruct (String.eqb (p_id q) (p_id p)) eqn:E; [|reflexivity].
  rewrite <- H. symmetry. apply existsb_exists. now exists q.
Qed.

Lemma seeded_product_is_found (old : list Product) (k : Z) (p : Product) :
  In p (seed_products k) ->
  (forall q, In q old -> String.eqb (p_id q) (p_id p) = false) ->
  find (fun q => String.eqb (p_id q) (p_id p)) (old ++ seed_products k)%list = Some p.
Proof.
  intros Hp Hold. rewrite (find_app_right _ _ _ Hold).
  destruct Hp as [<- | [<- | [<- | []]]]; reflexivity.
Qed.

Lemma seeded_warranty_is_found (old : list Warranty) (k : Z) (p : Product) :
  In p (seed_products k) ->
  (forall x, In x old -> (w_id x < k)%Z) ->
  exists warranty,
    match p_warranty_id p with
    | Some i => find (fun x => Z.eqb (w_id x) i) (old ++ seed_warranties k)%list
    | None => None
    end = Some warranty.
Proof.
  intros Hp Hold.
  assert (forall i, (k <= i)%Z ->
                    forall x, In x old -> Z.eqb (w_id x) i = false) as Hfresh.
  { intros i Hi x Hx. apply Z.eqb_neq. specialize (Hold x Hx). lia. }
  assert (Z.eqb k (k + 1) = false) as Hkk by (apply Z.eqb_neq; lia).
  destruct Hp as [<- | [<- | [<- | []]]]; cbn [p_warranty_id];
    rewrite (find_app_right _ old) by (apply Hfresh; lia);
    cbn [seed_warranties find w_id];
    rewrite ?Z.eqb_refl, ?Hkk; eexists; reflexivity.
Qed.

(** When [seed_database] seeds a store (no order yet, none of the three
    product keys taken), then afterwards every order of the store refers to
    a product of the store, and that product has its warranty: whatever
    products and warranties the store held before. *)
Theorem seeded_orders_are_complete (now : nat -> Z) (w : World) :
  orders (store w) = [] ->
  snd (seed_database now w) = Ok tt ->
  forall o,
    In o (orders (store (fst (seed_database now w)))) ->
    exists p warranty,
      order_product (store (fst (seed_database now w))) o = Some p
      /\ In p (products (store (fst (seed_database now w))))
      /\ product_warranty (store (fst (seed_database now w))) p = Some warranty.
Proof.
  intros Hempty Hok. unfold seed_database in *. rewrite Hempty in *.
  destruct (existsb (key_taken (store w))
                    (seed_products (Sql.next_key w_id (warranties (store w)))))
    eqn:Ek; [discriminate|].
  set (k := Sql.next_key w_id (warranties (store w))) in *.
  assert (forall p, In p (seed_products k) ->
                    forall q, In q (products (store w)) ->
                              String.eqb (p_id q) (p_id p) = false) as Hfree.
  { intros p Hp. apply key_not_taken.
    destruct (key_taken (store w) p) eqn:E; [|reflexivity].
    rewrite <- Ek. symmetry. apply existsb_exists. now exists p. }
  assert (forall x, In x (warranties (store w)) -> (w_id x < k)%Z) as Hk
      by (intros x Hx; now apply next_key_is_fresh).
  cbn [fst store with_store tick read_clock bindM products warranties orders].
  intros o Ho.
  assert (exists p, In p (seed_products k) /\ o_product_id o = p_id p) as (p & Hp & Hid).
  { assert (exists p1 p2 p3,
               seed_products k = [p1; p2; p3]
               /\ p_id p1 = "P123" /\ p_id p2 = "P234" /\ p_id p3 = "P345")
      as (p1 & p2 & p3 & Hl & H1 & H2 & H3)
        by (do 3 eexists; repeat split).
    rewrite Hl. cbn in Ho.
    destruct Ho as [<- | [<- | [<- | []]]];
      [exists p1|exists p2|exists p3]; cbn; auto. }
  destruct (seeded_warranty_is_found (warranties (store w)) k p Hp Hk) as [wa Hwa].
  exists p, wa. unfold order_product, product_warranty.
  cbn [products warranties]. rewrite Hid.
  split; [now apply seeded_product_is_found; [|apply Hfree]|].
  split; [apply in_or_app; now right|exact Hwa].
Qed.

Lemma seeded_orders_are_complete_witness :
  exists p warranty,
    order_product (store Sample.seeded)
      {| o_id := 2; o_order_id := "ORD23456"; o_user_id := "user2";
         o_status := "Processing"; o_tracking := None;
         o_created_at := 1; o_product_id := "P234" |} = Some p
    /\ In p (products (store Sample.seeded))
    /\ product_warranty (store Sample.seeded) p = Some warranty.
Proof.
  apply (seeded_orders_are_complete Sample.now Sample.boot).
  - reflexivity.
  - reflexivity.
  - right. left. reflexivity.
Defined.
